(** * anakinls: a shallow embedding of [anakinls/server.py]

    The development follows the layout of the Python module: the protocol
    value types of [pygls.types] that the server builds, the process-wide
    state ([scripts], [pycodestyleOptions], [mypyConfigs], [config]), the
    handle cache [get_script], the reporters that turn checker findings into
    diagnostics, the validation pass, the location and configuration
    handlers, and the diff-to-edit synthesis used by the "inline variable"
    code action.

    The analysis engine (jedi), the checkers (pyflakes, pycodestyle, mypy),
    [parso], [difflib] and [pygls] are external to the module: what the
    module asks of them is a field of the class [Externals] or of the
    records of [Jedi], and what it sends to the editor or runs is recorded
    in an event trace. Completion, hover, signature help and document
    symbols are in the module [Features], with the engine queries they
    make as the class [Engine]. *)

From stdpp Require Import base option list strings gmap.
From Stdlib Require Import ZArith Lia Ascii.

Local Open Scope Z_scope.

(** ** Python values *)

Module Py.

(** Exceptions the module can let through or catch. *)
Inductive exn :=
| IndexError (msg : string)
| KeyError (msg : string)
| ValueError (msg : string)
| AssertionError (msg : string)
| RefactoringError (msg : string)
| OSError (msg : string)
| Exception (msg : string).

(** [str(e)]. *)
Definition str_exn (e : exn) : string :=
  match e with
  | IndexError m | KeyError m | ValueError m | AssertionError m
  | RefactoringError m | OSError m | Exception m => m
  end.

(** The outcome of evaluating a Python expression. *)
Inductive outcome (A : Type) :=
| Ok (a : A)
| Raise (e : exn).
Arguments Ok {A} a.
Arguments Raise {A} e.

Definition bind {A B} (x : outcome A) (k : A -> outcome B) : outcome B :=
  match x with
  | Ok a => k a
  | Raise e => Raise e
  end.

(** [len(s)] as a Python int. *)
Definition len (s : string) : Z := Z.of_nat (String.length s).

(** [s[n:]] for [0 <= n]. *)
Fixpoint slice_from (n : nat) (s : string) : string :=
  match n, s with
  | O, _ => s
  | S n', String _ s' => slice_from n' s'
  | S _, EmptyString => EmptyString
  end.

(** [s[:n]] for [0 <= n]. *)
Fixpoint slice_to (n : nat) (s : string) : string :=
  match n, s with
  | O, _ => EmptyString
  | S n', String c s' => String c (slice_to n' s')
  | S _, EmptyString => EmptyString
  end.

(** [s[0]]: raises [IndexError] on the empty string. *)
Definition first_char (s : string) : outcome ascii :=
  match s with
  | String c _ => Ok c
  | EmptyString => Raise (IndexError "string index out of range")
  end.

(** [''.join(l)]. *)
Fixpoint join (l : list string) : string :=
  match l with
  | [] => ""
  | x :: r => x +:+ join r
  end.

(** [l[i]] with Python's negative indices; [IndexError] out of range. *)
Definition index {A} (l : list A) (i : Z) : outcome A :=
  let n := Z.of_nat (length l) in
  let j := if i <? 0 then i + n else i in
  if (j <? 0) || (n <=? j) then Raise (IndexError "list index out of range")
  else match nth_error l (Z.to_nat j) with
       | Some a => Ok a
       | None => Raise (IndexError "list index out of range")
       end.

Definition is_eol (c : ascii) : bool :=
  Ascii.eqb c "010"%char || Ascii.eqb c "013"%char.

(** [s.rstrip('\n\r')]: drops every trailing line feed and carriage
    return. *)
Fixpoint rstrip_eol (s : string) : string :=
  match s with
  | EmptyString => EmptyString
  | String c r =>
      match rstrip_eol r with
      | EmptyString => if is_eol c then EmptyString else String c EmptyString
      | r' => String c r'
      end
  end.

(** Every character of [s] is a line feed or a carriage return. *)
Fixpoint all_eol (s : string) : bool :=
  match s with
  | EmptyString => true
  | String c r => is_eol c && all_eol r
  end.

(** [s] ends with a line feed or a carriage return. *)
Fixpoint ends_with_eol (s : string) : bool :=
  match s with
  | EmptyString => false
  | String c EmptyString => is_eol c
  | String _ r => ends_with_eol r
  end.

(** [a.startswith(p)]. *)
Definition startswith (a p : string) : bool := String.prefix p a.

(** Truth value of a string: the empty string is false. *)
Definition truthy (s : string) : bool := negb (String.eqb s "").

(** [s.split(sep)] and [s.split(sep, maxsplit)] for a separator of one
    character: [cur] holds, reversed, the characters of the piece being
    read. *)
Fixpoint split_go (sep : ascii) (maxsplit : option nat) (cur : string)
         (s : string) : list string :=
  match s with
  | EmptyString => [String.rev cur]
  | String c r =>
      match maxsplit with
      | Some O => [String.rev cur +:+ s]
      | _ =>
          if Ascii.eqb c sep then
            String.rev cur :: split_go sep (pred <$> maxsplit) EmptyString r
          else split_go sep maxsplit (String c cur) r
      end
  end.

Definition split (sep : ascii) (maxsplit : option nat) (s : string)
  : list string :=
  split_go sep maxsplit EmptyString s.

End Py.

Import Py.

(** ** The protocol types of [pygls.types] that the server constructs *)

Module types.

(** [Position(line=0, character=0)]. *)
Record Position := mkPosition { line : Z; character : Z }.

Record Range := mkRange { start : Position; end_ : Position }.

Inductive DiagnosticSeverity := Error | Warning | Information | Hint.

Record Diagnostic := mkDiagnostic {
  range : Range;
  message : string;
  severity : DiagnosticSeverity;
  code : option string;
  source : string
}.

Record TextEdit := mkTextEdit { te_range : Range; newText : string }.

Record Location := mkLocation { loc_uri : string; loc_range : Range }.

Record VersionedTextDocumentIdentifier := mkVersioned {
  vt_uri : string;
  vt_version : option Z
}.

Record TextDocumentEdit := mkTextDocumentEdit {
  textDocument : VersionedTextDocumentIdentifier;
  edits : list TextEdit
}.

Inductive CodeActionKind := RefactorInline | RefactorExtract.

Record WorkspaceEdit := mkWorkspaceEdit {
  document_changes : list TextDocumentEdit
}.

Record CodeAction := mkCodeAction {
  title : string;
  kind : CodeActionKind;
  edit : WorkspaceEdit
}.

Inductive MessageType := MsgError | MsgWarning.

#[global] Instance Position_eq_dec : EqDecision Position.
Proof. solve_decision. Defined.

#[global] Instance Range_eq_dec : EqDecision Range.
Proof. solve_decision. Defined.

#[global] Instance TextEdit_eq_dec : EqDecision TextEdit.
Proof. solve_decision. Defined.

End types.

(** ** The objects of the analysis engine

    A handle, a name or a refactoring is known to the server only through
    what it answers; each is a record of those answers. *)

Module Jedi.

(** One entry of [Script.get_syntax_errors()]. *)
Record SyntaxError := mkSyntaxError {
  se_line : Z;
  se_column : Z;
  se_until_line : Z;
  se_until_column : Z
}.

(** [jedi.api.classes.Name]: [module_path] is [None] for a name without
    a file. *)
Record Name := mkName {
  module_path : option string;
  n_line : Z;
  n_column : Z;
  name : string
}.

(** [jedi.api.refactoring.ChangedFile]: [_module_node.get_code()] and
    [get_new_code()]. *)
Record ChangedFile := mkChangedFile {
  get_code : string;
  get_new_code : string
}.

(** [Refactoring.get_changed_files().items()], in the order of the
    dictionary. *)
Record Refactoring := mkRefactoring {
  get_changed_files : list (string * ChangedFile)
}.

(** [jedi.Script]: the code and path it was built from, and the answers
    of the queries the server makes. *)
Record Script := mkScript {
  _code : string;
  path : string;
  _code_lines : list string;
  get_syntax_errors : list SyntaxError;
  goto : Z -> Z -> list Name;
  get_references : Z -> Z -> list Name;
  inline : Z -> Z -> outcome Refactoring
}.

(** [jediEnvironment]: the interpreter the handles are bound to. *)
Record Environment := mkEnvironment {
  executable : string;
  version_major : Z;
  version_minor : Z
}.

End Jedi.

(** ** Diff-to-edit synthesis: [_get_text_edits] *)

Module Coalescer.

Import types.

(** The local variables of [_get_text_edits] that the loop over the diff
    output reads and writes. *)
Record locals := mkLocals {
  result : list TextEdit;
  line_number : Z;
  start : option Position;
  replace_lines : bool;
  lines : list string
}.

Definition init : locals :=
  {| result := []; line_number := 0; start := None;
     replace_lines := false; lines := [] |}.

(** The nested function [_append], called only when [start] is set. *)
Definition _append (v : locals) (start0 : Position) : locals :=
  let end0 :=
    if replace_lines v then mkPosition (line_number v) 0 else start0 in
  {| result := result v ++ [mkTextEdit (mkRange start0 end0) (join (lines v))];
     line_number := line_number v;
     start := start v;
     replace_lines := replace_lines v;
     lines := lines v |}.

(** [start = types.Position(line_number)] under [if not start:]: a
    [Position] object is always truthy, so the test is [start is None]. *)
Definition open_span (v : locals) : option Position :=
  match start v with
  | Some p => Some p
  | None => Some (mkPosition (line_number v) 0)
  end.

(** One iteration of [for line in differ.compare(old_lines, new_lines)]. *)
Definition body (v : locals) (line : string) : outcome locals :=
  bind (first_char line) (fun kind =>
    if Ascii.eqb kind "?"%char then Ok v
    else if Ascii.eqb kind "-"%char then
      Ok {| result := result v;
            line_number := line_number v + 1;
            start := open_span v;
            replace_lines := true;
            lines := lines v |}
    else if Ascii.eqb kind "+"%char then
      Ok {| result := result v;
            line_number := line_number v;
            start := open_span v;
            replace_lines := replace_lines v;
            lines := lines v ++ [slice_from 2 line] |}
    else
      let v' :=
        match start v with
        | Some p =>
            let w := _append v p in
            {| result := result w;
               line_number := line_number w;
               start := None;
               replace_lines := false;
               lines := [] |}
        | None => v
        end in
      Ok {| result := result v';
            line_number := line_number v' + 1;
            start := start v';
            replace_lines := replace_lines v';
            lines := lines v' |}).

Fixpoint loop (v : locals) (diff : list string) : outcome locals :=
  match diff with
  | [] => Ok v
  | line :: rest => bind (body v line) (fun v' => loop v' rest)
  end.

(** The code after the loop: a pending span is flushed. *)
Definition finish (v : locals) : list TextEdit :=
  match start v with
  | Some p => result (_append v p)
  | None => result v
  end.

Section Differ.

(** [parso.split_lines(_, keepends=True)]. *)
Variable split_lines : string -> list string.

(** [differ.compare], of the module-level [differ = Differ()]: the
    line diff of [difflib]. *)
Variable compare : list string -> list string -> list string.

Definition _get_text_edits (changes : Jedi.ChangedFile)
  : outcome (list TextEdit) :=
  let old_lines := split_lines (Jedi.get_code changes) in
  let new_lines := split_lines (Jedi.get_new_code changes) in
  bind (loop init (compare old_lines new_lines)) (fun v => Ok (finish v)).

End Differ.

End Coalescer.

(** ** Line diffs and the replay of text edits

    What [_get_text_edits] needs of [difflib] and what the editor does with
    the edits it receives: the vocabulary in which the properties of the
    synthesis are stated. *)

Module Diff.

Import types.

(** The classification of one line of [Differ.compare]'s output: the
    first character of the line. *)
Inductive tag := Removed | Inserted | Unchanged | Intraline.

Definition tag_char (t : tag) : ascii :=
  match t with
  | Removed => "-"%char
  | Inserted => "+"%char
  | Unchanged => " "%char
  | Intraline => "?"%char
  end.

Record classified := mkClassified { line_tag : tag; line_text : string }.

(** [Differ] yields ['%s %s' % (tag, line)]. *)
Definition render (r : classified) : string :=
  String (tag_char (line_tag r)) (String " "%char (line_text r)).

(** The original sequence: the removed and unchanged lines, in order. *)
Fixpoint old_of (script : list classified) : list string :=
  match script with
  | [] => []
  | r :: rest =>
      match line_tag r with
      | Removed | Unchanged => line_text r :: old_of rest
      | Inserted | Intraline => old_of rest
      end
  end.

(** The revised sequence: the inserted and unchanged lines, in order. *)
Fixpoint new_of (script : list classified) : list string :=
  match script with
  | [] => []
  | r :: rest =>
      match line_tag r with
      | Inserted | Unchanged => line_text r :: new_of rest
      | Removed | Intraline => new_of rest
      end
  end.

(** [out] is the rendering of a line diff between [old] and [new]. *)
Definition IsDiff (out old new : list string) : Prop :=
  exists script : list classified,
    out = map render script /\ old_of script = old /\ new_of script = new.

Definition line_aligned (r : Range) : bool :=
  (character (start r) =? 0) && (character (end_ r) =? 0).

(** Replays line-aligned edits, in the order given, on the lines of the
    original buffer from line [cursor] on. Every range is read in the line
    numbering of the original buffer; an edit that is not line-aligned,
    that starts before the end of its predecessor, whose end precedes its
    start, or that reaches past the last line is refused. *)
Fixpoint replay_from (cursor : Z) (rest : list string)
         (es : list TextEdit) : option string :=
  match es with
  | [] => Some (join rest)
  | e :: es' =>
      let s := line (start (te_range e)) in
      let t := line (end_ (te_range e)) in
      if line_aligned (te_range e) && (cursor <=? s) && (s <=? t)
         && (t <=? cursor + Z.of_nat (length rest)) then
        match replay_from t (drop (Z.to_nat (t - cursor)) rest) es' with
        | Some tail =>
            Some (join (take (Z.to_nat (s - cursor)) rest)
                  +:+ newText e +:+ tail)
        | None => None
        end
      else None
  end.

(** The text of the buffer after the edits [es] were applied to the
    buffer whose lines are [old]. *)
Definition apply_text_edits (old : list string) (es : list TextEdit)
  : option string :=
  replay_from 0 old es.

(** The state of the loop between two iterations, with the removed lines
    [pend] of the span that is open, if one is. *)
Definition span_ok (v : Coalescer.locals) (pend : list string) : Prop :=
  match Coalescer.start v with
  | None => pend = [] /\ Coalescer.lines v = [] /\ Coalescer.replace_lines v = false
  | Some p =>
      character p = 0
      /\ Z.of_nat (length pend) = Coalescer.line_number v - line p
      /\ (Coalescer.replace_lines v = false -> pend = [])
  end.

(** The line of the original buffer at which the text still to be
    produced begins. *)
Definition base (v : Coalescer.locals) : Z :=
  match Coalescer.start v with
  | Some p => line p
  | None => Coalescer.line_number v
  end.

(** A line diff that meets the contract of [IsDiff] on every input: equal
    heads are kept, and otherwise the shorter of "remove the old head" and
    "insert the new head" is taken. It stands in for [difflib] where a
    concrete run is wanted. *)
Fixpoint reference_script (a : list string) : list string -> list classified :=
  fix against (b : list string) : list classified :=
    match a, b with
    | [], _ => map (mkClassified Inserted) b
    | _, [] => map (mkClassified Removed) a
    | x :: a', y :: b' =>
        if String.eqb x y then mkClassified Unchanged x :: reference_script a' b'
        else
          let d1 := mkClassified Removed x :: reference_script a' b in
          let d2 := mkClassified Inserted y :: against b' in
          if (length d1 <=? length d2)%nat then d1 else d2
    end.

Definition reference_compare (a b : list string) : list string :=
  map render (reference_script a b).

(** A line splitter that keeps the line ends, for text whose only line
    terminator is the line feed: the text after the last line feed is
    always a line, empty or not. It stands in for [parso.split_lines]
    where a concrete run is wanted. [cur] holds, reversed, the characters
    of the line being read. *)
Fixpoint lf_lines_go (cur : string) (s : string) : list string :=
  match s with
  | EmptyString => [String.rev cur]
  | String c r =>
      if Ascii.eqb c "010"%char
      then String.rev (String c cur) :: lf_lines_go EmptyString r
      else lf_lines_go (String c cur) r
  end.

Definition lf_lines (s : string) : list string := lf_lines_go EmptyString s.

(** The line feed, and a line of text with its line feed. *)
Definition LF : string := String "010"%char EmptyString.

Definition ln (s : string) : string := s +:+ LF.

End Diff.

(** ** The server: state, effects and handlers *)

Module Server.

Import types Jedi.

(** *** What the checkers report *)

(** A [pyflakes.messages.Message]: [cls] is [message.__class__.__name__]. *)
Record FlakeMessage := mkFlakeMessage {
  cls : string;
  lineno : Z;
  col : Z;
  msg_format : string;
  message_args : list string
}.

(** A call that [pyflakes.api.check] makes on the reporter it is given. *)
Inductive ReporterCall :=
| CallUnexpectedError (filename msg : string)
| CallSyntaxError (filename msg : string) (lineno : Z) (offset : option Z)
                  (text : string)
| CallFlake (message : FlakeMessage).

(** A call that pycodestyle's checker makes on the [error] method of its
    report. *)
Record StyleFinding := mkStyleFinding {
  sf_line_number : Z;
  sf_offset : Z;
  sf_text : string;
  sf_check : string
}.

(** *** The collaborators *)

(** The libraries the module calls. A field stands for the library
    function named in its comment; no property depends on what it
    returns unless the property says so. *)
Class Externals := {
  (** the option object of pycodestyle *)
  Options : Type;
  (** [jedi.Script(code, path, environment=jediEnvironment,
      project=jediProject)] *)
  new_Script : string -> string -> outcome Script;
  (** [jediEnvironment], [None] before initialisation *)
  jediEnvironment : option Environment;
  (** the calls [pyflakes.api.check(code, path, reporter)] makes on
      [reporter], in order *)
  pyflakes_check : string -> string -> list ReporterCall;
  (** [message.message % message.message_args] *)
  percent : string -> list string -> string;
  (** [pycodestyle.StyleGuide(paths=[folder], config_file=f).options] *)
  StyleGuide_options : string -> option string -> Options;
  (** [BaseReport._ignore_code] *)
  _ignore_code : Options -> string -> bool;
  (** the findings of [pycodestyle.Checker(path, lines, options,
      report).check_all()], in order *)
  check_all : string -> list string -> Options -> list StyleFinding;
  (** the first existing file of [mypy.defaults.CONFIG_FILES] under a
      folder, or the empty string *)
  find_mypy_config : string -> string;
  (** [mypy.api.run(args)]: standard output and standard error *)
  mypy_run : list string -> string * string;
  (** [pygls.uris] *)
  from_fs_path : string -> string;
  to_fs_path : string -> string;
  (** [parso.split_lines(_, keepends=True)] and
      [difflib.Differ().compare] *)
  split_lines : string -> list string;
  compare : list string -> list string -> list string;
  (** the builtins [str.splitlines(True)], [int], [str.strip] and [str]
      of an integer *)
  splitlines : string -> list string;
  int : string -> outcome Z;
  strip : string -> string;
  str_of_int : Z -> string
}.

(** *** The editor's side *)

(** [pygls.workspace.Document]: reading [source] may fail for a document
    that is not open. *)
Record Document := mkDocument {
  doc_path : string;
  doc_source : outcome string;
  doc_version : option Z
}.

(** The part of [ls] the handlers read: [ls.workspace]. *)
Record LanguageServer := mkLanguageServer {
  get_document : string -> Document;
  documents : list string;
  folders : list string;
  root_path : string
}.

(** What a handler does that the outside can see: the notifications it
    sends and the calls it makes on its collaborators. *)
Inductive event :=
| PublishDiagnostics (uri : string) (diagnostics : list Diagnostic)
| ShowMessage (msg : string) (ty : MessageType)
| NewScript (code path : string)
| PyflakesRun (code path : string)
| CodestyleRun (path : string)
| StyleGuideCreated (folder : string) (config_file : option string)
| MypyRun (args : list string)
| InlineCalled (path : string) (line column : Z).

(** The runs of the three downstream checkers. *)
Definition is_checker_run (e : event) : bool :=
  match e with
  | PyflakesRun _ _ | CodestyleRun _ | MypyRun _ => true
  | _ => false
  end.

(** The diagnostic collections published, in order. *)
Fixpoint published (tr : list event) : list (string * list Diagnostic) :=
  match tr with
  | [] => []
  | PublishDiagnostics uri ds :: r => (uri, ds) :: published r
  | _ :: r => published r
  end.

(** *** The module-level state *)

Record Config := mkConfig {
  pyflakes_errors : list string;
  pycodestyle_config : option string;
  help_on_hover : bool;
  mypy_enabled : bool
}.

Definition default_config : Config :=
  {| pyflakes_errors := ["UndefinedName"];
     pycodestyle_config := None;
     help_on_hover := true;
     mypy_enabled := false |}.

Section Handlers.

Context `{ext : Externals}.

Record state := mkState {
  scripts : gmap string Script;
  pycodestyleOptions : gmap string Options;
  mypyConfigs : gmap string string;
  config : Config;
  trace : list event
}.

Definition initial : state :=
  {| scripts := ∅; pycodestyleOptions := ∅; mypyConfigs := ∅;
     config := default_config; trace := [] |}.

(** A computation on the module state that returns or raises; what it
    did to the state before raising stays done. *)
Definition M (A : Type) : Type := state -> outcome A * state.

Definition ret {A} (a : A) : M A := fun st => (Ok a, st).

Definition raise {A} (e : exn) : M A := fun st => (Raise e, st).

Definition bindM {A B} (m : M A) (k : A -> M B) : M B :=
  fun st =>
    match m st with
    | (Ok a, st') => k a st'
    | (Raise e, st') => (Raise e, st')
    end.

Definition lift {A} (x : outcome A) : M A := fun st => (x, st).

Definition gets {A} (f : state -> A) : M A := fun st => (Ok (f st), st).

Definition modify (f : state -> state) : M unit :=
  fun st => (Ok tt, f st).

(** [try: m  except Exception as e: handler(e)]. *)
Definition try_except {A} (m : M A) (handler : exn -> M A) : M A :=
  fun st =>
    match m st with
    | (Ok a, st') => (Ok a, st')
    | (Raise e, st') => handler e st'
    end.

Definition emit (e : event) : M unit :=
  modify (fun st =>
    {| scripts := scripts st; pycodestyleOptions := pycodestyleOptions st;
       mypyConfigs := mypyConfigs st; config := config st;
       trace := trace st ++ [e] |}).

Definition set_scripts (f : gmap string Script -> gmap string Script)
  : M unit :=
  modify (fun st =>
    {| scripts := f (scripts st);
       pycodestyleOptions := pycodestyleOptions st;
       mypyConfigs := mypyConfigs st; config := config st;
       trace := trace st |}).

Definition set_pycodestyleOptions
           (f : gmap string Options -> gmap string Options) : M unit :=
  modify (fun st =>
    {| scripts := scripts st;
       pycodestyleOptions := f (pycodestyleOptions st);
       mypyConfigs := mypyConfigs st; config := config st;
       trace := trace st |}).

Definition set_mypyConfigs
           (f : gmap string string -> gmap string string) : M unit :=
  modify (fun st =>
    {| scripts := scripts st;
       pycodestyleOptions := pycodestyleOptions st;
       mypyConfigs := f (mypyConfigs st); config := config st;
       trace := trace st |}).

Definition set_config (f : Config -> Config) : M unit :=
  modify (fun st =>
    {| scripts := scripts st;
       pycodestyleOptions := pycodestyleOptions st;
       mypyConfigs := mypyConfigs st; config := f (config st);
       trace := trace st |}).

(** The events a handler added when it took [st] to [st']. *)
Definition events_since (st st' : state) : list event :=
  drop (length (trace st)) (trace st').

(** A pass only adds to the trace. *)
Definition extends (st st' : state) : Prop :=
  exists added, trace st' = trace st ++ added.

(** [for x in l: f(x)]. *)
Fixpoint for_each {A} (l : list A) (f : A -> M unit) : M unit :=
  match l with
  | [] => ret tt
  | x :: r => bindM (f x) (fun _ => for_each r f)
  end.

Notation "'let*' x ':=' m 'in' k" := (bindM m (fun x => k))
  (at level 10, x pattern, m at level 100, k at level 200).

(** *** The handle cache *)

Definition get_script (ls : LanguageServer) (uri : string) (update : bool)
  : M Script :=
  let* cached := gets (fun st => if update then None else scripts st !! uri) in
  match cached with
  | Some result => ret result
  | None =>
      let document := get_document ls uri in
      let* source := lift (doc_source document) in
      let* _ := emit (NewScript source (doc_path document)) in
      let* result := lift (new_Script source (doc_path document)) in
      let* _ := set_scripts (insert uri result) in
      ret result
  end.

(** *** The reporters *)

(** [PyflakesReporter.unexpectedError]. *)
Definition unexpectedError (result : list Diagnostic) (msg : string)
  : list Diagnostic :=
  result ++ [mkDiagnostic (mkRange (mkPosition 0 0) (mkPosition 0 0))
                          msg Error None "pyflakes"].

(** [PyflakesReporter._get_codeline]. *)
Definition _get_codeline (script : Script) (line : Z) : outcome string :=
  bind (index (_code_lines script) line) (fun l => Ok (rstrip_eol l)).

(** [PyflakesReporter.syntaxError]: [offset or 0] is [0] for [None]. *)
Definition syntaxError (script : Script) (result : list Diagnostic)
           (msg : string) (lineno : Z) (offset : option Z)
  : outcome (list Diagnostic) :=
  let line := lineno - 1 in
  let col := default 0 offset in
  bind (_get_codeline script line) (fun codeline =>
    Ok (result ++
          [mkDiagnostic
             (mkRange (mkPosition line col)
                      (mkPosition line (len codeline - col)))
             msg Error None "pyflakes"])).

(** [PyflakesReporter.flake]. *)
Definition flake (script : Script) (errors : list string)
           (result : list Diagnostic) (message : FlakeMessage)
  : outcome (list Diagnostic) :=
  let line := lineno message - 1 in
  let severity :=
    if bool_decide (cls message ∈ errors) then Error else Warning in
  bind (_get_codeline script line) (fun codeline =>
    Ok (result ++
          [mkDiagnostic
             (mkRange (mkPosition line (col message))
                      (mkPosition line (len codeline)))
             (percent (msg_format message) (message_args message))
             severity None "pyflakes"])).

(** The reporter [PyflakesReporter(result, script, errors)] as
    [pyflakes_check] drives it: the calls in order, each appending to
    the shared list [result]. *)
Fixpoint report (script : Script) (errors : list string)
         (calls : list ReporterCall) (result : list Diagnostic)
  : outcome (list Diagnostic) :=
  match calls with
  | [] => Ok result
  | c :: rest =>
      bind match c with
           | CallUnexpectedError _ msg => Ok (unexpectedError result msg)
           | CallSyntaxError _ msg lineno offset _ =>
               syntaxError script result msg lineno offset
           | CallFlake message => flake script errors result message
           end
           (report script errors rest)
  end.

(** [CodestyleReport.error], with the attributes [lines] and
    [expected] that [BaseReport.init_file] sets, and [options]. *)
Definition error (options : Options) (lines : list string)
           (expected : list string) (result : list Diagnostic)
           (f : StyleFinding) : outcome (list Diagnostic) :=
  let code := slice_to 4 (sf_text f) in
  if _ignore_code options code || bool_decide (code ∈ expected) then
    Ok result
  else
    let line := sf_line_number f - 1 in
    bind (index lines line) (fun l =>
      Ok (result ++
            [mkDiagnostic
               (mkRange (mkPosition line (sf_offset f))
                        (mkPosition line (len (rstrip_eol l))))
               (sf_text f) Warning (Some code) "pycodestyle"])).

Fixpoint report_style (options : Options) (lines expected : list string)
         (findings : list StyleFinding) (result : list Diagnostic)
  : outcome (list Diagnostic) :=
  match findings with
  | [] => Ok result
  | f :: rest =>
      bind (error options lines expected result f)
           (report_style options lines expected rest)
  end.

(** *** Per-folder options *)

(** [sorted(uris, key=len, reverse=True)[0]]: the sort is stable, so
    the first of the longest is taken. *)
Fixpoint longest (best : string) (l : list string) : string :=
  match l with
  | [] => best
  | x :: r =>
      longest (if (String.length best <? String.length x)%nat
               then x else best) r
  end.

Definition _get_workspace_folder_path (ls : LanguageServer) (uri : string)
  : string :=
  match filter (fun f => startswith uri f = true) (folders ls) with
  | f :: r => to_fs_path (longest f r)
  | [] => root_path ls
  end.

(** An option object is truthy, so [if not result:] tests the lookup. *)
Definition get_pycodestyle_options (ls : LanguageServer) (uri : string)
  : M Options :=
  let folder := _get_workspace_folder_path ls uri in
  let* cached := gets (fun st => pycodestyleOptions st !! folder) in
  match cached with
  | Some result => ret result
  | None =>
      let* config_file := gets (fun st => pycodestyle_config (config st)) in
      let* _ := emit (StyleGuideCreated folder config_file) in
      let result := StyleGuide_options folder config_file in
      let* _ := set_pycodestyleOptions (insert folder result) in
      ret result
  end.

Definition get_mypy_config (ls : LanguageServer) (uri : string)
  : M string :=
  let folder := _get_workspace_folder_path ls uri in
  let* cached := gets (fun st => mypyConfigs st !! folder) in
  match cached with
  | Some result => ret result
  | None =>
      let result := find_mypy_config folder in
      let* _ := set_mypyConfigs (insert folder result) in
      ret result
  end.

(** *** The type-checker pass *)

(** The body of the loop of [_mypy_check] over the lines of mypy's
    output: the diagnostic of one line, if the line has five fields and
    is about [filename]. *)
Definition mypy_line (filename : string) (script : Script) (line : string)
  : outcome (option Diagnostic) :=
  match split ":"%char (Some 4%nat) line with
  | [fn; row; column; err_type; message] =>
      if negb (String.eqb fn filename) then Ok None
      else
        bind (int row) (fun row =>
        let row := row - 1 in
        bind (int column) (fun column =>
        let column := column - 1 in
        let severity :=
          if String.eqb (strip err_type) "note" then Hint else Warning in
        bind (index (_code_lines script) row) (fun l =>
          Ok (Some (mkDiagnostic
                      (mkRange (mkPosition row column)
                               (mkPosition row (len l)))
                      (strip message) severity None "mypy")))))
  | _ => Ok None
  end.

(** The loop itself: [result] is the list shared with [_validate], so
    what was appended before a line raises stays appended. *)
Fixpoint mypy_lines (filename : string) (script : Script)
         (lines : list string) (result : list Diagnostic)
  : outcome unit * list Diagnostic :=
  match lines with
  | [] => (Ok tt, result)
  | line :: rest =>
      match mypy_line filename script line with
      | Ok (Some d) => mypy_lines filename script rest (result ++ [d])
      | Ok None => mypy_lines filename script rest result
      | Raise e => (Raise e, result)
      end
  end.

(** [_mypy_check]: returns or raises, and in both cases gives the
    shared list [result] as it left it. *)
Definition _mypy_check (ls : LanguageServer) (uri : string)
           (script : Script) (result : list Diagnostic)
  : state -> (outcome unit * list Diagnostic) * state :=
  fun st =>
    match jediEnvironment with
    | None => ((Raise (AssertionError ""), result), st)
    | Some env =>
        let filename := to_fs_path uri in
        match get_mypy_config ls uri st with
        | (Raise e, st1) => ((Raise e, result), st1)
        | (Ok config_file, st1) =>
            let args :=
              ["--python-executable"; executable env;
               "--python-version";
               str_of_int (version_major env) +:+ "."
                 +:+ str_of_int (version_minor env);
               "--config-file"; config_file;
               "--hide-error-context";
               "--show-column-numbers";
               "--show-error-codes";
               "--no-pretty";
               "--show-absolute-path";
               "--no-error-summary";
               filename] in
            match emit (MypyRun args) st1 with
            | (_, st2) =>
                let lines := mypy_run args in
                if truthy (lines.2) then
                  match emit (ShowMessage (lines.2) MsgError) st2 with
                  | (_, st3) => ((Ok tt, result), st3)
                  end
                else
                  (mypy_lines filename script
                              (split "010"%char None (lines.1)) result,
                   st2)
            end
        end
    end.

(** *** The validation pass *)

Definition syntax_diagnostic (x : SyntaxError) : Diagnostic :=
  mkDiagnostic
    (mkRange (mkPosition (se_line x - 1) (se_column x))
             (mkPosition (se_until_line x - 1) (se_until_column x)))
    "Invalid syntax" Error None "jedi".

(** [ls.publish_diagnostics(uri, result)]. *)
Definition publish_diagnostics (uri : string) (result : list Diagnostic)
  : M unit :=
  emit (PublishDiagnostics uri result).

(** [try: _mypy_check(...)  except Exception as e: ls.show_message(...)],
    giving the shared list [result] as the pass left it. *)
Definition mypy_pass (ls : LanguageServer) (uri : string) (script : Script)
           (result : list Diagnostic) : M (list Diagnostic) :=
  fun st =>
    match _mypy_check ls uri script result st with
    | ((Ok _, result'), st') => (Ok result', st')
    | ((Raise e, result'), st') =>
        match emit (ShowMessage ("mypy check error: " +:+ str_exn e)
                                MsgWarning) st' with
        | (_, st'') => (Ok result', st'')
        end
    end.

Definition _validate (ls : LanguageServer) (uri : string) : M unit :=
  (* Jedi *)
  let* script := get_script ls uri false in
  let result := map syntax_diagnostic (get_syntax_errors script) in
  match result with
  | _ :: _ => publish_diagnostics uri result
  | [] =>
      (* pyflakes *)
      let* errors := gets (fun st => pyflakes_errors (config st)) in
      let* _ := emit (PyflakesRun (_code script) (path script)) in
      let* result :=
        lift (report script errors
                     (pyflakes_check (_code script) (path script)) result) in
      (* pycodestyle *)
      let* codestyleopts := get_pycodestyle_options ls uri in
      let lines := splitlines (_code script) in
      let* _ := emit (CodestyleRun (path script)) in
      let* result :=
        lift (report_style codestyleopts lines []
                           (check_all (path script) lines codestyleopts)
                           result) in
      let* enabled := gets (fun st => mypy_enabled (config st)) in
      let* result :=
        if enabled then mypy_pass ls uri script result else ret result in
      publish_diagnostics uri result
  end.

(** *** Document notifications *)

Definition did_open (ls : LanguageServer) (uri : string) : M unit :=
  _validate ls uri.

(** [del scripts[uri]], with the [KeyError] of a missing key caught. *)
Definition did_close (ls : LanguageServer) (uri : string) : M unit :=
  try_except
    (let* present := gets (fun st => scripts st !! uri) in
     match present with
     | Some _ => set_scripts (delete uri)
     | None => raise (KeyError uri)
     end)
    (fun _ => ret tt).

Definition did_change (ls : LanguageServer) (uri : string) : M unit :=
  let* _ := get_script ls uri true in ret tt.

Definition did_save (ls : LanguageServer) (uri : string) : M unit :=
  _validate ls uri.

(** *** Locations *)

Record TextDocumentPositionParams := mkPositionParams {
  pp_uri : string;
  pp_position : Position
}.

(** A comprehension with the filter [if d.module_path]: [None] and the
    empty path are false. *)
Fixpoint _get_locations (defs : list Name) : list Location :=
  match defs with
  | [] => []
  | d :: rest =>
      match module_path d with
      | Some p =>
          if truthy p then
            mkLocation (from_fs_path p)
              (mkRange (mkPosition (n_line d - 1) (n_column d))
                       (mkPosition (n_line d - 1)
                                   (n_column d + len (name d))))
            :: _get_locations rest
          else _get_locations rest
      | None => _get_locations rest
      end
  end.

(** The truth value of [d.module_path]. *)
Definition has_module_path (d : Name) : bool :=
  match module_path d with
  | Some p => truthy p
  | None => false
  end.

Definition definition (ls : LanguageServer)
           (params : TextDocumentPositionParams) : M (list Location) :=
  let* script := get_script ls (pp_uri params) false in
  let defs := goto script (line (pp_position params) + 1)
                   (character (pp_position params)) in
  ret (_get_locations defs).

Definition references (ls : LanguageServer)
           (params : TextDocumentPositionParams) : M (list Location) :=
  let* script := get_script ls (pp_uri params) false in
  let refs := get_references script (line (pp_position params) + 1)
                             (character (pp_position params)) in
  ret (_get_locations refs).

(** *** Configuration *)

(** [settings.settings.anakinls]: a key is [Some] when the object has
    the attribute. *)
Record AnakinSettings := mkAnakinSettings {
  s_pyflakes_errors : option (list string);
  s_pycodestyle_config : option (option string);
  s_help_on_hover : option bool;
  s_mypy_enabled : option bool
}.

(** [settings.settings]: [None] when it is false, and then [anakinls]
    when it has the attribute. *)
Record DidChangeConfigurationParams := mkConfigurationParams {
  settings : option (option AnakinSettings)
}.

(** One turn of [for k in config:] for the key [k]: [upd] stores the
    value when the attribute is there. *)
Definition config_key {V} (k : string) (value : option V)
           (upd : V -> Config -> Config) (changed : gset string)
  : M (gset string) :=
  match value with
  | Some v =>
      let* _ := set_config (upd v) in
      if bool_decide (k ≠ "help_on_hover") then ret (changed ∪ {[k]})
      else ret changed
  | None => ret changed
  end.

Definition did_change_configuration (ls : LanguageServer)
           (params : DidChangeConfigurationParams) : M unit :=
  match settings params with
  | None | Some None => ret tt
  | Some (Some a) =>
      let changed : gset string := ∅ in
      let* changed :=
        config_key "pyflakes_errors" (s_pyflakes_errors a)
          (fun v c => mkConfig v (pycodestyle_config c) (help_on_hover c)
                               (mypy_enabled c)) changed in
      let* changed :=
        config_key "pycodestyle_config" (s_pycodestyle_config a)
          (fun v c => mkConfig (pyflakes_errors c) v (help_on_hover c)
                               (mypy_enabled c)) changed in
      let* changed :=
        config_key "help_on_hover" (s_help_on_hover a)
          (fun v c => mkConfig (pyflakes_errors c) (pycodestyle_config c) v
                               (mypy_enabled c)) changed in
      let* changed :=
        config_key "mypy_enabled" (s_mypy_enabled a)
          (fun v c => mkConfig (pyflakes_errors c) (pycodestyle_config c)
                               (help_on_hover c) v) changed in
      let* _ :=
        if bool_decide ("pycodestyle_config" ∈ changed)
        then set_pycodestyleOptions (fun _ => ∅) else ret tt in
      let* _ :=
        if bool_decide ("mypy_enabled" ∈ changed)
        then set_mypyConfigs (fun _ => ∅) else ret tt in
      if bool_decide (changed ≠ ∅)
      then for_each (documents ls) (_validate ls)
      else ret tt
  end.

(** *** The code action *)

Fixpoint document_changes_loop (ls : LanguageServer)
         (items : list (string * ChangedFile))
         (result : list TextDocumentEdit)
  : outcome (list TextDocumentEdit) :=
  match items with
  | [] => Ok result
  | (fn, changes) :: rest =>
      bind (Coalescer._get_text_edits split_lines compare changes)
           (fun text_edits =>
              document_changes_loop ls rest
                match text_edits with
                | [] => result
                | _ :: _ =>
                    let uri := from_fs_path fn in
                    result ++
                      [mkTextDocumentEdit
                         (mkVersioned uri
                                      (doc_version (get_document ls uri)))
                         text_edits]
                end)
  end.

Definition _get_document_changes (ls : LanguageServer)
           (refactoring : Refactoring)
  : outcome (list TextDocumentEdit) :=
  document_changes_loop ls (get_changed_files refactoring) [].

(** The edit group a changed file stands for in the response: none when
    the synthesis gives no edit for it. *)
Definition edit_group (ls : LanguageServer) (item : string * ChangedFile)
  : option TextDocumentEdit :=
  match Coalescer._get_text_edits split_lines compare item.2 with
  | Ok (e :: es) =>
      let uri := from_fs_path item.1 in
      Some (mkTextDocumentEdit
              (mkVersioned uri (doc_version (get_document ls uri)))
              (e :: es))
  | _ => None
  end.

(** What pygls hands a handler for a JSON object of a request is a named
    tuple whose fields stand in the order in which the object lists its
    keys. An attribute is read by its name, whatever that order; [==] and
    [!=] on two such objects compare them as tuples, place by place. Of
    the handlers only [code_action] compares two received objects, so the
    order of the keys is kept for the positions of its range alone. *)
Inductive KeyOrder := LineCharacter | CharacterLine.

(** A position as received: the order of its keys, and what [.line] and
    [.character] read. *)
Record PositionObject := mkPositionObject {
  key_order : KeyOrder;
  position_of : Position
}.

(** The tuple a received position is. *)
Definition as_tuple (p : PositionObject) : Z * Z :=
  match key_order p with
  | LineCharacter => (line (position_of p), character (position_of p))
  | CharacterLine => (character (position_of p), line (position_of p))
  end.

(** A range as received; its two positions are read by name. *)
Record RangeObject := mkRangeObject {
  ro_start : PositionObject;
  ro_end : PositionObject
}.

Record CodeActionParams := mkCodeActionParams {
  ca_uri : string;
  ca_range : RangeObject
}.

Definition code_action (ls : LanguageServer) (params : CodeActionParams)
  : M (option (list CodeAction)) :=
  if bool_decide (as_tuple (ro_start (ca_range params))
                  ≠ as_tuple (ro_end (ca_range params))) then
    (* No selection actions *)
    ret None
  else
    let* script := get_script ls (ca_uri params) false in
    let line := line (position_of (ro_start (ca_range params))) + 1 in
    let column := character (position_of (ro_start (ca_range params))) in
    let* _ := emit (InlineCalled (path script) line column) in
    match inline script line column with
    | Raise (RefactoringError _) => ret None
    | Raise e => raise e
    | Ok refactoring =>
        let* document_changes :=
          lift (_get_document_changes ls refactoring) in
        match document_changes with
        | [] => ret None
        | _ :: _ =>
            ret (Some [mkCodeAction "Inline variable" RefactorInline
                         (mkWorkspaceEdit document_changes)])
        end
    end.

End Handlers.

End Server.

(** ** A small world to run the handlers in *)

Module Demo.

Import types Jedi Server Diff.

(** The changed file of the replacement scenario: the line [b] of three
    lines becomes [x]. *)
Definition replace_b_by_x : ChangedFile :=
  mkChangedFile (ln "a" +:+ ln "b" +:+ ln "c")
                     (ln "a" +:+ ln "x" +:+ ln "c").

(** The changed file of the insertion scenario: a line [c] is added
    after the last line. *)
Definition append_c : ChangedFile :=
  mkChangedFile (ln "a" +:+ ln "b") (ln "a" +:+ ln "b" +:+ ln "c").

(** A refactoring that touches two files, of which only the first
    changes. *)
Definition demo_refactoring : Refactoring :=
  mkRefactoring
    [("/w/m.py", replace_b_by_x);
     ("/w/n.py", mkChangedFile (ln "a" +:+ ln "b") (ln "a" +:+ ln "b"))].

(** A refactoring that changes nothing in the one file it lists. *)
Definition idle_refactoring : Refactoring :=
  mkRefactoring
    [("/w/n.py", mkChangedFile (ln "a" +:+ ln "b") (ln "a" +:+ ln "b"))].

(** The handle of a document: the code ["("] has one syntax error, and
    the position [(1, 0)] resolves to two names, one without a file; the
    cursors [(1, 0)] and [(2, 3)] can be inlined with [demo_refactoring]
    and the cursor [(2, 0)] with [idle_refactoring]. *)
Definition demo_script (code path : string) : Script :=
  {| _code := code;
     path := path;
     _code_lines := lf_lines code;
     get_syntax_errors :=
       if String.eqb code "(" then [mkSyntaxError 1 0 1 1] else [];
     goto := fun l c =>
       if (l =? 1) && (c =? 0)
       then [mkName (Some "/w/m.py") 3 4 "spam"; mkName None 1 0 "len"]
       else [];
     get_references := fun l c =>
       if (l =? 1) && (c =? 0)
       then [mkName (Some "/w/m.py") 3 4 "spam"; mkName (Some "") 7 0 "eggs"]
       else [];
     inline := fun l c =>
       if (l =? 1) && (c =? 0)
       then Ok demo_refactoring
       else if (l =? 2) && (c =? 0)
       then Ok idle_refactoring
       else if (l =? 2) && (c =? 3)
       then Ok demo_refactoring
       else Raise (RefactoringError "No name found to inline") |}.

(** The collaborators: a handle cannot be built for the path
    ["/w/broken.py"]; pyflakes finds an undefined name in the code
    ["spam"]; the other checkers find nothing. *)
#[export] Instance demo : Externals :=
  {| Options := unit;
     new_Script := fun code path =>
       if String.eqb path "/w/broken.py"
       then Raise (OSError "cannot read")
       else Ok (demo_script code path);
     jediEnvironment := Some (mkEnvironment "/usr/bin/python3" 3 8);
     pyflakes_check := fun code _ =>
       if String.eqb code "spam"
       then [CallFlake (mkFlakeMessage "UndefinedName" 1 0
                                       "undefined name %r" ["spam"])]
       else [];
     percent := fun fmt _ => fmt;
     StyleGuide_options := fun _ _ => tt;
     _ignore_code := fun _ _ => false;
     check_all := fun _ _ _ => [];
     find_mypy_config := fun _ => "";
     mypy_run := fun _ => ("", "");
     from_fs_path := fun p => "file://" +:+ p;
     to_fs_path := fun u => slice_from 7 u;
     split_lines := lf_lines;
     compare := reference_compare;
     splitlines := lf_lines;
     int := fun _ => Raise (ValueError "invalid literal for int()");
     strip := fun s => s;
     str_of_int := fun _ => "" |}.

(** The workspace: three documents, of which one cannot be analysed. *)
Definition demo_ls : LanguageServer :=
  {| get_document := fun uri =>
       if String.eqb uri "file:///w/bad.py"
       then mkDocument "/w/bad.py" (Ok "(") (Some 1)
       else if String.eqb uri "file:///w/broken.py"
       then mkDocument "/w/broken.py" (Ok "x = 1") (Some 2)
       else mkDocument (slice_from 7 uri) (Ok "spam") (Some 3);
     documents := ["file:///w/m.py"; "file:///w/bad.py"];
     folders := ["file:///w"];
     root_path := "/w" |}.

(** A state in which a handle for ["file:///w/broken.py"] is cached. *)
Definition demo_cached : state :=
  {| scripts := {[ "file:///w/broken.py" := demo_script "x = 0" "/w/broken.py" ]};
     pycodestyleOptions := ∅;
     mypyConfigs := ∅;
     config := default_config;
     trace := [] |}.

End Demo.

(** ** Completion, hover, signature help and document symbols *)

Module Features.

Import types Jedi Server.

(** *** What the engine answers *)

(** [inspect.Parameter.kind]. *)
Inductive ParameterKind :=
| POSITIONAL_ONLY
| POSITIONAL_OR_KEYWORD
| VAR_POSITIONAL
| KEYWORD_ONLY
| VAR_KEYWORD.

(** A parameter of a signature. *)
Record ParamName := mkParamName {
  p_name : string;
  p_kind : ParameterKind;
  p_description : string
}.

(** [jedi.api.classes.Signature]: [index] is [None] when the cursor is
    on no parameter. *)
Record Signature := mkSignature {
  sig_index : option Z;
  sig_to_string : string;
  sig_params : list ParamName
}.

(** [jedi.api.classes.Completion]. *)
Record Completion := mkCompletion {
  c_name : string;
  c_complete : string;
  c_type : string;
  c_docstring : string;
  c_signatures : list Signature
}.

(** A name of [Script.get_names(all_scopes=True)]: [sym_key] is what
    [==] compares, [sym_parent] the key of [parent()] and
    [sym_parent_full_name] its [full_name], each [None] when there is
    none. *)
Record SymbolName := mkSymbolName {
  sym_key : Z;
  sym_parent : option Z;
  sym_parent_full_name : option string;
  sym_name : string;
  sym_type : string;
  sym_line : Z;
  sym_column : Z;
  sym_module_name : string
}.

(** The queries of a handle that these handlers make, and the character
    class [\w] of the regular expression [RE_WORD]. [help] and [infer]
    give the [docstring()] of each name they find. *)
Class Engine := {
  complete : Script -> Z -> Z -> list Completion;
  help : Script -> Z -> Z -> list string;
  infer : Script -> Z -> Z -> list string;
  get_signatures : Script -> Z -> Z -> list Signature;
  get_names : Script -> list SymbolName;
  word_char : ascii -> bool
}.

(** *** The protocol values *)

Inductive CompletionItemKind :=
| KindText | KindFunction | KindVariable | KindClass | KindModule
| KindKeyword | KindReference.

Inductive InsertTextFormat := PlainText | Snippet.

Record CompletionItem := mkCompletionItem {
  label : string;
  ci_kind : CompletionItemKind;
  documentation : string;
  sort_text : string;
  text_edit : option TextEdit;
  insert_text : option string;
  insert_text_format : option InsertTextFormat
}.

Record CompletionList := mkCompletionList {
  is_incomplete : bool;
  items : list CompletionItem
}.

Record SignatureInformation := mkSignatureInformation {
  si_label : string;
  si_parameters : list string
}.

Record SignatureHelp := mkSignatureHelp {
  signatures : list SignatureInformation;
  active_signature : Z;
  active_parameter : Z
}.

Inductive SymbolKind :=
| SymModule | SymClass | SymFunction | SymVariable | SymNull.

(** [types.DocumentSymbol]. The server passes [children or None]: the
    empty list of children stands for [None]. *)
#[warnings="-register-all"] Inductive DocumentSymbol :=
| mkDocumentSymbol (ds_name : string) (ds_kind : SymbolKind)
                   (ds_range ds_selection_range : Range)
                   (ds_children : list DocumentSymbol).

Record SymbolInformation := mkSymbolInformation {
  sy_name : string;
  sy_kind : SymbolKind;
  sy_location : Location;
  sy_container_name : option string
}.

(** *** Completion *)

(** [_COMPLETION_TYPES.get(type, CompletionItemKind.Text)]. *)
Definition completion_type (t : string) : CompletionItemKind :=
  if String.eqb t "module" then KindModule
  else if String.eqb t "class" then KindClass
  else if String.eqb t "instance" then KindReference
  else if String.eqb t "function" then KindFunction
  else if String.eqb t "param" then KindVariable
  else if String.eqb t "keyword" then KindKeyword
  else if String.eqb t "statement" then KindKeyword
  else KindText.

Definition _completion_sort_key (completion : Completion) : string :=
  let name := c_name completion in
  if startswith name "__" then "zz" +:+ name
  else if startswith name "_" then "za" +:+ name
  else "aa" +:+ name.

(** [_completion_item]: the dictionary of the fields of the item; the
    fields it does not set are [None]. *)
Definition _completion_item (completion : Completion) (r : Range)
  : CompletionItem :=
  let label := c_name completion in
  let label :=
    if negb (startswith (c_complete completion) "'") && startswith label "'"
    then slice_from 1 label else label in
  {| label := label;
     ci_kind := completion_type (c_type completion);
     documentation := c_docstring completion;
     sort_text := _completion_sort_key completion;
     text_edit := Some (mkTextEdit r (c_complete completion));
     insert_text := None;
     insert_text_format := None |}.

Definition _completions (completions : list Completion) (r : Range)
  : list CompletionItem :=
  map (fun completion => _completion_item completion r) completions.

(** [sep.join(l)]. *)
Fixpoint join_sep (sep : string) (l : list string) : string :=
  match l with
  | [] => ""
  | [x] => x
  | x :: r => x +:+ sep +:+ join_sep sep r
  end.

(** [c in s] for a character. *)
Fixpoint contains (c : ascii) (s : string) : bool :=
  match s with
  | EmptyString => false
  | String x r => Ascii.eqb x c || contains c r
  end.

Section Snippets.

Context `{ext : Externals}.

(** The loop [for i, param in enumerate(signature.params)] of
    [_completions_snippets], from the index [i] on: the names and the
    snippets it appends. *)
Fixpoint snippet_params (i : Z) (params : list ParamName)
  : list string * list string :=
  match params with
  | [] => ([], [])
  | param :: rest =>
      match p_kind param with
      | VAR_KEYWORD => ([], [])
      | _ =>
          if contains "="%char (p_description param) then ([], [])
          else if String.eqb (p_name param) "/" then snippet_params (i + 1) rest
          else
            let snippet_prefix :=
              match p_kind param with
              | KEYWORD_ONLY => p_name param +:+ "="
              | _ => ""
              end in
            let '(names, snippets) := snippet_params (i + 1) rest in
            (p_name param :: names,
             (snippet_prefix +:+ "${" +:+ str_of_int (i + 1) +:+ ":"
                +:+ p_name param +:+ "}") :: snippets)
      end
  end.

(** The item [_completions_snippets] yields for one signature of a
    completion. *)
Definition snippet_item (completion : Completion) (item : CompletionItem)
           (signature : Signature) : CompletionItem :=
  let '(names, snippets) := snippet_params 0 (sig_params signature) in
  {| label := c_name completion +:+ "(" +:+ join_sep ", " names +:+ ")";
     ci_kind := ci_kind item;
     documentation := documentation item;
     sort_text := sort_text item;
     text_edit := None;
     insert_text :=
       Some (c_name completion +:+ "(" +:+ join_sep ", " snippets +:+ ")$0");
     insert_text_format := Some Snippet |}.

(** [_completions_snippets]: the generator, as the list of what it
    yields. *)
Fixpoint _completions_snippets (completions : list Completion) (r : Range)
  : list CompletionItem :=
  match completions with
  | [] => []
  | completion :: rest =>
      let item := _completion_item completion r in
      item :: map (snippet_item completion item) (c_signatures completion)
        ++ _completions_snippets rest r
  end.

(** What [bf_initialize] reads of the client capabilities to choose
    [completionFunction] and [documentSymbolFunction]. *)
Record Capabilities := mkCapabilities {
  snippetSupport : bool;
  hierarchicalDocumentSymbolSupport : bool
}.

Definition completionFunction (caps : Capabilities)
  : list Completion -> Range -> list CompletionItem :=
  if snippetSupport caps then _completions_snippets else _completions.

End Snippets.

(** [s[n:]] for any integer [n]: a negative [n] counts from the end. *)
Definition slice_from_z (n : Z) (s : string) : string :=
  if n <? 0 then slice_from (Z.to_nat (Z.max 0 (len s + n))) s
  else slice_from (Z.to_nat n) s.

Section Requests.

Context `{ext : Externals} `{eng : Engine}.

Notation "'let*' x ':=' m 'in' k" := (bindM m (fun x => k))
  (at level 10, x pattern, m at level 100, k at level 200).

(** [RE_WORD.match(s).end()] for [RE_WORD = re.compile(r'\w*')]: the
    pattern matches at the start of any string, over the word characters
    that lead it. *)
Fixpoint leading_word (s : string) : nat :=
  match s with
  | EmptyString => O
  | String c r => if word_char c then S (leading_word r) else O
  end.

Definition completions (caps : Capabilities) (ls : LanguageServer)
           (params : TextDocumentPositionParams) : M CompletionList :=
  let* script := get_script ls (pp_uri params) false in
  let completions :=
    complete script (line (pp_position params) + 1)
             (character (pp_position params)) in
  let* code_line := lift (index (_code_lines script) (line (pp_position params))) in
  let word_rest :=
    Z.of_nat (leading_word
                (slice_from_z (character (pp_position params)) code_line)) in
  let r :=
    mkRange (mkPosition (line (pp_position params))
                        (character (pp_position params)))
            (mkPosition (line (pp_position params))
                        (character (pp_position params) + word_rest)) in
  ret (mkCompletionList false (completionFunction caps completions r)).

(** *** Hover *)

(** The separator of the docstrings: a line feed, ten hyphens, a line
    feed. *)
Definition hover_separator : string :=
  String "010"%char ("----------" +:+ String "010"%char EmptyString).

(** [hover]: the text of the [Hover] it returns, if it returns one. *)
Definition hover (ls : LanguageServer) (params : TextDocumentPositionParams)
  : M (option string) :=
  let* script := get_script ls (pp_uri params) false in
  let* flag := gets (fun st => help_on_hover (config st)) in
  let fn := if flag then help script else infer script in
  let names := fn (line (pp_position params) + 1)
                  (character (pp_position params)) in
  let result := join_sep hover_separator names in
  if truthy result then ret (Some result) else ret None.

(** *** Signature help *)

(** The variables [result], [idx], [param_idx] and [i] of
    [signature_help] after its loop over the signatures. *)
Fixpoint signature_loop (sigs : list Signature)
         (result : list SignatureInformation) (idx param_idx i : Z)
  : list SignatureInformation * Z * Z :=
  match sigs with
  | [] => (result, idx, param_idx)
  | signature :: rest =>
      match sig_index signature with
      | None => signature_loop rest result idx param_idx i
      | Some index =>
          let result :=
            result ++ [mkSignatureInformation
                         (sig_to_string signature)
                         (map p_name (sig_params signature))] in
          if index >? param_idx
          then signature_loop rest result i index (i + 1)
          else signature_loop rest result idx param_idx (i + 1)
      end
  end.

Definition signature_help (ls : LanguageServer)
           (params : TextDocumentPositionParams) : M (option SignatureHelp) :=
  let* script := get_script ls (pp_uri params) false in
  let sigs := get_signatures script (line (pp_position params) + 1)
                             (character (pp_position params)) in
  let '(result, idx, param_idx) := signature_loop sigs [] (-1) (-1) 0 in
  match result with
  | [] => ret None
  | _ :: _ =>
      let* chosen := lift (index result idx) in
      ret (Some (mkSignatureHelp [chosen] 0 param_idx))
  end.

(** *** Document symbols *)

(** [_DOCUMENT_SYMBOL_KINDS.get(type, SymbolKind.Null)]. *)
Definition symbol_kind (t : string) : SymbolKind :=
  if String.eqb t "module" then SymModule
  else if String.eqb t "class" then SymClass
  else if String.eqb t "function" then SymFunction
  else if String.eqb t "statement" then SymVariable
  else if String.eqb t "instance" then SymVariable
  else if String.eqb t "_pseudotreenameclass" then SymClass
  else SymNull.

(** The range both symbol functions give a name: from its column to the
    length of its line less one. *)
Definition symbol_range (code_lines : list string) (name : SymbolName)
  : outcome Range :=
  let line := sym_line name - 1 in
  bind (index code_lines line) (fun l =>
    Ok (mkRange (mkPosition line (sym_column name))
                (mkPosition line (len l - 1)))).

(** [names[0].parent() != current], under [current and ...]. *)
Definition leaves (current : option SymbolName) (name : SymbolName) : bool :=
  match current with
  | None => false
  | Some cur => negb (bool_decide (sym_parent name = Some (sym_key cur)))
  end.

(** [_get_document_symbols(code_lines, names, current)] with the list
    [result] it has built so far: the symbols it returns and what it
    leaves of the list [names], which it shares with its caller. Each call
    takes one name off the list or ends; [fuel] bounds the number of
    calls, and [None] is the answer of a call that has none left. *)
Fixpoint symbols_from (fuel : nat) (code_lines : list string)
         (names : list SymbolName) (current : option SymbolName)
         (result : list DocumentSymbol)
  : option (outcome (list DocumentSymbol * list SymbolName)) :=
  match fuel with
  | O => None
  | S fuel' =>
      match names with
      | [] => Some (Ok (result, []))
      | name :: rest =>
          if leaves current name then Some (Ok (result, names))
          else if String.eqb (sym_type name) "param" then
            symbols_from fuel' code_lines rest current result
          else
            match symbols_from fuel' code_lines rest (Some name) [] with
            | None => None
            | Some (Raise e) => Some (Raise e)
            | Some (Ok (children, rest')) =>
                match symbol_range code_lines name with
                | Raise e => Some (Raise e)
                | Ok r =>
                    symbols_from fuel' code_lines rest' current
                      (result ++
                         [mkDocumentSymbol (sym_name name)
                            (symbol_kind (sym_type name)) r r children])
                end
            end
      end
  end.

Definition _get_document_symbols (code_lines : list string)
           (names : list SymbolName)
  : option (outcome (list DocumentSymbol)) :=
  match symbols_from (S (length names)) code_lines names None [] with
  | None => None
  | Some (Raise e) => Some (Raise e)
  | Some (Ok (result, _)) => Some (Ok result)
  end.

Definition _document_symbol_hierarchy (uri : string)
           (code_lines : list string) (names : list SymbolName)
  : option (outcome (list DocumentSymbol)) :=
  _get_document_symbols code_lines names.

(** The container name [_document_symbol_plain] gives a name. *)
Definition container_name (name : SymbolName) : option string :=
  match sym_parent_full_name name with
  | None => None
  | Some parent_name =>
      if truthy parent_name then
        let module_name := sym_module_name name in
        if String.eqb parent_name module_name then None
        else if startswith parent_name (module_name +:+ ".") then
          Some (slice_from (String.length module_name + 1) parent_name)
        else Some parent_name
      else Some parent_name
  end.

Fixpoint _document_symbol_plain (uri : string) (code_lines : list string)
         (names : list SymbolName) : outcome (list SymbolInformation) :=
  match names with
  | [] => Ok []
  | name :: rest =>
      if String.eqb (sym_type name) "param" then
        _document_symbol_plain uri code_lines rest
      else
        bind (symbol_range code_lines name) (fun r =>
        bind (_document_symbol_plain uri code_lines rest) (fun tail =>
          Ok (mkSymbolInformation (sym_name name)
                (symbol_kind (sym_type name))
                (mkLocation uri r) (container_name name) :: tail)))
  end.

(** What [document_symbol] returns. *)
Inductive SymbolResponse :=
| NoSymbols
| Hierarchy (symbols : list DocumentSymbol)
| Flat (symbols : list SymbolInformation).

(** [documentSymbolFunction], as chosen by [bf_initialize]. *)
Definition documentSymbolFunction (caps : Capabilities) (uri : string)
           (code_lines : list string) (names : list SymbolName)
  : option (outcome SymbolResponse) :=
  if hierarchicalDocumentSymbolSupport caps then
    match _document_symbol_hierarchy uri code_lines names with
    | None => None
    | Some (Raise e) => Some (Raise e)
    | Some (Ok l) => Some (Ok (Hierarchy l))
    end
  else
    Some (bind (_document_symbol_plain uri code_lines names)
               (fun l => Ok (Flat l))).

(** [document_symbol]: [None] only if the symbol tree ran out of
    calls. *)
Definition document_symbol (caps : Capabilities) (ls : LanguageServer)
           (uri : string) (st : state)
  : option (outcome SymbolResponse * state) :=
  match get_script ls uri false st with
  | (Raise e, st') => Some (Raise e, st')
  | (Ok script, st') =>
      match get_names script with
      | [] => Some (Ok NoSymbols, st')
      | _ :: _ =>
          match documentSymbolFunction caps uri (_code_lines script)
                                       (get_names script) with
          | None => None
          | Some r => Some (r, st')
          end
      end
  end.

End Requests.

End Features.

(** ** Vocabulary for the properties of the handlers *)

Module Support.

Import types Jedi Server.

(** The number of occurrences of the character [c] in [s]. *)
Fixpoint count_char (c : ascii) (s : string) : nat :=
  match s with
  | EmptyString => O
  | String x r => (if Ascii.eqb x c then 1 else 0) + count_char c r
  end.

(** The line of the handle's code a reporter call looks up, if it looks
    one up. *)
Definition call_line (c : ReporterCall) : option Z :=
  match c with
  | CallUnexpectedError _ _ => None
  | CallSyntaxError _ _ lineno _ _ => Some (lineno - 1)
  | CallFlake message => Some (lineno message - 1)
  end.

(** The index [i] designates an element of [l], counting from the end
    when negative. *)
Definition indexable {A} (l : list A) (i : Z) : Prop :=
  - Z.of_nat (length l) <= i < Z.of_nat (length l).

(** The runs of the type checker. *)
Definition is_mypy_run (e : event) : bool :=
  match e with
  | MypyRun _ => true
  | _ => false
  end.

(** The finding is one that [CodestyleReport.error] reports. *)
Definition reported `{ext : Externals} (options : Options)
           (expected : list string) (f : StyleFinding) : bool :=
  negb (_ignore_code options (slice_to 4 (sf_text f))
        || bool_decide (slice_to 4 (sf_text f) ∈ expected)).

(** The record classifies its line as neither removed nor inserted. *)
Definition keeps (r : Diff.classified) : bool :=
  match Diff.line_tag r with
  | Diff.Unchanged | Diff.Intraline => true
  | Diff.Removed | Diff.Inserted => false
  end.

(** The edits are line-aligned, none ends before it starts, the first
    starts at line [lo] or later, and each of the others starts at least
    one line after the end of the one before it. *)
Fixpoint separated (lo : Z) (es : list TextEdit) : Prop :=
  match es with
  | [] => True
  | e :: r =>
      Diff.line_aligned (te_range e) = true
      /\ lo <= line (start (te_range e))
      /\ line (start (te_range e)) <= line (end_ (te_range e))
      /\ separated (line (end_ (te_range e)) + 1) r
  end.

(** The rank of a name among the completions: public names first, then
    names with one leading underscore, then names with two. *)
Definition sort_class (name : string) : nat :=
  if startswith name "__" then 2
  else if startswith name "_" then 1
  else 0.

(** Every character of [s] is a word character. *)
Fixpoint all_word `{eng : Features.Engine} (s : string) : bool :=
  match s with
  | EmptyString => true
  | String c r => Features.word_char c && all_word r
  end.

(** [s] starts with a word character. *)
Definition starts_word `{eng : Features.Engine} (s : string) : bool :=
  match s with
  | EmptyString => false
  | String c _ => Features.word_char c
  end.

(** The names that are not parameters: those the symbol functions
    report. *)
Fixpoint visible (names : list Features.SymbolName) : list Features.SymbolName :=
  match names with
  | [] => []
  | n :: r =>
      if String.eqb (Features.sym_type n) "param" then visible r
      else n :: visible r
  end.

(** The names of a symbol and of its descendants, parent first. *)
Fixpoint flat_names (d : Features.DocumentSymbol) : list string :=
  match d with
  | Features.mkDocumentSymbol n _ _ _ children =>
      n :: (fix forest (l : list Features.DocumentSymbol) : list string :=
              match l with
              | [] => []
              | c :: r => flat_names c ++ forest r
              end) children
  end.

Definition forest_names (l : list Features.DocumentSymbol) : list string :=
  concat (map flat_names l).

(** The signatures for which the cursor is on a parameter. *)
Fixpoint indexed (sigs : list Features.Signature) : list Features.Signature :=
  match sigs with
  | [] => []
  | s :: r =>
      match Features.sig_index s with
      | Some _ => s :: indexed r
      | None => indexed r
      end
  end.

(** The loop of [signature_help] has gone through the signatures [seen]:
    either none of them had an index above [-1] and nothing is chosen, or
    the choice is the first of those whose index is the largest. *)
Definition chosen (seen : list Features.Signature) (idx param_idx : Z) : Prop :=
  (idx = -1 /\ param_idx = -1
   /\ forall s k, s ∈ seen -> Features.sig_index s = Some k -> k <= -1)
  \/ (exists before s after,
        seen = before ++ s :: after
        /\ idx = Z.of_nat (length (indexed before))
        /\ Features.sig_index s = Some param_idx
        /\ -1 < param_idx
        /\ (forall s' k, s' ∈ before -> Features.sig_index s' = Some k ->
                         k < param_idx)
        /\ (forall s' k, s' ∈ after -> Features.sig_index s' = Some k ->
                         k <= param_idx)).

(** The information the server gives for a signature. *)
Definition signature_information (s : Features.Signature)
  : Features.SignatureInformation :=
  Features.mkSignatureInformation
    (Features.sig_to_string s)
    (map Features.p_name (Features.sig_params s)).

(** What a stage of a validation pass leaves behind: the events
    [added], and the configuration and the mypy cache untouched. *)
Definition stage `{ext : Externals} (st st' : state) (added : list event)
  : Prop :=
  trace st' = trace st ++ added
  /\ config st' = config st
  /\ mypyConfigs st' = mypyConfigs st.

(** The configuration after the keys present in the settings were
    stored. *)
Definition apply_settings (a : AnakinSettings) (c : Config) : Config :=
  {| pyflakes_errors := default (pyflakes_errors c) (s_pyflakes_errors a);
     pycodestyle_config := default (pycodestyle_config c) (s_pycodestyle_config a);
     help_on_hover := default (help_on_hover c) (s_help_on_hover a);
     mypy_enabled := default (mypy_enabled c) (s_mypy_enabled a) |}.

End Support.

(** ** A small engine to run the requests with *)

Module DemoFeatures.

Import types Jedi Server Features Diff.

(** Letters, digits and the underscore. *)
Definition ascii_word (c : ascii) : bool :=
  let n := nat_of_ascii c in
  ((48 <=? n) && (n <=? 57) || (65 <=? n) && (n <=? 90)
   || (97 <=? n) && (n <=? 122) || (n =? 95))%nat.

(** Two signatures of one function, the cursor on the first parameter of
    the first and on the second of the other, and one without index. *)
Definition demo_signatures : list Signature :=
  [mkSignature (Some 0) "f(a)" [mkParamName "a" POSITIONAL_OR_KEYWORD "param a"];
   mkSignature None "f()" [];
   mkSignature (Some 1) "f(a, b)"
     [mkParamName "a" POSITIONAL_OR_KEYWORD "param a";
      mkParamName "b" POSITIONAL_OR_KEYWORD "param b"];
   mkSignature (Some 1) "f(a, *, b)"
     [mkParamName "a" POSITIONAL_OR_KEYWORD "param a";
      mkParamName "b" KEYWORD_ONLY "param b"]].

(** A class with a method that has a parameter, and a function. *)
Definition demo_names : list SymbolName :=
  [mkSymbolName 1 (Some 0) (Some "m") "A" "class" 1 6 "m";
   mkSymbolName 2 (Some 1) (Some "m.A") "run" "function" 1 4 "m";
   mkSymbolName 3 (Some 2) (Some "m.A.run") "self" "param" 1 8 "m";
   mkSymbolName 4 (Some 0) (Some "m") "main" "function" 1 4 "m"].

#[export] Instance demo_engine : Engine :=
  {| complete := fun _ _ _ =>
       [mkCompletion "spam" "am" "function" "spam()" demo_signatures;
        mkCompletion "_spare" "are" "statement" "" []];
     help := fun _ l _ => if (l =? 1) then ["full help"] else [""; ""];
     infer := fun _ l _ => if (l =? 1) then ["inferred"] else [];
     get_signatures := fun _ _ _ => demo_signatures;
     get_names := fun script =>
       if String.eqb (_code script) "spam" then demo_names else [];
     word_char := ascii_word |}.

End DemoFeatures.

(** * Properties *)

Import types Jedi Server.
Import Support.

(** ** Python strings and lists *)

Section PyFacts.

Lemma str_app_cons c (a b : string) : String c a +:+ b = String c (a +:+ b).
Proof. reflexivity. Qed.

Lemma str_app_nil_l (b : string) : "" +:+ b = b.
Proof. reflexivity. Qed.

Lemma str_app_nil_r (a : string) : a +:+ "" = a.
Proof.
  induction a as [|c a IH]; [reflexivity|].
  rewrite str_app_cons, IH. reflexivity.
Qed.

Lemma str_app_assoc (a b c : string) : (a +:+ b) +:+ c = a +:+ (b +:+ c).
Proof.
  induction a as [|x a IH]; [reflexivity|].
  rewrite !str_app_cons, IH. reflexivity.
Qed.

Lemma join_app (a b : list string) : join (a ++ b) = join a +:+ join b.
Proof.
  induction a as [|x a IH]; simpl; [reflexivity|].
  rewrite IH. symmetry. apply str_app_assoc.
Qed.

End PyFacts.

(** ** The synthesis of text edits *)

Section CoalescerFacts.

Import types Coalescer Diff.

Lemma first_char_render r : first_char (render r) = Ok (tag_char (line_tag r)).
Proof. reflexivity. Qed.

Lemma slice_render r : slice_from 2 (render r) = line_text r.
Proof. reflexivity. Qed.

(** What one iteration does, by the tag of the line. *)
Lemma body_render v r :
  body v (render r) =
  Ok match line_tag r with
     | Intraline => v
     | Removed =>
         mkLocals (result v) (line_number v + 1) (open_span v) true (lines v)
     | Inserted =>
         mkLocals (result v) (line_number v) (open_span v) (replace_lines v)
                  (lines v ++ [line_text r])
     | Unchanged =>
         match Coalescer.start v with
         | Some p =>
             mkLocals (result (_append v p)) (line_number v + 1) None false []
         | None =>
             mkLocals (result v) (line_number v + 1) None
                      (replace_lines v) (lines v)
         end
     end.
Proof.
  destruct r as [[] txt]; unfold body; simpl; try reflexivity.
  destruct (Coalescer.start v) eqn:E; simpl; rewrite ?E; reflexivity.
Qed.

Lemma replay_from_cons c rest e es :
  replay_from c rest (e :: es) =
  let s := line (types.start (te_range e)) in
  let t := line (end_ (te_range e)) in
  if line_aligned (te_range e) && (c <=? s) && (s <=? t)
     && (t <=? c + Z.of_nat (length rest)) then
    match replay_from t (drop (Z.to_nat (t - c)) rest) es with
    | Some tail =>
        Some (join (take (Z.to_nat (s - c)) rest) +:+ newText e +:+ tail)
    | None => None
    end
  else None.
Proof. reflexivity. Qed.

(** Replaying no edit leaves the text of the buffer. *)
Lemma apply_text_edits_nil old : apply_text_edits old [] = Some (join old).
Proof. reflexivity. Qed.

(** Replaying one edit on the lines [s] to [t] puts its payload between
    the text of the lines before [s] and the text of the lines from [t]
    on. *)
Lemma apply_text_edits_one old (s t : nat) payload :
  (s <= t <= length old)%nat ->
  apply_text_edits old
    [mkTextEdit (mkRange (mkPosition (Z.of_nat s) 0) (mkPosition (Z.of_nat t) 0))
                payload]
  = Some (join (take s old) +:+ payload +:+ join (drop t old)).
Proof.
  intros [Hst Ht]. unfold apply_text_edits. rewrite replay_from_cons.
  cbv zeta. unfold line_aligned.
  cbn [te_range types.start end_ line character newText Z.eqb andb].
  replace (0 <=? Z.of_nat s) with true by (symmetry; apply Z.leb_le; lia).
  replace (Z.of_nat s <=? Z.of_nat t) with true
    by (symmetry; apply Z.leb_le; lia).
  replace (Z.of_nat t <=? 0 + Z.of_nat (length old)) with true
    by (symmetry; apply Z.leb_le; lia).
  cbn [andb replay_from].
  replace (Z.to_nat (Z.of_nat t - 0)) with t by lia.
  replace (Z.to_nat (Z.of_nat s - 0)) with s by lia.
  reflexivity.
Qed.

(** Moving the cursor up over one line that no edit touches. *)
Lemma replay_from_skip c x rest es out :
  replay_from (c + 1) rest es = Some out ->
  replay_from c (x :: rest) es = Some (x +:+ out).
Proof.
  destruct es as [|e es].
  - simpl. intros [= <-]. reflexivity.
  - rewrite !replay_from_cons. cbv zeta.
    set (s := line (types.start (te_range e))).
    set (t := line (end_ (te_range e))).
    destruct (_ && _ && _ && _) eqn:G; [|discriminate].
    apply andb_true_iff in G as [G Ht].
    apply andb_true_iff in G as [G Hst].
    apply andb_true_iff in G as [Ha Hs].
    apply Z.leb_le in Ht, Hst, Hs.
    rewrite Ha.
    replace (c <=? s) with true by (symmetry; apply Z.leb_le; lia).
    replace (s <=? t) with true by (symmetry; apply Z.leb_le; lia).
    replace (t <=? c + Z.of_nat (length (x :: rest))) with true
      by (symmetry; apply Z.leb_le; simpl length; lia).
    cbn [andb].
    replace (Z.to_nat (t - c)) with (S (Z.to_nat (t - (c + 1)))) by lia.
    replace (Z.to_nat (s - c)) with (S (Z.to_nat (s - (c + 1)))) by lia.
    cbn [drop take join].
    destruct (replay_from t _ es) as [tail|]; [|discriminate].
    intros [= <-]. f_equal.
    rewrite !str_app_assoc. reflexivity.
Qed.

Lemma result_append v p :
  result (_append v p) =
  result v ++
    [mkTextEdit
       (mkRange p (if replace_lines v then mkPosition (line_number v) 0 else p))
       (join (lines v))].
Proof. reflexivity. Qed.

(** Replaying the edit of a closed span, then the edits that follow. *)
Lemma replay_flush v p pend rest es out :
  character p = 0 ->
  Z.of_nat (length pend) = line_number v - line p ->
  (replace_lines v = false -> pend = []) ->
  replay_from (line_number v) rest es = Some out ->
  replay_from (line p) (pend ++ rest)
    (mkTextEdit
       (mkRange p (if replace_lines v then mkPosition (line_number v) 0 else p))
       (join (lines v)) :: es)
  = Some (join (lines v) +:+ out).
Proof.
  intros Hc Hlen Hrep Hrest.
  rewrite replay_from_cons. cbv zeta. unfold line_aligned. cbn [te_range types.start end_ newText].
  assert (Ht : line (if replace_lines v then mkPosition (line_number v) 0 else p)
               = line_number v).
  { destruct (replace_lines v); [reflexivity|].
    rewrite (Hrep eq_refl) in Hlen. simpl in Hlen. lia. }
  assert (Hct : character (if replace_lines v then mkPosition (line_number v) 0 else p)
                = 0).
  { destruct (replace_lines v); [reflexivity|exact Hc]. }
  rewrite Ht, Hct, Hc.
  replace (line p <=? line p) with true by (symmetry; apply Z.leb_le; lia).
  replace (line p <=? line_number v) with true by (symmetry; apply Z.leb_le; lia).
  replace (line_number v <=? line p + Z.of_nat (length (pend ++ rest))) with true
    by (symmetry; apply Z.leb_le; rewrite length_app; lia).
  cbn [andb Z.eqb].
  replace (Z.to_nat (line_number v - line p)) with (length pend) by lia.
  rewrite drop_app_length, Hrest.
  replace (Z.to_nat (line p - line p)) with O by lia.
  reflexivity.
Qed.

(** The loop, from any state between two iterations, on the rendering of
    a diff script: it ends, it only adds edits, and replaying the added
    edits from the open span on gives the pending payload followed by
    the revised lines of the script. *)
Lemma loop_replay script :
  forall v pend,
    span_ok v pend ->
    exists v' es,
      loop v (map render script) = Ok v'
      /\ finish v' = result v ++ es
      /\ replay_from (base v) (pend ++ old_of script) es
         = Some (join (lines v) +:+ join (new_of script)).
Proof.
  induction script as [|r script IH]; intros v pend Hv.
  - exists v. unfold span_ok, base, finish in *. simpl.
    destruct (Coalescer.start v) as [p|] eqn:E.
    + destruct Hv as (Hc & Hlen & Hrep).
      eexists. split; [reflexivity|]. split; [apply result_append|].
      rewrite str_app_nil_r.
      rewrite <- (str_app_nil_r (join (lines v))) at 2.
      apply replay_flush; auto.
    + destruct Hv as (-> & -> & _).
      exists []. rewrite app_nil_r. auto.
  - cbn [map loop]. rewrite body_render. cbn [bind].
    unfold span_ok, base in Hv |- *.
    destruct r as [[] txt]; cbn [line_tag line_text old_of new_of].
    + (* removed *)
      edestruct (IH (mkLocals (result v) (line_number v + 1) (open_span v)
                              true (lines v)) (pend ++ [txt]))
        as (v' & es & Hl & Hf & Hr).
      { unfold span_ok, open_span. cbn [Coalescer.start line_number replace_lines lines].
        destruct (Coalescer.start v) as [p|].
        - destruct Hv as (Hc & Hlen & _). rewrite length_app. simpl.
          repeat split; [exact Hc | lia | discriminate].
        - destruct Hv as (-> & _). simpl. repeat split; [lia | discriminate]. }
      exists v', es. split; [exact Hl|]. split; [exact Hf|].
      unfold base, open_span in Hr. cbn [Coalescer.start lines line_number] in Hr.
      rewrite <- app_assoc in Hr. simpl in Hr.
      destruct (Coalescer.start v) as [p|]; [exact Hr|].
      destruct Hv as (-> & _). exact Hr.
    + (* inserted *)
      edestruct (IH (mkLocals (result v) (line_number v) (open_span v)
                              (replace_lines v) (lines v ++ [txt])) pend)
        as (v' & es & Hl & Hf & Hr).
      { unfold span_ok, open_span. cbn [Coalescer.start line_number replace_lines lines].
        destruct (Coalescer.start v) as [p|].
        - exact Hv.
        - destruct Hv as (-> & _ & Hrep). simpl. repeat split; lia. }
      exists v', es. split; [exact Hl|]. split; [exact Hf|].
      unfold base, open_span in Hr. cbn [Coalescer.start lines line_number] in Hr.
      rewrite join_app in Hr. simpl in Hr. rewrite str_app_nil_r in Hr.
      rewrite str_app_assoc in Hr.
      destruct (Coalescer.start v) as [p|]; exact Hr.
    + (* unchanged *)
      destruct (Coalescer.start v) as [p|] eqn:E.
      * destruct Hv as (Hc & Hlen & Hrep).
        edestruct (IH (mkLocals (result (_append v p)) (line_number v + 1)
                                None false []) [])
          as (v' & es & Hl & Hf & Hr).
        { unfold span_ok. simpl. auto. }
        exists v'. eexists. split; [exact Hl|].
        split.
        { rewrite Hf. cbn [result]. rewrite result_append, <- app_assoc.
          reflexivity. }
        unfold base in Hr. simpl in Hr.
        apply replay_flush; auto.
        apply replay_from_skip. exact Hr.
      * destruct Hv as (-> & Hl0 & Hr0).
        edestruct (IH (mkLocals (result v) (line_number v + 1) None
                                (replace_lines v) (lines v)) [])
          as (v' & es & Hl & Hf & Hr).
        { unfold span_ok. simpl. auto. }
        exists v', es. split; [exact Hl|]. split; [exact Hf|].
        unfold base in Hr. simpl in Hr. rewrite Hl0 in Hr |- *.
        cbn [join app] in Hr |- *. rewrite str_app_nil_l in Hr |- *.
        apply replay_from_skip. exact Hr.
    + (* intraline hint *)
      destruct (IH v pend Hv) as (v' & es & Hl & Hf & Hr).
      exists v', es. auto.
Qed.

(** Unchanged lines open no span. *)
Lemma loop_unchanged (l : list string) :
  forall v,
    Coalescer.start v = None ->
    exists v',
      loop v (map (fun x => render (mkClassified Unchanged x)) l) = Ok v'
      /\ Coalescer.start v' = None /\ result v' = result v.
Proof.
  induction l as [|x l IH]; intros v Hv.
  - exists v. auto.
  - cbn [map loop]. rewrite body_render. cbn [line_tag bind]. rewrite Hv.
    destruct (IH (mkLocals (result v) (line_number v + 1) None
                           (replace_lines v) (lines v)) eq_refl)
      as (v' & Hl & Hs & Hr).
    exists v'. auto.
Qed.

(** The reference diff is a diff, of any two sequences. *)
Lemma reference_script_old a : forall b, old_of (reference_script a b) = a.
Proof.
  induction a as [|x a IHa]; intros b.
  - destruct b; simpl; [reflexivity|].
    induction b as [|y b IHb]; simpl; auto.
  - induction b as [|y b IHb].
    + simpl. f_equal. clear. induction a; simpl; congruence.
    + cbn [reference_script]. fold (reference_script (x :: a)).
      destruct (String.eqb x y).
      * simpl. f_equal. apply IHa.
      * destruct (_ <=? _)%nat.
        -- simpl. f_equal. apply IHa.
        -- simpl. apply IHb.
Qed.

Lemma reference_script_new a : forall b, new_of (reference_script a b) = b.
Proof.
  induction a as [|x a IHa]; intros b.
  - destruct b; simpl; [reflexivity|]. f_equal.
    induction b as [|y b IHb]; simpl; congruence.
  - induction b as [|y b IHb].
    + simpl. clear. induction a; simpl; auto.
    + cbn [reference_script]. fold (reference_script (x :: a)).
      destruct (String.eqb_spec x y) as [->|].
      * simpl. f_equal. apply IHa.
      * destruct (_ <=? _)%nat.
        -- simpl. apply IHa.
        -- simpl. f_equal. apply IHb.
Qed.

Lemma reference_compare_diff a b : IsDiff (reference_compare a b) a b.
Proof.
  exists (reference_script a b).
  split; [reflexivity|].
  split; [apply reference_script_old | apply reference_script_new].
Qed.

(** The reference diff of a sequence against itself keeps every line. *)
Lemma reference_compare_same a :
  reference_compare a a = map (fun x => render (mkClassified Unchanged x)) a.
Proof.
  unfold reference_compare.
  induction a as [|x a IH]; [reflexivity|].
  cbn [reference_script]. rewrite String.eqb_refl.
  cbn [map]. f_equal. exact IH.
Qed.

(** C1. For every pair of line sequences [old] and [new] that a changed
    file splits into, when the line diff engine returns a diff of [old]
    and [new], the synthesis returns a list of edits, and replaying those
    edits in the order emitted, every range read in the line numbering of
    the original buffer, on the lines [old] gives a buffer whose text is
    exactly the text of the lines [new]. *)
Theorem get_text_edits_replay
        (split_lines : string -> list string)
        (compare : list string -> list string -> list string)
        (changes : Jedi.ChangedFile) (old new : list string) :
  split_lines (Jedi.get_code changes) = old ->
  split_lines (Jedi.get_new_code changes) = new ->
  IsDiff (compare old new) old new ->
  exists edits,
    _get_text_edits split_lines compare changes = Ok edits
    /\ apply_text_edits old edits = Some (join new).
Proof.
  intros Ho Hn (script & Hout & Hold & Hnew).
  unfold _get_text_edits. rewrite Ho, Hn, Hout.
  destruct (loop_replay script init []) as (v' & es & Hl & Hf & Hr).
  { unfold span_ok. simpl. auto. }
  rewrite Hl. cbn [bind]. exists (finish v'). split; [reflexivity|].
  rewrite Hf. cbn [result init app]. unfold apply_text_edits.
  unfold base in Hr. cbn [Coalescer.start init line_number lines] in Hr.
  cbn [app join] in Hr. rewrite str_app_nil_l, Hold, Hnew in Hr. exact Hr.
Qed.

(** C2. When the old and the new code of a changed file split into the
    same line sequence, for which the line diff engine keeps every line,
    the synthesis returns the empty list of edits. *)
Theorem get_text_edits_same
        (split_lines : string -> list string)
        (compare : list string -> list string -> list string)
        (changes : Jedi.ChangedFile) (old : list string) :
  split_lines (Jedi.get_code changes) = old ->
  split_lines (Jedi.get_new_code changes) = old ->
  compare old old = map (fun x => render (mkClassified Unchanged x)) old ->
  _get_text_edits split_lines compare changes = Ok [].
Proof.
  intros Ho Hn Hsame.
  unfold _get_text_edits. rewrite Ho, Hn, Hsame.
  destruct (loop_unchanged old init eq_refl) as (v' & Hl & Hs & Hr).
  rewrite Hl. cbn [bind]. unfold finish. rewrite Hs, Hr. reflexivity.
Qed.

Example replace_b_by_x_edits :
  _get_text_edits lf_lines reference_compare Demo.replace_b_by_x
  = Ok [mkTextEdit (mkRange (mkPosition 1 0) (mkPosition 2 0)) (ln "x")].
Proof. vm_compute. reflexivity. Qed.

Example append_c_edits :
  _get_text_edits lf_lines reference_compare Demo.append_c
  = Ok [mkTextEdit (mkRange (mkPosition 2 0) (mkPosition 2 0)) (ln "c")].
Proof. vm_compute. reflexivity. Qed.

(** A diff that lists an inserted line before the removed ones is
    replayed correctly as well. *)
Example insert_before_remove :
  bind (loop init (map render [mkClassified Unchanged (ln "a");
                               mkClassified Inserted (ln "x");
                               mkClassified Removed (ln "b");
                               mkClassified Removed (ln "c");
                               mkClassified Unchanged (ln "d")]))
       (fun v => Ok (finish v))
  = Ok [mkTextEdit (mkRange (mkPosition 1 0) (mkPosition 3 0)) (ln "x")].
Proof. vm_compute. reflexivity. Qed.

Lemma get_text_edits_replay_witness :
  exists edits,
    _get_text_edits lf_lines reference_compare Demo.replace_b_by_x = Ok edits
    /\ apply_text_edits [ln "a"; ln "b"; ln "c"; ""] edits
       = Some (join [ln "a"; ln "x"; ln "c"; ""]).
Proof.
  apply (get_text_edits_replay lf_lines reference_compare Demo.replace_b_by_x
           [ln "a"; ln "b"; ln "c"; ""] [ln "a"; ln "x"; ln "c"; ""]).
  - vm_compute. reflexivity.
  - vm_compute. reflexivity.
  - exists [mkClassified Unchanged (ln "a"); mkClassified Removed (ln "b");
            mkClassified Inserted (ln "x"); mkClassified Unchanged (ln "c");
            mkClassified Unchanged ""].
    repeat split; vm_compute; reflexivity.
Defined.

Lemma get_text_edits_same_witness :
  _get_text_edits lf_lines reference_compare
    (Jedi.mkChangedFile (ln "a" +:+ ln "b") (ln "a" +:+ ln "b"))
  = Ok [].
Proof.
  apply (get_text_edits_same lf_lines reference_compare _
           [ln "a"; ln "b"; ""]); vm_compute; reflexivity.
Defined.

End CoalescerFacts.

(** ** More on the synthesis of text edits *)

Section CoalescerMoreFacts.

Import Coalescer Diff.

(** Once a span is open or an edit was emitted, the synthesis returns at
    least one edit. *)
Lemma loop_pending (script : list classified) :
  forall v v',
    Coalescer.start v <> None \/ result v <> [] ->
    loop v (map render script) = Ok v' ->
    finish v' <> [].
Proof.
  induction script as [|r script IH]; intros v v' Hpend.
  - intros [= <-]. unfold finish.
    destruct (Coalescer.start v) as [p|].
    + rewrite result_append. destruct (result v); discriminate.
    + destruct Hpend as [H | H]; [contradiction | exact H].
  - cbn [map loop]. rewrite body_render. cbn [bind]. apply IH.
    destruct r as [[] txt]; cbn [line_tag].
    + left. unfold open_span. cbn. destruct (Coalescer.start v); discriminate.
    + left. unfold open_span. cbn. destruct (Coalescer.start v); discriminate.
    + destruct (Coalescer.start v) as [p|].
      * right. cbn [result]. rewrite result_append.
        destruct (result v); discriminate.
      * right. cbn [result]. destruct Hpend as [H | H]; [contradiction | exact H].
    + exact Hpend.
Qed.

Lemma loop_keeps (script : list classified) :
  forall v,
    Coalescer.start v = None ->
    Forall (fun r => keeps r = true) script ->
    exists v',
      loop v (map render script) = Ok v'
      /\ Coalescer.start v' = None /\ result v' = result v.
Proof.
  induction script as [|r script IH]; intros v Hv Hall.
  - exists v. auto.
  - apply Forall_cons in Hall as [Hr Hall].
    cbn [map loop]. rewrite body_render. cbn [bind].
    destruct r as [[] txt]; cbn [keeps line_tag] in Hr |- *; try discriminate.
    + rewrite Hv.
      destruct (IH (mkLocals (result v) (line_number v + 1) None
                             (replace_lines v) (lines v)) eq_refl Hall)
        as (v' & Hl & Hs & Hres).
      exists v'. auto.
    + apply IH; assumption.
Qed.

(** The loop returns on the rendering of any script. *)
Lemma loop_returns (script : list classified) :
  forall v, exists v', loop v (map render script) = Ok v'.
Proof.
  induction script as [|r script IH]; intros v.
  - exists v. reflexivity.
  - cbn [map loop]. rewrite body_render. cbn [bind]. apply IH.
Qed.

(** X19. On the rendering of a diff script the synthesis returns, and
    the list of edits is empty exactly when the script classifies no line
    as removed or inserted. *)
Theorem get_text_edits_empty_iff
        (split_lines : string -> list string)
        (compare : list string -> list string -> list string)
        (changes : Jedi.ChangedFile) (script : list classified) :
  compare (split_lines (Jedi.get_code changes))
          (split_lines (Jedi.get_new_code changes)) = map render script ->
  exists edits,
    _get_text_edits split_lines compare changes = Ok edits
    /\ (edits = [] <-> Forall (fun r => keeps r = true) script).
Proof.
  intros Hout. unfold _get_text_edits. rewrite Hout.
  destruct (loop_returns script init) as (v' & Hl).
  rewrite Hl. cbn [bind]. eexists. split; [reflexivity|].
  split.
  - intros Hempty.
    clear Hout. revert Hl Hempty. generalize init at 1.
    enough (Hgen : forall v,
               loop v (map render script) = Ok v' -> finish v' = [] ->
               Forall (fun r => keeps r = true) script) by exact Hgen.
    induction script as [|r script IH]; intros v Hl Hempty; [constructor|].
    cbn [map loop] in Hl. rewrite body_render in Hl. cbn [bind] in Hl.
    destruct r as [[] txt]; cbn [line_tag] in Hl.
    + exfalso. refine (loop_pending script _ v' _ Hl Hempty).
      left. unfold open_span. cbn. destruct (Coalescer.start v); discriminate.
    + exfalso. refine (loop_pending script _ v' _ Hl Hempty).
      left. unfold open_span. cbn. destruct (Coalescer.start v); discriminate.
    + constructor; [reflexivity|]. destruct (Coalescer.start v); eapply IH; eauto.
    + constructor; [reflexivity|]. eapply IH; eauto.
  - intros Hall.
    destruct (loop_keeps script init eq_refl Hall) as (v'' & Hl' & Hs & Hres).
    rewrite Hl in Hl'. injection Hl' as <-.
    unfold finish. rewrite Hs, Hres. reflexivity.
Qed.

(** X20. The synthesis fails only on a malformed diff: it returns when
    no line of the diff output is the empty string, and raises the
    [IndexError] of [line[0]] when one is. *)
Theorem get_text_edits_raises
        (split_lines : string -> list string)
        (compare : list string -> list string -> list string)
        (changes : Jedi.ChangedFile) :
  let out := compare (split_lines (Jedi.get_code changes))
                     (split_lines (Jedi.get_new_code changes)) in
  (Forall (fun l => l <> EmptyString) out ->
   exists edits, _get_text_edits split_lines compare changes = Ok edits)
  /\ (Exists (fun l => l = EmptyString) out ->
      _get_text_edits split_lines compare changes
      = Raise (IndexError "string index out of range")).
Proof.
  intros out. unfold _get_text_edits. fold out.
  generalize init. generalize out. clear.
  intros diff v0. split.
  - revert v0. induction diff as [|line diff IH]; intros v Hall.
    + eexists. reflexivity.
    + apply Forall_cons in Hall as [Hline Hall]. cbn [loop].
      assert (Hbody : exists v1, body v line = Ok v1).
      { unfold body. destruct line as [|c r]; [contradiction|].
        cbn [first_char bind].
        repeat (destruct (Ascii.eqb c _)); eexists; reflexivity. }
      destruct Hbody as (v1 & ->). cbn [bind]. apply IH. exact Hall.
  - revert v0. induction diff as [|line diff IH]; intros v Hex.
    + inversion Hex.
    + cbn [loop]. destruct line as [|c r].
      * reflexivity.
      * apply Exists_cons in Hex as [Hline | Hex]; [discriminate|].
        assert (Hbody : exists v1, body v (String c r) = Ok v1).
        { unfold body. cbn [first_char bind].
          repeat (destruct (Ascii.eqb c _)); eexists; reflexivity. }
        destruct Hbody as (v1 & ->). cbn [bind]. apply IH. exact Hex.
Qed.

Lemma separated_weaken (es : list TextEdit) (lo lo' : Z) :
  lo' <= lo -> separated lo es -> separated lo' es.
Proof.
  destruct es as [|e es]; [auto|].
  cbn [separated]. intros Hle (Ha & Hlo & Hse & Hrest). repeat split; auto; lia.
Qed.

(** The edit of a closed span, in front of edits that start after the
    line that closes it. *)
Lemma separated_flush (v : locals) (p : types.Position) (pend : list string)
      (es : list TextEdit) :
  character p = 0 ->
  Z.of_nat (length pend) = line_number v - line p ->
  (replace_lines v = false -> pend = []) ->
  separated (line_number v + 1) es ->
  separated (line p)
    (mkTextEdit
       (mkRange p (if replace_lines v then mkPosition (line_number v) 0 else p))
       (join (lines v)) :: es)
  /\ line (if replace_lines v then mkPosition (line_number v) 0 else p)
     = line_number v.
Proof.
  intros Hc Hlen Hrep Hes.
  assert (Ht : line (if replace_lines v then mkPosition (line_number v) 0 else p)
               = line_number v).
  { destruct (replace_lines v); [reflexivity|].
    rewrite (Hrep eq_refl) in Hlen. simpl in Hlen. lia. }
  split; [|exact Ht].
  cbn [separated te_range types.start end_]. rewrite Ht.
  split; [|split; [lia|split; [lia|exact Hes]]].
  unfold line_aligned. cbn [types.start end_]. rewrite Hc.
  destruct (replace_lines v); cbn [character]; rewrite ?Hc; reflexivity.
Qed.

Lemma loop_separated (script : list classified) :
  forall v pend,
    span_ok v pend ->
    exists v' es,
      loop v (map render script) = Ok v'
      /\ finish v' = result v ++ es
      /\ separated (base v) es
      /\ Forall (fun e =>
                   line (end_ (te_range e))
                   <= base v + Z.of_nat (length (pend ++ old_of script))) es.
Proof.
  induction script as [|r script IH]; intros v pend Hv.
  - exists v. unfold span_ok, base, finish in *. cbn [map loop old_of].
    destruct (Coalescer.start v) as [p|] eqn:E.
    + destruct Hv as (Hc & Hlen & Hrep).
      eexists. split; [reflexivity|]. split; [apply result_append|].
      destruct (separated_flush v p pend [] Hc Hlen Hrep I) as [Hsep Ht].
      split; [exact Hsep|]. constructor; [|constructor].
      cbn [te_range end_]. rewrite Ht, app_nil_r. lia.
    + exists []. rewrite app_nil_r. cbn. auto.
  - cbn [map loop]. rewrite body_render. cbn [bind].
    unfold span_ok, base in Hv |- *.
    destruct r as [[] txt]; cbn [line_tag line_text old_of].
    + (* removed *)
      edestruct (IH (mkLocals (result v) (line_number v + 1) (open_span v)
                              true (lines v)) (pend ++ [txt]))
        as (v' & es & Hl & Hf & Hsep & Hb).
      { unfold span_ok, open_span.
        cbn [Coalescer.start line_number replace_lines lines].
        destruct (Coalescer.start v) as [p|].
        - destruct Hv as (Hc & Hlen & _). rewrite length_app. simpl.
          repeat split; [exact Hc | lia | discriminate].
        - destruct Hv as (-> & _). simpl. repeat split; [lia | discriminate]. }
      exists v', es. split; [exact Hl|]. split; [exact Hf|].
      unfold base, open_span in Hsep, Hb.
      cbn [Coalescer.start lines line_number] in Hsep, Hb.
      rewrite <- app_assoc in Hb. simpl in Hb.
      destruct (Coalescer.start v) as [p|]; [auto|].
      destruct Hv as (-> & _). auto.
    + (* inserted *)
      edestruct (IH (mkLocals (result v) (line_number v) (open_span v)
                              (replace_lines v) (lines v ++ [txt])) pend)
        as (v' & es & Hl & Hf & Hsep & Hb).
      { unfold span_ok, open_span.
        cbn [Coalescer.start line_number replace_lines lines].
        destruct (Coalescer.start v) as [p|].
        - exact Hv.
        - destruct Hv as (-> & _ & Hrep). simpl. repeat split; lia. }
      exists v', es. split; [exact Hl|]. split; [exact Hf|].
      unfold base, open_span in Hsep, Hb.
      cbn [Coalescer.start lines line_number] in Hsep, Hb.
      destruct (Coalescer.start v) as [p|]; auto.
    + (* unchanged *)
      destruct (Coalescer.start v) as [p|] eqn:E.
      * destruct Hv as (Hc & Hlen & Hrep).
        edestruct (IH (mkLocals (result (_append v p)) (line_number v + 1)
                                None false []) [])
          as (v' & es & Hl & Hf & Hsep & Hb).
        { unfold span_ok. simpl. auto. }
        unfold base in Hsep, Hb. cbn [Coalescer.start line_number app] in Hsep, Hb.
        destruct (separated_flush v p pend es Hc Hlen Hrep Hsep) as [Hall Ht].
        exists v'. eexists. split; [exact Hl|].
        split.
        { rewrite Hf. cbn [result]. rewrite result_append, <- app_assoc.
          reflexivity. }
        split; [exact Hall|].
        rewrite length_app. cbn [length].
        constructor.
        -- cbn [te_range end_]. rewrite Ht. lia.
        -- eapply Forall_impl; [exact Hb|]. cbn. intros e He. lia.
      * destruct Hv as (-> & Hl0 & Hr0).
        edestruct (IH (mkLocals (result v) (line_number v + 1) None
                                (replace_lines v) (lines v)) [])
          as (v' & es & Hl & Hf & Hsep & Hb).
        { unfold span_ok. simpl. auto. }
        unfold base in Hsep, Hb. cbn [Coalescer.start line_number app] in Hsep, Hb.
        exists v', es. split; [exact Hl|]. split; [exact Hf|].
        split; [apply (separated_weaken es (line_number v + 1)); [lia|exact Hsep]|].
        cbn [app length].
        eapply Forall_impl; [exact Hb|]. cbn. intros e He. lia.
    + (* intraline hint *)
      destruct (IH v pend Hv) as (v' & es & Hl & Hf & Hsep & Hb).
      exists v', es. auto.
Qed.

(** X21. The edits synthesised from a line diff of [old] and [new] are
    line-aligned and come in the order of the original lines; none ends
    before it starts, none reaches past the last line of [old], and between
    the end of one and the start of the next lies at least one line, so that
    no two of them overlap or touch. *)
Theorem get_text_edits_separated
        (split_lines : string -> list string)
        (compare : list string -> list string -> list string)
        (changes : Jedi.ChangedFile) (old new : list string) :
  split_lines (Jedi.get_code changes) = old ->
  split_lines (Jedi.get_new_code changes) = new ->
  IsDiff (compare old new) old new ->
  exists edits,
    _get_text_edits split_lines compare changes = Ok edits
    /\ separated 0 edits
    /\ Forall (fun e => line (end_ (te_range e)) <= Z.of_nat (length old)) edits.
Proof.
  intros Ho Hn (script & Hout & Hold & Hnew).
  unfold _get_text_edits. rewrite Ho, Hn, Hout.
  destruct (loop_separated script init []) as (v' & es & Hl & Hf & Hsep & Hb).
  { unfold span_ok. simpl. auto. }
  rewrite Hl. cbn [bind]. exists (finish v'). split; [reflexivity|].
  rewrite Hf. cbn [result init app].
  unfold base in Hsep, Hb. cbn [Coalescer.start init line_number app] in Hsep, Hb.
  rewrite Hold in Hb. split; [exact Hsep|].
  eapply Forall_impl; [exact Hb|]. cbn. intros e He. lia.
Qed.

End CoalescerMoreFacts.

(** ** Diagnostics of the reporters *)

Section ReporterFacts.

Import types Jedi Server.

Context `{ext : Externals}.

(** [rstrip_eol] splits a line into a body that does not end with a line
    terminator and a tail of line terminators. *)
Lemma rstrip_eol_spec (s : string) :
  exists t,
    s = rstrip_eol s +:+ t /\ all_eol t = true
    /\ ends_with_eol (rstrip_eol s) = false.
Proof.
  induction s as [|c r (t & Hr & Ht & He)].
  - exists EmptyString. auto.
  - cbn [rstrip_eol]. destruct (rstrip_eol r) as [|c' r'] eqn:E.
    + rewrite str_app_nil_l in Hr. subst t.
      destruct (is_eol c) eqn:Hc.
      * exists (String c r). rewrite str_app_nil_l. cbn [all_eol].
        rewrite Hc, Ht. auto.
      * exists r. cbn [ends_with_eol]. auto.
    + exists t. rewrite str_app_cons, <- Hr. auto.
Qed.

(** C5. For a finding of the unused-name checker on a line the handle
    has, [flake] appends one diagnostic: its severity is error when the
    class name of the finding is in the escalation set and warning
    otherwise, and its range goes, on the line of the finding, from the
    reported column to the length of the line without its trailing line
    terminators. *)
Theorem flake_diagnostic (script : Script) (errors : list string)
        (result : list Diagnostic) (message : FlakeMessage)
        (codeline : string) :
  index (_code_lines script) (lineno message - 1) = Ok codeline ->
  exists d body eols,
    flake script errors result message = Ok (result ++ [d])
    /\ (cls message ∈ errors -> severity d = Error)
    /\ (cls message ∉ errors -> severity d = Warning)
    /\ codeline = body +:+ eols
    /\ all_eol eols = true
    /\ ends_with_eol body = false
    /\ range d = mkRange (mkPosition (lineno message - 1) (col message))
                         (mkPosition (lineno message - 1) (len body)).
Proof.
  intros Hline.
  destruct (rstrip_eol_spec codeline) as (eols & Hsplit & Heols & Hbody).
  eexists _, (rstrip_eol codeline), eols.
  unfold flake, _get_codeline. rewrite Hline. cbn [bind].
  split; [reflexivity|]. cbn [severity range].
  repeat split; auto.
  - intros Hin. rewrite bool_decide_true by exact Hin. reflexivity.
  - intros Hout. rewrite bool_decide_false by exact Hout. reflexivity.
Qed.

(** The end column [syntaxError] gives: the length of the line less the
    start column. *)
Lemma syntaxError_range (script : Script) (result : list Diagnostic)
      (msg : string) (lineno : Z) (offset : option Z) (codeline : string) :
  index (_code_lines script) (lineno - 1) = Ok codeline ->
  syntaxError script result msg lineno offset
  = Ok (result ++
          [mkDiagnostic
             (mkRange (mkPosition (lineno - 1) (default 0 offset))
                      (mkPosition (lineno - 1)
                                  (len (rstrip_eol codeline) - default 0 offset)))
             msg Error None "pyflakes"]).
Proof.
  intros Hline. unfold syntaxError, _get_codeline. rewrite Hline. reflexivity.
Qed.

End ReporterFacts.

(** ** Locations *)

Section LocationFacts.

Import types Jedi Server.

Context `{ext : Externals}.

(** The location the server gives for a name with the module path [p]. *)
Lemma get_locations_elem (defs : list Name) (loc : Location) :
  loc ∈ _get_locations defs <->
  exists d p,
    d ∈ defs /\ module_path d = Some p /\ truthy p = true
    /\ loc = mkLocation (from_fs_path p)
               (mkRange (mkPosition (n_line d - 1) (n_column d))
                        (mkPosition (n_line d - 1) (n_column d + len (name d)))).
Proof.
  induction defs as [|d defs IH]; cbn [_get_locations].
  - split.
    + intros H. inversion H.
    + intros (d & p & H & _). inversion H.
  - destruct (module_path d) as [p|] eqn:Hp.
    + destruct (truthy p) eqn:Ht.
      * rewrite elem_of_cons, IH. split.
        -- intros [-> | (d' & p' & Hin & Hrest)].
           ++ exists d, p. rewrite elem_of_cons. auto.
           ++ exists d', p'. rewrite elem_of_cons. auto.
        -- intros (d' & p' & Hin & Hp' & Ht' & ->).
           apply elem_of_cons in Hin as [-> | Hin].
           ++ left. congruence.
           ++ right. eauto 6.
      * rewrite IH. split.
        -- intros (d' & p' & Hin & Hrest). exists d', p'.
           rewrite elem_of_cons. auto.
        -- intros (d' & p' & Hin & Hp' & Ht' & ->).
           apply elem_of_cons in Hin as [-> | Hin]; [congruence|eauto 6].
    + rewrite IH. split.
      * intros (d' & p' & Hin & Hrest). exists d', p'.
        rewrite elem_of_cons. auto.
      * intros (d' & p' & Hin & Hp' & Ht' & ->).
        apply elem_of_cons in Hin as [-> | Hin]; [congruence|eauto 6].
Qed.

(** One location per name that has a module path, none for the others. *)
Lemma get_locations_length (defs : list Name) :
  length (_get_locations defs)
  = length (filter (fun d => has_module_path d = true) defs).
Proof.
  induction defs as [|d defs IH]; [reflexivity|].
  cbn [_get_locations]. rewrite filter_cons.
  destruct (decide (has_module_path d = true)) as [H | H];
    unfold has_module_path in H;
    destruct (module_path d) as [p|]; [destruct (truthy p)| | destruct (truthy p)|];
    simpl; congruence.
Qed.

(** C9. A response of go-to-definition or of find-references is built
    from the names the handle gives for the position, one line up: it has
    one location per name that has a module path and none for a name that
    lacks one, and each location is that of such a name, on the name's line
    less one, from the name's column to that column plus the length of the
    name. *)
Theorem locations_response (ls : LanguageServer)
        (params : TextDocumentPositionParams) (st st' : state)
        (locs : list Location) :
  definition ls params st = (Ok locs, st')
  \/ references ls params st = (Ok locs, st') ->
  exists script names,
    get_script ls (pp_uri params) false st = (Ok script, st')
    /\ (names = goto script (line (pp_position params) + 1)
                     (character (pp_position params))
        \/ names = get_references script (line (pp_position params) + 1)
                                  (character (pp_position params)))
    /\ length locs = length (filter (fun d => has_module_path d = true) names)
    /\ forall loc,
         loc ∈ locs <->
         exists d p,
           d ∈ names /\ module_path d = Some p /\ truthy p = true
           /\ loc = mkLocation (from_fs_path p)
                      (mkRange (mkPosition (n_line d - 1) (n_column d))
                               (mkPosition (n_line d - 1)
                                           (n_column d + len (name d)))).
Proof.
  unfold definition, references, bindM, ret.
  destruct (get_script ls (pp_uri params) false st) as [[script|e] st1];
    intros [H | H]; try discriminate; injection H as <- <-;
    exists script; eexists; (split; [reflexivity|]).
  - split; [left; reflexivity|].
    split; [apply get_locations_length | apply get_locations_elem].
  - split; [right; reflexivity|].
    split; [apply get_locations_length | apply get_locations_elem].
Qed.

End LocationFacts.

(** ** The handle cache *)

Section CacheFacts.

Context `{ext : Externals}.

(** What [get_script] adds to the trace: nothing, or the one call of the
    constructor. *)
Lemma get_script_trace (ls : LanguageServer) (uri : string) (update : bool)
      (st st' : state) (r : outcome Script) :
  get_script ls uri update st = (r, st') ->
  trace st' = trace st
  \/ exists code path, trace st' = trace st ++ [NewScript code path].
Proof.
  unfold get_script, bindM, gets, lift, emit, set_scripts, modify, ret.
  destruct (if update then None else scripts st !! uri) as [cached|].
  - intros [= <- <-]. left. reflexivity.
  - destruct (doc_source (get_document ls uri)) as [source|e].
    + destruct (new_Script source (doc_path (get_document ls uri)));
        intros [= <- <-]; right; eexists _, _; reflexivity.
    + intros [= <- <-]. left. reflexivity.
Qed.

(** C4 (amended). When the construction of the handle raises in a call of
    [get_script] that needs it, the same exception reaches the caller and
    the caches and the configuration are as before the call; an identifier
    that had no entry before the call has none after it, and then a later
    call without [update] constructs again, exactly as a call with
    [update] does. *)
Theorem get_script_failure (ls : LanguageServer) (uri : string)
        (update : bool) (st : state) (e : exn) :
  update = true \/ scripts st !! uri = None ->
  bind (doc_source (get_document ls uri))
       (fun source => new_Script source (doc_path (get_document ls uri)))
  = Raise e ->
  exists st',
    get_script ls uri update st = (Raise e, st')
    /\ scripts st' = scripts st
    /\ pycodestyleOptions st' = pycodestyleOptions st
    /\ mypyConfigs st' = mypyConfigs st
    /\ config st' = config st
    /\ (scripts st !! uri = None ->
        scripts st' !! uri = None
        /\ get_script ls uri false st' = get_script ls uri true st').
Proof.
  intros Hneed Hfail.
  assert (Hcached : (if update then None else scripts st !! uri) = None).
  { destruct Hneed as [-> | ->]; [reflexivity | destruct update; reflexivity]. }
  unfold get_script at 1. unfold bindM, gets, lift, emit, set_scripts, modify, ret.
  rewrite Hcached.
  destruct (doc_source (get_document ls uri)) as [source|e0] eqn:Hsrc;
    cbn [bind] in Hfail.
  - rewrite Hfail. eexists. split; [reflexivity|].
    cbn [scripts pycodestyleOptions mypyConfigs config].
    do 4 (split; [reflexivity|]). intros Hnone. split; [exact Hnone|].
    unfold get_script, bindM, gets. cbn [scripts]. rewrite Hnone. reflexivity.
  - injection Hfail as ->. exists st.
    do 5 (split; [reflexivity|]). intros Hnone. split; [exact Hnone|].
    unfold get_script, bindM, gets. rewrite Hnone. reflexivity.
Qed.

End CacheFacts.

(** ** The validation pass *)

Section ValidationFacts.

Context `{ext : Externals}.

Lemma events_since_app (st st' : state) (added : list event) :
  trace st' = trace st ++ added -> events_since st st' = added.
Proof. unfold events_since. intros ->. apply drop_app_length. Qed.

(** C3. When the handle of the document reports at least one syntax
    error, the validation pass returns, publishes exactly one diagnostic
    collection for the document, which has one error diagnostic of source
    [jedi] per reported syntax error, in order, ranging from the reported
    start line less one and start column to the reported end line less one
    and end column, and none of the events of the pass is a run of the
    unused-name checker, of the style checker or of the type checker. *)
Theorem validate_syntax_errors (ls : LanguageServer) (uri : string)
        (st st1 : state) (script : Script) :
  get_script ls uri false st = (Ok script, st1) ->
  get_syntax_errors script <> [] ->
  exists st' diagnostics,
    _validate ls uri st = (Ok tt, st')
    /\ published (events_since st st') = [(uri, diagnostics)]
    /\ Forall (fun e => is_checker_run e = false) (events_since st st')
    /\ Forall2
         (fun x d =>
            d = mkDiagnostic
                  (mkRange (mkPosition (se_line x - 1) (se_column x))
                           (mkPosition (se_until_line x - 1)
                                       (se_until_column x)))
                  "Invalid syntax" Error None "jedi")
         (get_syntax_errors script) diagnostics.
Proof.
  intros Hscript Herr.
  exists (mkState (scripts st1) (pycodestyleOptions st1) (mypyConfigs st1)
                  (config st1)
                  (trace st1 ++
                     [PublishDiagnostics uri
                        (map syntax_diagnostic (get_syntax_errors script))])).
  exists (map syntax_diagnostic (get_syntax_errors script)).
  split.
  { unfold _validate, bindM. rewrite Hscript.
    destruct (get_syntax_errors script) as [|x errs]; [contradiction|].
    reflexivity. }
  destruct (get_script_trace _ _ _ _ _ _ Hscript) as [Htr | (c & p & Htr)].
  - rewrite (events_since_app st _ [PublishDiagnostics uri
               (map syntax_diagnostic (get_syntax_errors script))])
      by (cbn [trace]; rewrite Htr; reflexivity).
    split; [reflexivity|]. split; [repeat constructor|].
    clear. induction (get_syntax_errors script); constructor; auto.
  - rewrite (events_since_app st _ [NewScript c p; PublishDiagnostics uri
               (map syntax_diagnostic (get_syntax_errors script))])
      by (cbn [trace]; rewrite Htr, <- app_assoc; reflexivity).
    split; [reflexivity|]. split; [repeat constructor|].
    clear. induction (get_syntax_errors script); constructor; auto.
Qed.

Lemma published_app (a b : list event) :
  published (a ++ b) = published a ++ published b.
Proof.
  induction a as [|e a IH]; [reflexivity|].
  destruct e; cbn [app published]; rewrite IH; reflexivity.
Qed.

Lemma extends_refl (st : state) : extends st st.
Proof. exists []. rewrite app_nil_r. reflexivity. Qed.

Lemma extends_trans (a b c : state) : extends a b -> extends b c -> extends a c.
Proof.
  intros (x & Hx) (y & Hy). exists (x ++ y).
  rewrite Hy, Hx, app_assoc. reflexivity.
Qed.

Lemma extends_emit (st : state) (e : event) : extends st (emit e st).2.
Proof. exists [e]. reflexivity. Qed.

Lemma get_script_extends (ls : LanguageServer) (uri : string) (update : bool)
      (st st' : state) (r : outcome Script) :
  get_script ls uri update st = (r, st') -> extends st st'.
Proof.
  intros H. destruct (get_script_trace _ _ _ _ _ _ H) as [Htr | (c & p & Htr)].
  - exists []. rewrite app_nil_r. exact Htr.
  - exists [NewScript c p]. exact Htr.
Qed.

Lemma get_pycodestyle_options_extends (ls : LanguageServer) (uri : string)
      (st st' : state) (r : outcome Options) :
  get_pycodestyle_options ls uri st = (r, st') -> extends st st'.
Proof.
  unfold get_pycodestyle_options, bindM, gets, emit, set_pycodestyleOptions,
    modify, ret.
  destruct (pycodestyleOptions st !! _); intros [= <- <-].
  - apply extends_refl.
  - eexists [_]. reflexivity.
Qed.

Lemma get_mypy_config_trace (ls : LanguageServer) (uri : string)
      (st st' : state) (r : outcome string) :
  get_mypy_config ls uri st = (r, st') -> trace st' = trace st.
Proof.
  unfold get_mypy_config, bindM, gets, set_mypyConfigs, modify, ret.
  destruct (mypyConfigs st !! _); intros [= <- <-]; reflexivity.
Qed.

Lemma mypy_pass_extends (ls : LanguageServer) (uri : string) (script : Script)
      (result : list Diagnostic) (st : state) :
  exists result' st',
    mypy_pass ls uri script result st = (Ok result', st') /\ extends st st'.
Proof.
  unfold mypy_pass, _mypy_check.
  destruct jediEnvironment as [env|].
  - destruct (get_mypy_config ls uri st) as [[config_file|e] st1] eqn:Hc;
      apply get_mypy_config_trace in Hc.
    + cbn [emit modify].
      destruct (truthy (mypy_run _).2).
      * eexists _, _. split; [reflexivity|].
        eexists [_; _]. cbn [trace]. rewrite Hc, <- app_assoc. reflexivity.
      * destruct (mypy_lines _ _ _ _) as [[u|e] result'].
        -- eexists _, _. split; [reflexivity|].
           eexists [_]. cbn [trace]. rewrite Hc. reflexivity.
        -- eexists _, _. split; [reflexivity|].
           eexists [_; _]. cbn [trace]. rewrite Hc, <- app_assoc. reflexivity.
    + eexists _, _. split; [reflexivity|].
      eexists [_]. cbn [trace]. rewrite Hc. reflexivity.
  - eexists _, _. split; [reflexivity|]. eexists [_]. reflexivity.
Qed.

(** A validation pass that returns has published a collection for its
    document. *)
Lemma validate_publishes (ls : LanguageServer) (uri : string)
      (st st' : state) :
  _validate ls uri st = (Ok tt, st') ->
  exists diagnostics, (uri, diagnostics) ∈ published (events_since st st').
Proof.
  assert (Hpub : forall s0 ds,
             extends st s0 ->
             exists diagnostics,
               (uri, diagnostics)
               ∈ published (events_since st (publish_diagnostics uri ds s0).2)).
  { intros s0 ds (added & Hadd). exists ds.
    rewrite (events_since_app st _ (added ++ [PublishDiagnostics uri ds]))
      by (cbn [publish_diagnostics emit modify snd trace];
          rewrite Hadd, app_assoc; reflexivity).
    rewrite published_app. apply elem_of_app. right. left. }
  unfold _validate, bindM.
  destruct (get_script ls uri false st) as [[script|e] st1] eqn:Hs;
    [|discriminate].
  apply get_script_extends in Hs.
  destruct (map syntax_diagnostic (get_syntax_errors script)) as [|d ds].
  - unfold gets, lift. cbn [emit modify].
    destruct (report _ _ _ _) as [result1|e]; [|discriminate].
    destruct (get_pycodestyle_options ls uri _) as [[opts|e] st2] eqn:Ho;
      [|discriminate].
    apply get_pycodestyle_options_extends in Ho.
    destruct (report_style _ _ _ _ _) as [result2|e]; [|discriminate].
    assert (H2 : extends st (emit (CodestyleRun (path script)) st2).2).
    { eapply extends_trans; [exact Hs|].
      eapply extends_trans; [apply extends_emit|].
      eapply extends_trans; [exact Ho|apply extends_emit]. }
    cbn [emit modify snd] in H2. cbn [config].
    destruct (mypy_enabled (config st2)).
    + destruct (mypy_pass_extends ls uri script result2
                  (mkState (scripts st2) (pycodestyleOptions st2)
                           (mypyConfigs st2) (config st2)
                           (trace st2 ++ [CodestyleRun (path script)])))
        as (result3 & st3 & Hm & He).
      rewrite Hm. intros [= <-].
      apply (Hpub st3 result3). eapply extends_trans; eassumption.
    + unfold ret. intros [= <-]. apply (Hpub _ result2 H2).
  - intros [= <-]. apply (Hpub st1 (d :: ds) Hs).
Qed.

End ValidationFacts.

(** ** Configuration changes *)

Section ConfigurationFacts.

Context `{ext : Externals}.

(** C10. A configuration change whose settings carry, of the four keys,
    only [help_on_hover] stores the new value of that key and changes
    nothing else: the other configuration fields, the handle cache, the
    two per-folder caches and the trace are as before, so that no document
    is validated and nothing is published. *)
Theorem did_change_configuration_hover_only (ls : LanguageServer)
        (st : state) (v : bool) :
  did_change_configuration ls
    (mkConfigurationParams
       (Some (Some (mkAnakinSettings None None (Some v) None)))) st
  = (Ok tt,
     mkState (scripts st) (pycodestyleOptions st) (mypyConfigs st)
             (mkConfig (pyflakes_errors (config st))
                       (pycodestyle_config (config st)) v
                       (mypy_enabled (config st)))
             (trace st)).
Proof.
  unfold did_change_configuration. cbn [settings s_pyflakes_errors
    s_pycodestyle_config s_help_on_hover s_mypy_enabled].
  unfold config_key, bindM, set_config, modify, ret.
  rewrite (bool_decide_false ("help_on_hover" ≠ "help_on_hover")) by auto.
  rewrite (bool_decide_false ("pycodestyle_config" ∈ (∅ : gset string)))
    by set_solver.
  rewrite (bool_decide_false ("mypy_enabled" ∈ (∅ : gset string)))
    by set_solver.
  rewrite (bool_decide_false ((∅ : gset string) ≠ ∅)) by auto.
  reflexivity.
Qed.

End ConfigurationFacts.

(** ** The code action *)

Section CodeActionFacts.

Context `{ext : Externals}.

(** Two received positions that list their keys in the same order are
    the same tuple exactly when they are the same position. *)
Lemma as_tuple_same_keys (p q : PositionObject) :
  key_order p = key_order q ->
  as_tuple p = as_tuple q <-> position_of p = position_of q.
Proof.
  unfold as_tuple. intros <-.
  destruct p as [k [l c]], q as [k' [l' c']]. cbn.
  destruct k; split; intros [= -> ->]; reflexivity.
Qed.

(** When the two objects of the range differ as tuples, the handler
    returns [None] and leaves the state as it found it: no handle is
    looked up or built, and the trace gets no event. *)
Lemma code_action_unequal_objects (ls : LanguageServer)
      (params : CodeActionParams) (st : state) :
  as_tuple (ro_start (ca_range params)) <> as_tuple (ro_end (ca_range params)) ->
  code_action ls params st = (Ok None, st).
Proof.
  intros Hsel. unfold code_action.
  rewrite bool_decide_true by exact Hsel. reflexivity.
Qed.

(** For a range whose two positions list their keys in the same order
    and differ, the handler returns [None] without an event. *)
Lemma code_action_same_keys_selection (ls : LanguageServer)
      (params : CodeActionParams) (st : state) :
  key_order (ro_start (ca_range params)) = key_order (ro_end (ca_range params)) ->
  position_of (ro_start (ca_range params))
  <> position_of (ro_end (ca_range params)) ->
  code_action ls params st = (Ok None, st).
Proof.
  intros Hkeys Hsel. apply code_action_unequal_objects.
  intros Heq. apply Hsel. apply (as_tuple_same_keys _ _ Hkeys). exact Heq.
Qed.

(** The engine's inline refactoring is called only for a range whose two
    objects are the same tuple. *)
Lemma code_action_inline_called (ls : LanguageServer)
      (params : CodeActionParams) (st st' : state)
      (r : outcome (option (list CodeAction))) (p : string) (l c : Z) :
  code_action ls params st = (r, st') ->
  InlineCalled p l c ∈ events_since st st' ->
  as_tuple (ro_start (ca_range params)) = as_tuple (ro_end (ca_range params)).
Proof.
  intros Hrun Hin.
  destruct (decide (as_tuple (ro_start (ca_range params))
                    = as_tuple (ro_end (ca_range params))))
    as [Heq | Hne]; [exact Heq|].
  unfold code_action in Hrun. rewrite bool_decide_true in Hrun by exact Hne.
  injection Hrun as <- <-.
  unfold events_since in Hin. rewrite drop_all in Hin. inversion Hin.
Qed.

(** The loop of [_get_document_changes] when the synthesis returns for
    every file: the groups of the files that have one are appended, in
    order. *)
Lemma document_changes_loop_groups (ls : LanguageServer)
      (items : list (string * ChangedFile)) :
  forall result,
    Forall (fun item =>
              exists text_edits,
                Coalescer._get_text_edits split_lines compare item.2
                = Ok text_edits) items ->
    document_changes_loop ls items result
    = Ok (result ++ omap (edit_group ls) items).
Proof.
  induction items as [|[fn changes] items IH]; intros result Hok.
  - simpl. rewrite app_nil_r. reflexivity.
  - apply Forall_cons in Hok as [(text_edits & Hedits) Hok].
    cbn [snd] in Hedits.
    assert (Hg : edit_group ls (fn, changes)
                 = match text_edits with
                   | [] => None
                   | _ :: _ =>
                       Some (mkTextDocumentEdit
                               (mkVersioned (from_fs_path fn)
                                  (doc_version
                                     (get_document ls (from_fs_path fn))))
                               text_edits)
                   end).
    { unfold edit_group. cbn [fst snd]. rewrite Hedits.
      destruct text_edits; reflexivity. }
    change (omap (edit_group ls) ((fn, changes) :: items))
      with (match edit_group ls (fn, changes) with
            | Some g => g :: omap (edit_group ls) items
            | None => omap (edit_group ls) items
            end).
    rewrite Hg. cbn [document_changes_loop]. rewrite Hedits. cbn [bind].
    rewrite (IH _ Hok).
    destruct text_edits as [|e es]; [reflexivity|].
    rewrite <- app_assoc. reflexivity.
Qed.

Lemma edit_group_nonempty (ls : LanguageServer)
      (item : string * ChangedFile) (g : TextDocumentEdit) :
  edit_group ls item = Some g -> edits g <> [].
Proof.
  unfold edit_group.
  destruct (Coalescer._get_text_edits _ _ _) as [[|e es]|]; try discriminate.
  intros [= <-]. discriminate.
Qed.

(** C7. When the synthesis returns for every changed file of a
    refactoring, [_get_document_changes] returns the edit groups of the
    files that have one, in order: a file whose edit list is empty has no
    group, and every group carries at least one edit. When the edit list
    of every changed file is empty there is no group at all, and a code
    action request whose inline refactoring is this one returns [None],
    at a cursor as for any other range. *)
Theorem document_changes_omit_empty (ls : LanguageServer)
        (refactoring : Refactoring) :
  Forall (fun item =>
            exists text_edits,
              Coalescer._get_text_edits split_lines compare item.2
              = Ok text_edits) (get_changed_files refactoring) ->
  exists groups,
    _get_document_changes ls refactoring = Ok groups
    /\ groups = omap (edit_group ls) (get_changed_files refactoring)
    /\ (forall item,
          Coalescer._get_text_edits split_lines compare item.2 = Ok [] ->
          edit_group ls item = None)
    /\ Forall (fun g => edits g <> []) groups
    /\ (Forall (fun item =>
                  Coalescer._get_text_edits split_lines compare item.2 = Ok [])
               (get_changed_files refactoring) ->
        groups = []
        /\ forall params st st1 script,
             get_script ls (ca_uri params) false st = (Ok script, st1) ->
             inline script
                    (line (position_of (ro_start (ca_range params))) + 1)
                    (character (position_of (ro_start (ca_range params))))
             = Ok refactoring ->
             exists st', code_action ls params st = (Ok None, st')).
Proof.
  intros Hok. eexists. unfold _get_document_changes.
  rewrite (document_changes_loop_groups ls _ [] Hok). cbn [app].
  split; [reflexivity|]. split; [reflexivity|].
  split.
  { intros item Hempty. unfold edit_group. rewrite Hempty. reflexivity. }
  split.
  { apply Forall_forall. intros g Hg.
    apply list_elem_of_omap in Hg as (item & _ & Hitem).
    exact (edit_group_nonempty ls item g Hitem). }
  intros Hempty.
  assert (Hnone : omap (edit_group ls) (get_changed_files refactoring) = []).
  { clear Hok. induction Hempty as [|item items Hitem _ IH]; [reflexivity|].
    change (omap (edit_group ls) (item :: items))
      with (match edit_group ls item with
            | Some g => g :: omap (edit_group ls) items
            | None => omap (edit_group ls) items
            end).
    unfold edit_group at 1. rewrite Hitem. exact IH. }
  split; [exact Hnone|].
  intros params st st1 script Hscript Hinline.
  unfold code_action. case_bool_decide; [eexists; reflexivity|].
  unfold bindM. rewrite Hscript. unfold emit, modify. rewrite Hinline.
  unfold lift, _get_document_changes.
  rewrite (document_changes_loop_groups ls _ [] Hok). cbn [app].
  rewrite Hnone. eexists. reflexivity.
Qed.

End CodeActionFacts.

(** ** More on the handle cache *)

Section CacheMoreFacts.

Context `{ext : Externals}.

(** X1. Closing a document never raises, whether a handle is cached for
    it or not: afterwards the identifier has no entry, every other entry
    is as before, and the option caches, the configuration and the trace
    are untouched. *)
Theorem did_close_evicts (ls : LanguageServer) (uri : string) (st : state) :
  exists st',
    did_close ls uri st = (Ok tt, st')
    /\ scripts st' !! uri = None
    /\ (forall other, other <> uri -> scripts st' !! other = scripts st !! other)
    /\ pycodestyleOptions st' = pycodestyleOptions st
    /\ mypyConfigs st' = mypyConfigs st
    /\ config st' = config st
    /\ trace st' = trace st.
Proof.
  unfold did_close, try_except, bindM, gets, set_scripts, modify, raise, ret.
  destruct (scripts st !! uri) as [h|] eqn:Hcached.
  - eexists. split; [reflexivity|]. cbn [scripts pycodestyleOptions mypyConfigs
      config trace].
    split; [apply lookup_delete_eq|].
    split; [|auto].
    intros other Hne. apply lookup_delete_ne. congruence.
  - exists st. split; [reflexivity|]. auto 10.
Qed.

(** X2. A handle that [get_script] returned is the entry of its
    identifier, and asking again without [update] returns the same handle
    and changes nothing: no second construction. *)
Theorem get_script_then_cached (ls : LanguageServer) (uri : string)
        (update : bool) (st st' : state) (h : Script) :
  get_script ls uri update st = (Ok h, st') ->
  scripts st' !! uri = Some h
  /\ get_script ls uri false st' = (Ok h, st').
Proof.
  unfold get_script at 1.
  unfold bindM, gets, lift, emit, set_scripts, modify, ret.
  assert (Hhit : forall s, scripts s !! uri = Some h ->
                           get_script ls uri false s = (Ok h, s)).
  { intros s Hs. unfold get_script, bindM, gets, ret. rewrite Hs. reflexivity. }
  destruct (if update then None else scripts st !! uri) as [cached|] eqn:Hc.
  - intros [= -> <-]. destruct update; [discriminate|]. auto.
  - destruct (doc_source (get_document ls uri)) as [source|e]; [|discriminate].
    destruct (new_Script source (doc_path (get_document ls uri))) as [r|e];
      [|discriminate].
    intros [= -> <-].
    assert (Hin : scripts
                    (mkState (<[uri:=h]> (scripts st)) (pycodestyleOptions st)
                       (mypyConfigs st) (config st)
                       (trace st ++ [NewScript source
                                       (doc_path (get_document ls uri))]))
                  !! uri = Some h) by apply lookup_insert_eq.
    auto.
Qed.

(** X3. Whatever [get_script] does for one identifier, returning or
    raising, the handles cached for the other identifiers, the two option
    caches and the configuration stay as they were. *)
Theorem get_script_frame (ls : LanguageServer) (uri : string) (update : bool)
        (st st' : state) (r : outcome Script) :
  get_script ls uri update st = (r, st') ->
  (forall other, other <> uri -> scripts st' !! other = scripts st !! other)
  /\ pycodestyleOptions st' = pycodestyleOptions st
  /\ mypyConfigs st' = mypyConfigs st
  /\ config st' = config st.
Proof.
  unfold get_script, bindM, gets, lift, emit, set_scripts, modify, ret.
  destruct (if update then None else scripts st !! uri) as [cached|].
  - intros [= <- <-]. auto.
  - destruct (doc_source (get_document ls uri)) as [source|e].
    + destruct (new_Script source (doc_path (get_document ls uri)));
        intros [= <- <-]; cbn [scripts pycodestyleOptions mypyConfigs config];
        (split; [|auto]); intros other Hne; [|reflexivity].
      apply lookup_insert_ne. congruence.
    + intros [= <- <-]. auto.
Qed.

(** X4. An edit notification rebuilds the handle: when the document can
    be read and the engine builds a handle from its text, that handle
    replaces whatever was cached for the identifier, and the only event is
    the construction. *)
Theorem did_change_rebuilds (ls : LanguageServer) (uri : string) (st : state)
        (source : string) (h : Script) :
  doc_source (get_document ls uri) = Ok source ->
  new_Script source (doc_path (get_document ls uri)) = Ok h ->
  exists st',
    did_change ls uri st = (Ok tt, st')
    /\ scripts st' = <[uri:=h]> (scripts st)
    /\ events_since st st'
       = [NewScript source (doc_path (get_document ls uri))].
Proof.
  intros Hsrc Hnew.
  unfold did_change, get_script, bindM, gets, lift, emit, set_scripts, modify,
    ret.
  rewrite Hsrc, Hnew. eexists. split; [reflexivity|]. split; [reflexivity|].
  unfold events_since. cbn [trace]. apply drop_app_length.
Qed.

(** X5. After a document was closed, the next request for its handle
    constructs one, exactly as a forced refresh does. *)
Theorem get_script_after_close (ls : LanguageServer) (uri : string)
        (st : state) :
  get_script ls uri false (did_close ls uri st).2
  = get_script ls uri true (did_close ls uri st).2.
Proof.
  assert (Hgone : scripts (did_close ls uri st).2 !! uri = None).
  { unfold did_close, try_except, bindM, gets, set_scripts, modify, raise, ret.
    destruct (scripts st !! uri) as [h|] eqn:Hcached; cbn [snd scripts].
    - apply lookup_delete_eq.
    - exact Hcached. }
  unfold get_script, bindM, gets. rewrite Hgone. reflexivity.
Qed.

End CacheMoreFacts.

(** ** Workspace folders and their options *)

Section FolderFacts.

Context `{ext : Externals}.

(** Two prefixes of one string that have the same length are equal. *)
Lemma prefix_same_length (a : string) :
  forall p q,
    String.prefix p a = true -> String.prefix q a = true ->
    String.length p = String.length q -> p = q.
Proof.
  induction a as [|c a IH]; intros [|x p] [|y q]; simpl; try discriminate;
    try reflexivity.
  destruct (ascii_dec x c) as [->|]; [|discriminate].
  destruct (ascii_dec y c) as [->|]; [|discriminate].
  intros Hp Hq [= Hlen]. f_equal. exact (IH p q Hp Hq Hlen).
Qed.

(** [longest] returns an element of the list it scans, none of which is
    longer. *)
Lemma longest_spec (l : list string) :
  forall best,
    longest best l ∈ best :: l
    /\ forall x, x ∈ best :: l ->
                 (String.length x <= String.length (longest best l))%nat.
Proof.
  induction l as [|y l IH]; intros best; cbn [longest].
  - split; [left|]. intros x Hx. apply list_elem_of_singleton in Hx as ->. lia.
  - destruct (IH (if (String.length best <? String.length y)%nat
                  then y else best)) as [Hin Hmax].
    split.
    + apply elem_of_cons in Hin as [Heq | Hin].
      * rewrite Heq. destruct (_ <? _)%nat; [right; left | left].
      * right. right. exact Hin.
    + intros x Hx.
      destruct (Nat.ltb_spec (String.length best) (String.length y)) as [Hlt|Hge].
      * apply elem_of_cons in Hx as [-> | Hx].
        -- specialize (Hmax y (ltac:(left))). lia.
        -- apply Hmax. exact Hx.
      * apply elem_of_cons in Hx as [-> | Hx]; [apply Hmax; left|].
        apply elem_of_cons in Hx as [-> | Hx].
        -- specialize (Hmax best (ltac:(left))). lia.
        -- apply Hmax. right. exact Hx.
Qed.

(** X6. The folder of a document is the root path when no workspace
    folder's URI is a prefix of the document's URI; otherwise it is the
    path of a workspace folder whose URI is such a prefix, and that folder
    is the deepest one: no other prefixing folder URI is as long. *)
Theorem workspace_folder_deepest (ls : LanguageServer) (uri : string) :
  (Forall (fun f => startswith uri f = false) (folders ls) ->
   _get_workspace_folder_path ls uri = root_path ls)
  /\ (Exists (fun f => startswith uri f = true) (folders ls) ->
      exists f,
        f ∈ folders ls
        /\ startswith uri f = true
        /\ _get_workspace_folder_path ls uri = to_fs_path f
        /\ forall g,
             g ∈ folders ls -> startswith uri g = true ->
             (String.length g <= String.length f)%nat
             /\ (String.length g = String.length f -> g = f)).
Proof.
  unfold _get_workspace_folder_path. split.
  - intros Hnone.
    assert (Hfil : filter (fun f => startswith uri f = true) (folders ls) = []).
    { induction Hnone as [|f l Hf _ IH]; [reflexivity|].
      rewrite filter_cons_False by congruence. exact IH. }
    rewrite Hfil. reflexivity.
  - intros Hsome.
    destruct (filter (fun f => startswith uri f = true) (folders ls))
      as [|f0 r] eqn:Hfil.
    + exfalso. apply Exists_exists in Hsome as (f & Hin & Hf).
      assert (Hmem : f ∈ filter (fun f => startswith uri f = true) (folders ls))
        by (apply list_elem_of_filter; auto).
      rewrite Hfil in Hmem. inversion Hmem.
    + destruct (longest_spec r f0) as [Hin Hmax].
      assert (Hsel : forall x, x ∈ f0 :: r ->
                               startswith uri x = true /\ x ∈ folders ls).
      { intros x Hx. rewrite <- Hfil in Hx.
        apply list_elem_of_filter in Hx. exact Hx. }
      destruct (Hsel _ Hin) as [Hpre Hfold].
      exists (longest f0 r). repeat split; auto.
      * apply Hmax. rewrite <- Hfil. apply list_elem_of_filter. auto.
      * intros Hlen. unfold startswith in *.
        eapply prefix_same_length; eauto.
Qed.


End FolderFacts.

(** ** More on the reporters *)

Section ReporterMoreFacts.

Context `{ext : Externals}.

(** [l[i]] returns exactly for the indices that designate an element. *)
Lemma index_indexable {A} (l : list A) (i : Z) :
  indexable l i <-> exists x, index l i = Ok x.
Proof.
  unfold indexable, index.
  destruct (Z.ltb_spec i 0) as [Hneg | Hpos].
  - destruct (Z.ltb_spec (i + Z.of_nat (length l)) 0) as [Hlow | Hin];
      cbn [orb].
    + split; [lia | intros (x & Hx); discriminate].
    + destruct (Z.leb_spec (Z.of_nat (length l)) (i + Z.of_nat (length l)));
        [lia|].
      destruct (nth_error l (Z.to_nat (i + Z.of_nat (length l)))) as [x|] eqn:E.
      * split; [eauto | lia].
      * apply nth_error_None in E. lia.
  - destruct (Z.ltb_spec i 0) as [|_]; [lia|]. cbn [orb].
    destruct (Z.leb_spec (Z.of_nat (length l)) i) as [Hhigh | Hin].
    + split; [lia | intros (x & Hx); discriminate].
    + destruct (nth_error l (Z.to_nat i)) as [x|] eqn:E.
      * split; [eauto | lia].
      * apply nth_error_None in E. lia.
Qed.

Lemma report_cons (script : Script) (errors : list string) (c : ReporterCall)
      (rest : list ReporterCall) (result : list Diagnostic) :
  report script errors (c :: rest) result
  = bind (report script errors [c] result) (report script errors rest).
Proof.
  cbn [report].
  destruct c; cbn [bind];
    [reflexivity
    | destruct (syntaxError _ _ _ _ _); reflexivity
    | destruct (flake _ _ _ _); reflexivity].
Qed.

(** One call on the reporter: a diagnostic of source [pyflakes] is
    appended when the line the call looks up exists, and the call raises
    when it does not. *)
Lemma report_single (script : Script) (errors : list string)
      (c : ReporterCall) (result : list Diagnostic) :
  ((forall z, call_line c = Some z -> indexable (_code_lines script) z) ->
   exists d, report script errors [c] result = Ok (result ++ [d])
             /\ source d = "pyflakes")
  /\ ((exists z, call_line c = Some z /\ ~ indexable (_code_lines script) z) ->
      exists e, report script errors [c] result = Raise e).
Proof.
  destruct c as [fn msg | fn msg lineno offset text | message];
    cbn [report call_line bind].
  - split.
    + intros _. eexists. split; reflexivity.
    + intros (z & Hz & _). discriminate.
  - unfold syntaxError, _get_codeline. split.
    + intros Hline.
      destruct (proj1 (index_indexable _ _) (Hline _ eq_refl)) as (l & Hl).
      rewrite Hl. eexists. split; reflexivity.
    + intros (z & [= <-] & Hout).
      destruct (index (_code_lines script) (lineno - 1)) as [l|e] eqn:Hl.
      * exfalso. apply Hout. apply index_indexable. eauto.
      * eexists. reflexivity.
  - unfold flake, _get_codeline. split.
    + intros Hline.
      destruct (proj1 (index_indexable _ _) (Hline _ eq_refl)) as (l & Hl).
      rewrite Hl. eexists. split; reflexivity.
    + intros (z & [= <-] & Hout).
      destruct (index (_code_lines script) (Server.lineno message - 1))
        as [l|e] eqn:Hl.
      * exfalso. apply Hout. apply index_indexable. eauto.
      * eexists. reflexivity.
Qed.

(** What the reporter has appended when [pyflakes_check] returns. *)
Lemma report_appends (script : Script) (errors : list string)
      (calls : list ReporterCall) :
  forall result result',
    report script errors calls result = Ok result' ->
    exists ds,
      result' = result ++ ds /\ length ds = length calls
      /\ Forall (fun d => source d = "pyflakes") ds.
Proof.
  induction calls as [|c calls IH]; intros result result'.
  - intros [= <-]. exists []. rewrite app_nil_r. auto.
  - rewrite report_cons.
    destruct (report script errors [c] result) as [r1|e] eqn:H1; [|discriminate].
    cbn [bind]. intros Hrest.
    destruct (IH _ _ Hrest) as (ds & -> & Hlen & Hsrc).
    destruct (call_line c) as [z|] eqn:Hz.
    + destruct (decide (indexable (_code_lines script) z)) as [Hin | Hout].
      * destruct (proj1 (report_single script errors c result)) as (d & Hd & Hs).
        { intros z' Hz'. congruence. }
        rewrite Hd in H1. injection H1 as <-.
        exists (d :: ds). rewrite <- app_assoc. cbn [length]. auto.
      * destruct (proj2 (report_single script errors c result)) as (e & He);
          [eauto|congruence].
    + destruct (proj1 (report_single script errors c result)) as (d & Hd & Hs).
      { intros z' Hz'. congruence. }
      rewrite Hd in H1. injection H1 as <-.
      exists (d :: ds). rewrite <- app_assoc. cbn [length]. auto.
Qed.

(** X8. The pyflakes reporter returns exactly when every call that looks
    up a line of the handle's code designates a line the code has; it then
    has appended, after the diagnostics that were there, as many
    diagnostics as there were calls, each of source [pyflakes]. *)
Theorem report_one_per_call (script : Script) (errors : list string)
        (calls : list ReporterCall) (result : list Diagnostic) :
  (Forall (fun c => forall z, call_line c = Some z ->
                              indexable (_code_lines script) z) calls
   <-> exists result', report script errors calls result = Ok result')
  /\ forall result',
       report script errors calls result = Ok result' ->
       exists ds,
         result' = result ++ ds /\ length ds = length calls
         /\ Forall (fun d => source d = "pyflakes") ds.
Proof.
  split; [|apply report_appends].
  revert result. induction calls as [|c calls IH]; intros result.
  - split; [eexists; reflexivity | constructor].
  - rewrite report_cons. split.
    + intros Hall. apply Forall_cons in Hall as [Hc Hall].
      destruct (proj1 (report_single script errors c result) Hc) as (d & Hd & _).
      rewrite Hd. cbn [bind]. apply IH. exact Hall.
    + intros (result' & Hrun).
      destruct (report script errors [c] result) as [r1|e] eqn:H1;
        [|discriminate].
      cbn [bind] in Hrun. constructor.
      * intros z Hz.
        destruct (decide (indexable (_code_lines script) z)) as [Hin|Hout];
          [exact Hin|].
        destruct (proj2 (report_single script errors c result)) as (e & He);
          [eauto|congruence].
      * apply (IH r1). eauto.
Qed.

(** X9. A syntax error reported without an offset, or at offset zero, is
    marked over the whole line: from column zero to the length of the line
    without its trailing line terminators. *)
Theorem syntaxError_whole_line (script : Script) (result : list Diagnostic)
        (msg : string) (lineno : Z) (offset : option Z) (codeline : string) :
  offset = None \/ offset = Some 0 ->
  index (_code_lines script) (lineno - 1) = Ok codeline ->
  exists d body eols,
    syntaxError script result msg lineno offset = Ok (result ++ [d])
    /\ codeline = body +:+ eols
    /\ all_eol eols = true
    /\ ends_with_eol body = false
    /\ range d = mkRange (mkPosition (lineno - 1) 0)
                         (mkPosition (lineno - 1) (len body)).
Proof.
  intros Hoff Hline.
  destruct (rstrip_eol_spec codeline) as (eols & Hsplit & Heols & Hbody).
  eexists _, (rstrip_eol codeline), eols.
  unfold syntaxError, _get_codeline. rewrite Hline. cbn [bind].
  split; [reflexivity|]. cbn [range].
  repeat split; auto.
  destruct Hoff as [-> | ->]; cbn [default]; rewrite Z.sub_0_r; reflexivity.
Qed.

(** One call of [CodestyleReport.error]. *)
Lemma error_cases (options : Options) (lines expected : list string)
      (result : list Diagnostic) (f : StyleFinding) :
  (reported options expected f = false ->
   error options lines expected result f = Ok result)
  /\ (reported options expected f = true ->
      indexable lines (sf_line_number f - 1) ->
      exists d,
        error options lines expected result f = Ok (result ++ [d])
        /\ severity d = Warning /\ source d = "pycodestyle"
        /\ code d = Some (slice_to 4 (sf_text f)))
  /\ (reported options expected f = true ->
      ~ indexable lines (sf_line_number f - 1) ->
      exists e, error options lines expected result f = Raise e).
Proof.
  unfold reported, error.
  destruct (_ignore_code options (slice_to 4 (sf_text f))
            || bool_decide (slice_to 4 (sf_text f) ∈ expected)); cbn [negb].
  - split; [reflexivity|]. split; discriminate.
  - split; [discriminate|]. split.
    + intros _ Hin. destruct (proj1 (index_indexable _ _) Hin) as (l & Hl).
      rewrite Hl. eexists. cbn [bind]. repeat split.
    + intros _ Hout.
      destruct (index lines (sf_line_number f - 1)) as [l|e] eqn:Hl.
      * exfalso. apply Hout. apply index_indexable. eauto.
      * eexists. reflexivity.
Qed.

(** What the style report has appended when the checker returns. *)
Lemma report_style_appends (options : Options) (lines expected : list string)
      (findings : list StyleFinding) :
  forall result result',
    report_style options lines expected findings result = Ok result' ->
    exists ds,
      result' = result ++ ds
      /\ length ds
         = length (filter (fun f => reported options expected f = true) findings)
      /\ Forall (fun d =>
                   severity d = Warning /\ source d = "pycodestyle"
                   /\ exists c, code d = Some c
                                /\ _ignore_code options c = false
                                /\ c ∉ expected) ds.
Proof.
  induction findings as [|f findings IH]; intros result result'.
  - intros [= <-]. exists []. rewrite app_nil_r. auto.
  - cbn [report_style]. rewrite filter_cons.
    destruct (error_cases options lines expected result f) as (Hskip & Hok & Hbad).
    destruct (reported options expected f) eqn:Hrep.
    + rewrite decide_True by reflexivity.
      destruct (decide (indexable lines (sf_line_number f - 1))) as [Hin|Hout].
      * destruct (Hok eq_refl Hin) as (d & -> & Hsev & Hsrc & Hcode).
        cbn [bind]. intros Hrest.
        destruct (IH _ _ Hrest) as (ds & -> & Hlen & Hall).
        exists (d :: ds). rewrite <- app_assoc. cbn [length].
        split; [reflexivity|]. split; [lia|].
        constructor; [|exact Hall].
        split; [exact Hsev|]. split; [exact Hsrc|].
        eexists. split; [exact Hcode|].
        unfold reported in Hrep. apply negb_true_iff, orb_false_iff in Hrep.
        destruct Hrep as [Hign Hexp]. split; [exact Hign|].
        apply bool_decide_eq_false in Hexp. exact Hexp.
      * destruct (Hbad eq_refl Hout) as (e & ->). discriminate.
    + rewrite decide_False by discriminate.
      rewrite (Hskip eq_refl). cbn [bind]. apply IH.
Qed.

(** X10. The style report returns exactly when every finding it does not
    skip designates a line of the checked lines; it then has appended,
    after the diagnostics that were there, as many diagnostics as there
    are findings whose code is neither ignored by the options nor
    expected, each a warning of source [pycodestyle] that carries a code
    neither ignored nor expected. A finding whose code is ignored or
    expected adds nothing. *)
Theorem report_style_findings (options : Options)
        (lines expected : list string) (findings : list StyleFinding)
        (result : list Diagnostic) :
  (Forall (fun f => reported options expected f = true ->
                    indexable lines (sf_line_number f - 1)) findings
   <-> exists result',
         report_style options lines expected findings result = Ok result')
  /\ forall result',
       report_style options lines expected findings result = Ok result' ->
       exists ds,
         result' = result ++ ds
         /\ length ds
            = length (filter (fun f => reported options expected f = true)
                             findings)
         /\ Forall (fun d =>
                      severity d = Warning /\ source d = "pycodestyle"
                      /\ exists c, code d = Some c
                                   /\ _ignore_code options c = false
                                   /\ c ∉ expected) ds.
Proof.
  split; [|apply report_style_appends].
  revert result. induction findings as [|f findings IH]; intros result.
  - split; [eexists; reflexivity | constructor].
  - cbn [report_style].
    destruct (error_cases options lines expected result f) as (Hskip & Hok & Hbad).
    split.
    + intros Hall. apply Forall_cons in Hall as [Hf Hall].
      destruct (reported options expected f) eqn:Hrep.
      * destruct (Hok eq_refl (Hf eq_refl)) as (d & -> & _).
        cbn [bind]. apply IH. exact Hall.
      * rewrite (Hskip eq_refl). cbn [bind]. apply IH. exact Hall.
    + intros (result' & Hrun).
      destruct (error options lines expected result f) as [r1|e] eqn:H1;
        [|discriminate].
      cbn [bind] in Hrun. constructor.
      * intros Hrep.
        destruct (decide (indexable lines (sf_line_number f - 1)))
          as [Hin|Hout]; [exact Hin|].
        destruct (Hbad Hrep Hout) as (e & He). discriminate.
      * apply (IH r1). eauto.
Qed.

End ReporterMoreFacts.

(** ** The type-checker pass *)

Section MypyFacts.

Context `{ext : Externals}.

Lemma rev_app_rev_app (a : string) :
  forall b c, String.rev_app (String.rev_app a b) c = String.rev_app b (a +:+ c).
Proof.
  induction a as [|x a IH]; intros b c; [reflexivity|].
  cbn [String.rev_app]. rewrite IH. reflexivity.
Qed.

Lemma rev_rev_app (a : string) : String.rev (String.rev_app a "") = a.
Proof.
  unfold String.rev. rewrite rev_app_rev_app. cbn [String.rev_app].
  apply str_app_nil_r.
Qed.

(** The number of pieces [split] gives: one more than the separators it
    splits at. *)
Lemma split_go_length (sep : ascii) (s : string) :
  forall n cur,
    length (split_go sep (Some n) cur s) = S (Nat.min n (count_char sep s)).
Proof.
  induction s as [|c r IH]; intros n cur.
  - cbn. rewrite Nat.min_0_r. reflexivity.
  - destruct n as [|m]; [reflexivity|].
    cbn [split_go count_char]. destruct (Ascii.eqb c sep).
    + cbn [fmap option_fmap option_map length Nat.pred].
      rewrite IH. cbn. reflexivity.
    + rewrite IH. reflexivity.
Qed.

(** Reading a piece that holds no separator. *)
Lemma split_go_piece (sep : ascii) (n : nat) (piece : string) :
  forall cur rest,
    count_char sep piece = O ->
    split_go sep (Some (S n)) cur (piece +:+ String sep rest)
    = String.rev (String.rev_app piece cur) :: split_go sep (Some n) "" rest.
Proof.
  induction piece as [|c piece IH]; intros cur rest Hnone.
  - rewrite str_app_nil_l. cbn [split_go String.rev_app].
    rewrite Ascii.eqb_refl. reflexivity.
  - rewrite str_app_cons. cbn [split_go String.rev_app].
    cbn [count_char] in Hnone.
    destruct (Ascii.eqb c sep); [discriminate|].
    apply IH. exact Hnone.
Qed.

Lemma mypy_line_not_five (filename : string) (script : Script) (line : string) :
  length (split ":"%char (Some 4%nat) line) <> 5%nat ->
  mypy_line filename script line = Ok None.
Proof.
  unfold mypy_line.
  destruct (split ":"%char (Some 4%nat) line) as [|a [|b [|c [|d [|e [|f l]]]]]];
    try reflexivity.
  intros H. exfalso. apply H. reflexivity.
Qed.

(** X11. A line of mypy's output with fewer than four colons, and hence
    fewer than five fields, gives no diagnostic and no error; neither does
    a line whose first field is not the name of the checked file. *)
Theorem mypy_line_skips (filename : string) (script : Script) :
  (forall line,
     (count_char ":"%char line < 4)%nat ->
     mypy_line filename script line = Ok None)
  /\ (forall fn rest,
        count_char ":"%char fn = O -> fn <> filename ->
        mypy_line filename script (fn +:+ String ":"%char rest) = Ok None).
Proof.
  split.
  - intros line Hfew. apply mypy_line_not_five.
    unfold split. rewrite split_go_length. lia.
  - intros fn rest Hnone Hother. unfold mypy_line, split.
    rewrite (split_go_piece _ 3 fn "" rest Hnone), rev_rev_app.
    destruct (split_go ":"%char (Some 3%nat) "" rest)
      as [|b [|c [|d [|e [|f l]]]]]; try reflexivity.
    destruct (String.eqb_spec fn filename) as [Heq|_]; [contradiction|].
    reflexivity.
Qed.

Lemma mypy_line_source (filename : string) (script : Script) (line : string)
      (d : Diagnostic) :
  mypy_line filename script line = Ok (Some d) -> source d = "mypy".
Proof.
  unfold mypy_line.
  destruct (split ":"%char (Some 4%nat) line) as [|a [|b [|c [|x [|e [|f l]]]]]];
    try discriminate.
  destruct (negb (String.eqb a filename)); [discriminate|].
  destruct (int b) as [row|]; [|discriminate]. cbn [bind].
  destruct (int c) as [column|]; [|discriminate]. cbn [bind].
  destruct (index (_code_lines script) (row - 1)) as [l|]; [|discriminate].
  cbn [bind]. intros [= <-]. reflexivity.
Qed.

(** The loop over mypy's output only appends, and what it appends has
    the source [mypy]. *)
Lemma mypy_lines_appends (filename : string) (script : Script)
      (lines : list string) :
  forall result,
    exists extra,
      (mypy_lines filename script lines result).2 = result ++ extra
      /\ Forall (fun d => source d = "mypy") extra.
Proof.
  induction lines as [|line lines IH]; intros result; cbn [mypy_lines].
  - exists []. rewrite app_nil_r. auto.
  - destruct (mypy_line filename script line) as [[d|]|e] eqn:Hline.
    + destruct (IH (result ++ [d])) as (extra & -> & Hall).
      exists (d :: extra). rewrite <- app_assoc. split; [reflexivity|].
      constructor; [|exact Hall]. exact (mypy_line_source _ _ _ _ Hline).
    + apply IH.
    + exists []. rewrite app_nil_r. auto.
Qed.

(** The pass as a whole. *)
Lemma mypy_pass_run (ls : LanguageServer) (uri : string) (script : Script)
      (result : list Diagnostic) (st : state) :
  exists extra st' added,
    mypy_pass ls uri script result st = (Ok (result ++ extra), st')
    /\ Forall (fun d => source d = "mypy") extra
    /\ trace st' = trace st ++ added
    /\ published added = []
    /\ scripts st' = scripts st
    /\ pycodestyleOptions st' = pycodestyleOptions st
    /\ config st' = config st
    /\ (forall e, (_mypy_check ls uri script result st).1.1 = Raise e ->
                  ShowMessage ("mypy check error: " +:+ str_exn e) MsgWarning
                  ∈ added).
Proof.
  unfold mypy_pass, _mypy_check.
  destruct jediEnvironment as [env|].
  - assert (Hcfg : exists config_file st1,
               get_mypy_config ls uri st = (Ok config_file, st1)
               /\ trace st1 = trace st /\ scripts st1 = scripts st
               /\ pycodestyleOptions st1 = pycodestyleOptions st
               /\ config st1 = config st).
    { unfold get_mypy_config, bindM, gets, set_mypyConfigs, modify, ret.
      destruct (mypyConfigs st !! _get_workspace_folder_path ls uri);
        eexists _, _; (split; [reflexivity|]); auto. }
    destruct Hcfg as (config_file & st1 & -> & Htr & Hs & Ho & Hc).
    cbn [emit modify].
    destruct (truthy (mypy_run _).2).
    + exists []. rewrite app_nil_r. eexists _, [_; _].
      split; [reflexivity|]. cbn [trace scripts pycodestyleOptions config fst].
      rewrite Htr, <- app_assoc.
      split; [constructor|]. split; [reflexivity|]. split; [reflexivity|].
      repeat (split; [assumption|]). discriminate.
    + match goal with
      | |- context [mypy_lines ?f ?s ?l ?r] =>
          destruct (mypy_lines_appends f s l r) as (extra & Hex & Hall);
          destruct (mypy_lines f s l r) as [[u|e0] result']
      end; cbn [snd] in Hex; subst result'; exists extra.
      * eexists _, [_]. split; [reflexivity|].
        cbn [trace scripts pycodestyleOptions config fst]. rewrite Htr.
        split; [exact Hall|]. split; [reflexivity|]. split; [reflexivity|].
        repeat (split; [assumption|]). discriminate.
      * eexists _, [_; _]. split; [reflexivity|].
        cbn [trace scripts pycodestyleOptions config fst emit modify].
        rewrite Htr, <- app_assoc.
        split; [exact Hall|]. split; [reflexivity|]. split; [reflexivity|].
        repeat (split; [assumption|]). intros e [= <-]. right. left.
  - exists []. rewrite app_nil_r. eexists _, [_].
    split; [reflexivity|]. cbn [emit modify trace scripts pycodestyleOptions
      config fst].
    split; [constructor|]. split; [reflexivity|]. split; [reflexivity|].
    repeat (split; [reflexivity|]). intros e [= <-]. left.
Qed.

(** X12. The type-checker pass never fails a validation: whatever mypy
    and the parsing of its output do, the pass returns, the diagnostics of
    the earlier stages are all kept, in order, in front of what it added,
    everything it added has the source [mypy], it publishes nothing itself,
    and an exception raised in the check is reported to the user as a
    warning message. *)
Theorem mypy_pass_never_fails (ls : LanguageServer) (uri : string)
        (script : Script) (result : list Diagnostic) (st : state) :
  exists extra st',
    mypy_pass ls uri script result st = (Ok (result ++ extra), st')
    /\ Forall (fun d => source d = "mypy") extra
    /\ published (events_since st st') = []
    /\ (forall e, (_mypy_check ls uri script result st).1.1 = Raise e ->
                  ShowMessage ("mypy check error: " +:+ str_exn e) MsgWarning
                  ∈ events_since st st').
Proof.
  destruct (mypy_pass_run ls uri script result st)
    as (extra & st' & added & Hrun & Hsrc & Htr & Hpub & _ & _ & _ & Hwarn).
  exists extra, st'. rewrite (events_since_app st st' added Htr). auto.
Qed.

End MypyFacts.

(** ** The stages of a validation pass *)

Section PassFacts.

Context `{ext : Externals}.

Lemma stage_trans (a b c : state) (x y : list event) :
  stage a b x -> stage b c y -> stage a c (x ++ y).
Proof.
  intros (Hx & Hc1 & Hm1) (Hy & Hc2 & Hm2). unfold stage.
  rewrite Hy, Hx, Hc2, Hc1, Hm2, Hm1, app_assoc. auto.
Qed.

Lemma stage_emit (st : state) (e : event) : stage st (emit e st).2 [e].
Proof. unfold stage. cbn. auto. Qed.

Lemma get_script_stage (ls : LanguageServer) (uri : string) (update : bool)
      (st st' : state) (r : outcome Script) :
  get_script ls uri update st = (r, st') ->
  exists added,
    stage st st' added /\ published added = []
    /\ Forall (fun e => is_mypy_run e = false) added.
Proof.
  unfold get_script, bindM, gets, lift, emit, set_scripts, modify, ret, stage.
  destruct (if update then None else scripts st !! uri) as [cached|].
  - intros [= <- <-]. exists []. rewrite app_nil_r. auto.
  - destruct (doc_source (get_document ls uri)) as [source|e].
    + destruct (new_Script source (doc_path (get_document ls uri)));
        intros [= <- <-]; eexists [_]; cbn [trace config mypyConfigs];
        repeat split; repeat constructor.
    + intros [= <- <-]. exists []. rewrite app_nil_r. auto.
Qed.

Lemma get_pycodestyle_options_stage (ls : LanguageServer) (uri : string)
      (st : state) :
  exists o st' added,
    get_pycodestyle_options ls uri st = (Ok o, st')
    /\ stage st st' added /\ published added = []
    /\ Forall (fun e => is_mypy_run e = false) added.
Proof.
  unfold get_pycodestyle_options, bindM, gets, emit, set_pycodestyleOptions,
    modify, ret, stage.
  destruct (pycodestyleOptions st !! _get_workspace_folder_path ls uri) as [o|].
  - exists o, st, []. rewrite app_nil_r. auto 10.
  - eexists _, _, [_]. split; [reflexivity|]. cbn [trace config mypyConfigs].
    repeat split; repeat constructor.
Qed.

(** The ways a validation pass can go, each with the state it ends in. *)
Lemma validate_cases (P : outcome unit -> state -> Prop)
      (ls : LanguageServer) (uri : string) (st : state) :
  (forall e st1,
     get_script ls uri false st = (Raise e, st1) -> P (Raise e) st1) ->
  (forall script st1,
     get_script ls uri false st = (Ok script, st1) ->
     get_syntax_errors script <> [] ->
     P (Ok tt)
       (publish_diagnostics uri
          (map syntax_diagnostic (get_syntax_errors script)) st1).2) ->
  (forall script st1 e,
     get_script ls uri false st = (Ok script, st1) ->
     get_syntax_errors script = [] ->
     report script (pyflakes_errors (config st1))
            (pyflakes_check (_code script) (path script)) [] = Raise e ->
     P (Raise e) (emit (PyflakesRun (_code script) (path script)) st1).2) ->
  (forall script st1 r1 opts st3 e,
     get_script ls uri false st = (Ok script, st1) ->
     get_syntax_errors script = [] ->
     report script (pyflakes_errors (config st1))
            (pyflakes_check (_code script) (path script)) [] = Ok r1 ->
     get_pycodestyle_options ls uri
       (emit (PyflakesRun (_code script) (path script)) st1).2 = (Ok opts, st3) ->
     report_style opts (splitlines (_code script)) []
                  (check_all (path script) (splitlines (_code script)) opts) r1
     = Raise e ->
     P (Raise e) (emit (CodestyleRun (path script)) st3).2) ->
  (forall script st1 r1 opts st3 r2,
     get_script ls uri false st = (Ok script, st1) ->
     get_syntax_errors script = [] ->
     report script (pyflakes_errors (config st1))
            (pyflakes_check (_code script) (path script)) [] = Ok r1 ->
     get_pycodestyle_options ls uri
       (emit (PyflakesRun (_code script) (path script)) st1).2 = (Ok opts, st3) ->
     report_style opts (splitlines (_code script)) []
                  (check_all (path script) (splitlines (_code script)) opts) r1
     = Ok r2 ->
     mypy_enabled (config st3) = false ->
     P (Ok tt)
       (publish_diagnostics uri r2
          (emit (CodestyleRun (path script)) st3).2).2) ->
  (forall script st1 r1 opts st3 r2 r3 st5,
     get_script ls uri false st = (Ok script, st1) ->
     get_syntax_errors script = [] ->
     report script (pyflakes_errors (config st1))
            (pyflakes_check (_code script) (path script)) [] = Ok r1 ->
     get_pycodestyle_options ls uri
       (emit (PyflakesRun (_code script) (path script)) st1).2 = (Ok opts, st3) ->
     report_style opts (splitlines (_code script)) []
                  (check_all (path script) (splitlines (_code script)) opts) r1
     = Ok r2 ->
     mypy_enabled (config st3) = true ->
     mypy_pass ls uri script r2 (emit (CodestyleRun (path script)) st3).2
     = (Ok r3, st5) ->
     P (Ok tt) (publish_diagnostics uri r3 st5).2) ->
  P (_validate ls uri st).1 (_validate ls uri st).2.
Proof.
  intros Hraise Hsyntax Hflakes Hstyle Hplain Hmypy.
  unfold _validate, bindM.
  destruct (get_script ls uri false st) as [[script|e] st1] eqn:Hs;
    [|exact (Hraise e st1 eq_refl)].
  destruct (get_syntax_errors script) as [|x errs] eqn:Herr.
  - cbn [map]. unfold gets, lift.
    specialize (Hflakes script st1). specialize (Hstyle script st1).
    specialize (Hplain script st1). specialize (Hmypy script st1).
    rewrite Herr in Hflakes, Hstyle, Hplain, Hmypy.
    cbn [emit modify snd] in *.
    destruct (report _ _ _ _) as [r1|e] eqn:Hr1;
      [|exact (Hflakes e eq_refl eq_refl eq_refl)].
    destruct (get_pycodestyle_options_stage ls uri
                (mkState (scripts st1) (pycodestyleOptions st1)
                         (mypyConfigs st1) (config st1)
                         (trace st1 ++ [PyflakesRun (_code script) (path script)])))
      as (opts & st3 & added & Ho & _).
    rewrite Ho.
    destruct (report_style _ _ _ _ _) as [r2|e] eqn:Hr2;
      [|exact (Hstyle r1 opts st3 e eq_refl eq_refl eq_refl Ho Hr2)].
    cbn [config].
    destruct (mypy_enabled (config st3)) eqn:Hen.
    + destruct (mypy_pass ls uri script r2 _) as [[r3|e] st5] eqn:Hm.
      * exact (Hmypy r1 opts st3 r2 r3 st5 eq_refl eq_refl eq_refl Ho Hr2 Hen Hm).
      * exfalso.
        destruct (mypy_pass_run ls uri script r2
                    (mkState (scripts st3) (pycodestyleOptions st3)
                             (mypyConfigs st3) (config st3)
                             (trace st3 ++ [CodestyleRun (path script)])))
          as (extra & st' & added' & Hrun & _).
        rewrite Hrun in Hm. discriminate.
    + exact (Hplain r1 opts st3 r2 eq_refl eq_refl eq_refl Ho Hr2 Hen).
  - specialize (Hsyntax script st1 eq_refl). rewrite Herr in Hsyntax.
    cbn [map]. apply Hsyntax. discriminate.
Qed.

Lemma published_quiet_app (a b : list event) :
  published a = [] -> published b = [] -> published (a ++ b) = [].
Proof. intros Ha Hb. rewrite published_app, Ha, Hb. reflexivity. Qed.

Lemma stage_since (st st' : state) (added : list event) :
  stage st st' added -> events_since st st' = added.
Proof. intros (Htr & _). exact (events_since_app st st' added Htr). Qed.

(** X13. A validation pass that returns publishes exactly one diagnostic
    collection, for the document it validates, as the last thing it does;
    a pass that raises publishes nothing. *)
Theorem validate_publishes_once (ls : LanguageServer) (uri : string)
        (st : state) :
  match (_validate ls uri st).1 with
  | Ok _ =>
      exists added ds,
        events_since st (_validate ls uri st).2
        = added ++ [PublishDiagnostics uri ds]
        /\ published added = []
  | Raise _ => published (events_since st (_validate ls uri st).2) = []
  end.
Proof.
  apply (validate_cases
           (fun r st' =>
              match r with
              | Ok _ =>
                  exists added ds,
                    events_since st st' = added ++ [PublishDiagnostics uri ds]
                    /\ published added = []
              | Raise _ => published (events_since st st') = []
              end)).
  - intros e st1 Hs.
    destruct (get_script_stage _ _ _ _ _ _ Hs) as (a1 & H1 & Hq1 & _).
    rewrite (stage_since _ _ _ H1). exact Hq1.
  - intros script st1 Hs _.
    destruct (get_script_stage _ _ _ _ _ _ Hs) as (a1 & H1 & Hq1 & _).
    exists a1, (map syntax_diagnostic (get_syntax_errors script)).
    split; [|exact Hq1].
    apply stage_since. exact (stage_trans _ _ _ _ _ H1 (stage_emit _ _)).
  - intros script st1 e Hs _ _.
    destruct (get_script_stage _ _ _ _ _ _ Hs) as (a1 & H1 & Hq1 & _).
    rewrite (stage_since _ _ _ (stage_trans _ _ _ _ _ H1 (stage_emit _ _))).
    apply published_quiet_app; [exact Hq1 | reflexivity].
  - intros script st1 r1 opts st3 e Hs _ _ Ho _.
    destruct (get_script_stage _ _ _ _ _ _ Hs) as (a1 & H1 & Hq1 & _).
    destruct (get_pycodestyle_options_stage ls uri
                (emit (PyflakesRun (_code script) (path script)) st1).2)
      as (o & st3' & a3 & Ho' & H3 & Hq3 & _).
    rewrite Ho in Ho'. injection Ho' as <- <-.
    rewrite (stage_since _ _ _
               (stage_trans _ _ _ _ _
                  (stage_trans _ _ _ _ _
                     (stage_trans _ _ _ _ _ H1 (stage_emit _ _)) H3)
                  (stage_emit _ _))).
    repeat apply published_quiet_app; auto.
  - intros script st1 r1 opts st3 r2 Hs _ _ Ho _ _.
    destruct (get_script_stage _ _ _ _ _ _ Hs) as (a1 & H1 & Hq1 & _).
    destruct (get_pycodestyle_options_stage ls uri
                (emit (PyflakesRun (_code script) (path script)) st1).2)
      as (o & st3' & a3 & Ho' & H3 & Hq3 & _).
    rewrite Ho in Ho'. injection Ho' as <- <-.
    eexists _, r2. split.
    + apply stage_since.
      exact (stage_trans _ _ _ _ _
               (stage_trans _ _ _ _ _
                  (stage_trans _ _ _ _ _
                     (stage_trans _ _ _ _ _ H1 (stage_emit _ _)) H3)
                  (stage_emit _ _))
               (stage_emit _ _)).
    + repeat apply published_quiet_app; auto.
  - intros script st1 r1 opts st3 r2 r3 st5 Hs _ _ Ho _ _ Hm.
    destruct (get_script_stage _ _ _ _ _ _ Hs) as (a1 & H1 & Hq1 & _).
    destruct (get_pycodestyle_options_stage ls uri
                (emit (PyflakesRun (_code script) (path script)) st1).2)
      as (o & st3' & a3 & Ho' & H3 & Hq3 & _).
    rewrite Ho in Ho'. injection Ho' as <- <-.
    destruct (mypy_pass_run ls uri script r2
                (emit (CodestyleRun (path script)) st3).2)
      as (extra & st5' & a5 & Hm' & _ & Htr5 & Hq5 & _ & _ & Hc5 & _).
    rewrite Hm in Hm'. injection Hm' as -> <-.
    eexists ((((a1 ++ [_]) ++ a3) ++ [_]) ++ a5), _. split.
    + apply events_since_app.
      cbn [publish_diagnostics emit modify snd trace].
      rewrite Htr5. cbn [emit modify snd trace].
      destruct H3 as (-> & _). cbn [emit modify snd trace].
      destruct H1 as (-> & _). rewrite <- !app_assoc. reflexivity.
    + repeat apply published_quiet_app; auto.
Qed.

(** The state after the first two stages of a pass without syntax
    errors. *)
Lemma first_stages (ls : LanguageServer) (uri : string) (st st1 st3 : state)
      (script : Script) (opts : Options) :
  get_script ls uri false st = (Ok script, st1) ->
  get_pycodestyle_options ls uri
    (emit (PyflakesRun (_code script) (path script)) st1).2 = (Ok opts, st3) ->
  exists added,
    stage st (emit (CodestyleRun (path script)) st3).2 added
    /\ published added = []
    /\ Forall (fun e => is_mypy_run e = false) added.
Proof.
  intros Hs Ho.
  destruct (get_script_stage _ _ _ _ _ _ Hs) as (a1 & H1 & Hq1 & Hm1).
  destruct (get_pycodestyle_options_stage ls uri
              (emit (PyflakesRun (_code script) (path script)) st1).2)
    as (o & st3' & a3 & Ho' & H3 & Hq3 & Hm3).
  rewrite Ho in Ho'. injection Ho' as <- <-.
  eexists. split; [|split].
  - exact (stage_trans _ _ _ _ _
             (stage_trans _ _ _ _ _
                (stage_trans _ _ _ _ _ H1 (stage_emit _ _)) H3)
             (stage_emit _ _)).
  - repeat apply published_quiet_app; auto.
  - repeat apply Forall_app_2; auto; repeat constructor.
Qed.

(** X14. When the handle reports no syntax error and the pass returns,
    the one collection it publishes holds the diagnostics of the unused-name
    checker, one per reporter call, then those of the style checker, then
    those of the type checker, in this order; without the type-checker flag
    the last part is empty. *)
Theorem validate_collection_order (ls : LanguageServer) (uri : string)
        (st st1 : state) (script : Script) :
  get_script ls uri false st = (Ok script, st1) ->
  get_syntax_errors script = [] ->
  (_validate ls uri st).1 = Ok tt ->
  exists d1 d2 d3,
    published (events_since st (_validate ls uri st).2)
    = [(uri, d1 ++ d2 ++ d3)]
    /\ length d1 = length (pyflakes_check (_code script) (path script))
    /\ Forall (fun d => source d = "pyflakes") d1
    /\ Forall (fun d => source d = "pycodestyle" /\ severity d = Warning) d2
    /\ Forall (fun d => source d = "mypy") d3
    /\ (mypy_enabled (config st) = false -> d3 = []).
Proof.
  intros Hs Hclean.
  apply (validate_cases
           (fun r st' =>
              r = Ok tt ->
              exists d1 d2 d3,
                published (events_since st st') = [(uri, d1 ++ d2 ++ d3)]
                /\ length d1
                   = length (pyflakes_check (_code script) (path script))
                /\ Forall (fun d => source d = "pyflakes") d1
                /\ Forall (fun d => source d = "pycodestyle"
                                    /\ severity d = Warning) d2
                /\ Forall (fun d => source d = "mypy") d3
                /\ (mypy_enabled (config st) = false -> d3 = []))).
  - discriminate.
  - intros script0 st0 Hs0 Herr. rewrite Hs in Hs0. injection Hs0 as <- <-.
    contradiction.
  - discriminate.
  - discriminate.
  - intros script0 st0 r1 opts st3 r2 Hs0 _ Hr1 Ho Hr2 Hen _.
    rewrite Hs in Hs0. injection Hs0 as <- <-.
    destruct (report_appends _ _ _ _ _ Hr1) as (d1 & -> & Hlen1 & Hsrc1).
    destruct (report_style_appends _ _ _ _ _ _ Hr2) as (d2 & -> & _ & Hsrc2).
    destruct (first_stages _ _ _ _ _ _ _ Hs Ho) as (added & Hst & Hq & _).
    exists d1, d2, []. rewrite app_nil_r.
    unfold publish_diagnostics.
    rewrite (stage_since _ _ _ (stage_trans _ _ _ _ _ Hst (stage_emit _ _))).
    rewrite published_app, Hq. cbn [app published].
    split; [reflexivity|]. split; [exact Hlen1|]. split; [exact Hsrc1|].
    split; [|auto].
    eapply Forall_impl; [exact Hsrc2|]. cbn. intros d (Hsev & Hsrc & _). auto.
  - intros script0 st0 r1 opts st3 r2 r3 st5 Hs0 _ Hr1 Ho Hr2 Hen Hm _.
    rewrite Hs in Hs0. injection Hs0 as <- <-.
    destruct (report_appends _ _ _ _ _ Hr1) as (d1 & -> & Hlen1 & Hsrc1).
    destruct (report_style_appends _ _ _ _ _ _ Hr2) as (d2 & -> & _ & Hsrc2).
    destruct (first_stages _ _ _ _ _ _ _ Hs Ho) as (added & Hst & Hq & _).
    destruct (mypy_pass_run ls uri script (([] ++ d1) ++ d2)
                (emit (CodestyleRun (path script)) st3).2)
      as (d3 & st5' & a5 & Hm' & Hsrc3 & Htr5 & Hq5 & _ & _ & Hc5 & _).
    rewrite Hm in Hm'. injection Hm' as -> <-.
    exists d1, d2, d3.
    destruct Hst as (Htr & Hcfg & _).
    rewrite (events_since_app st _
               (added ++ a5 ++ [PublishDiagnostics uri ((([] ++ d1) ++ d2) ++ d3)]))
      by (cbn [publish_diagnostics emit modify snd trace];
          rewrite Htr5, Htr, <- !app_assoc; reflexivity).
    rewrite !published_app, Hq, Hq5. cbn [app published].
    rewrite <- app_assoc.
    split; [reflexivity|]. split; [exact Hlen1|]. split; [exact Hsrc1|].
    split.
    { eapply Forall_impl; [exact Hsrc2|]. cbn. intros d (Hsev & Hsrc & _). auto. }
    split; [exact Hsrc3|].
    cbn [emit modify snd config] in Hcfg. rewrite <- Hcfg, Hen. discriminate.
Qed.

(** X15. With the type-checker flag off, a validation pass, however it
    ends, never runs mypy and leaves the cache of mypy configuration paths
    and the configuration as they were. *)
Theorem validate_without_mypy (ls : LanguageServer) (uri : string)
        (st : state) :
  mypy_enabled (config st) = false ->
  Forall (fun e => is_mypy_run e = false)
         (events_since st (_validate ls uri st).2)
  /\ mypyConfigs (_validate ls uri st).2 = mypyConfigs st
  /\ config (_validate ls uri st).2 = config st.
Proof.
  intros Hoff.
  apply (validate_cases
           (fun r st' =>
              Forall (fun e => is_mypy_run e = false) (events_since st st')
              /\ mypyConfigs st' = mypyConfigs st
              /\ config st' = config st)).
  - intros e st1 Hs.
    destruct (get_script_stage _ _ _ _ _ _ Hs) as (a1 & H1 & _ & Hm1).
    rewrite (stage_since _ _ _ H1). destruct H1 as (_ & Hc & Hm). auto.
  - intros script st1 Hs _.
    destruct (get_script_stage _ _ _ _ _ _ Hs) as (a1 & H1 & _ & Hm1).
    pose proof (stage_trans _ _ _ _ _ H1
                  (stage_emit st1 (PublishDiagnostics uri
                     (map syntax_diagnostic (get_syntax_errors script)))))
      as Hall.
    unfold publish_diagnostics. rewrite (stage_since _ _ _ Hall).
    destruct Hall as (_ & Hc & Hm).
    split; [|auto]. apply Forall_app_2; [exact Hm1 | repeat constructor].
  - intros script st1 e Hs _ _.
    destruct (get_script_stage _ _ _ _ _ _ Hs) as (a1 & H1 & _ & Hm1).
    pose proof (stage_trans _ _ _ _ _ H1
                  (stage_emit st1 (PyflakesRun (_code script) (path script))))
      as Hall.
    rewrite (stage_since _ _ _ Hall). destruct Hall as (_ & Hc & Hm).
    split; [|auto]. apply Forall_app_2; [exact Hm1 | repeat constructor].
  - intros script st1 r1 opts st3 e Hs _ _ Ho _.
    destruct (first_stages _ _ _ _ _ _ _ Hs Ho) as (added & Hst & _ & Hm).
    rewrite (stage_since _ _ _ Hst). destruct Hst as (_ & Hc & Hmc). auto.
  - intros script st1 r1 opts st3 r2 Hs _ _ Ho _ _.
    destruct (first_stages _ _ _ _ _ _ _ Hs Ho) as (added & Hst & _ & Hm).
    pose proof (stage_trans _ _ _ _ _ Hst
                  (stage_emit _ (PublishDiagnostics uri r2))) as Hall.
    unfold publish_diagnostics. rewrite (stage_since _ _ _ Hall).
    destruct Hall as (_ & Hc & Hmc).
    split; [|auto]. apply Forall_app_2; [exact Hm | repeat constructor].
  - intros script st1 r1 opts st3 r2 r3 st5 Hs _ _ Ho _ Hen _.
    destruct (first_stages _ _ _ _ _ _ _ Hs Ho) as (added & (_ & Hc & _) & _).
    cbn [emit modify snd config] in Hc. congruence.
Qed.

End PassFacts.

(** ** More on configuration changes *)

Section ConfigurationMoreFacts.

Context `{ext : Externals}.

(** X16. A configuration change that carries at least one key other
    than [help_on_hover] stores every key present, empties the cache of
    style options exactly when [pycodestyle_config] is present and the
    cache of mypy configuration paths exactly when [mypy_enabled] is
    present, and then validates every document of the workspace, in order,
    stopping at the first pass that raises. The handle cache is not
    emptied. *)
Theorem did_change_configuration_revalidates (ls : LanguageServer)
        (a : AnakinSettings) (st : state) :
  is_Some (s_pyflakes_errors a) \/ is_Some (s_pycodestyle_config a)
  \/ is_Some (s_mypy_enabled a) ->
  did_change_configuration ls (mkConfigurationParams (Some (Some a))) st
  = for_each (documents ls) (_validate ls)
      (mkState (scripts st)
               (match s_pycodestyle_config a with
                | Some _ => ∅
                | None => pycodestyleOptions st
                end)
               (match s_mypy_enabled a with
                | Some _ => ∅
                | None => mypyConfigs st
                end)
               (apply_settings a (config st))
               (trace st)).
Proof.
  intros Hkey.
  destruct a as [[pe|] [pc|] [hh|] [me|]];
    try (exfalso; destruct Hkey as [[x Hx] | [[x Hx] | [x Hx]]]; discriminate);
    clear Hkey;
    unfold did_change_configuration, config_key, bindM, set_config,
      set_pycodestyleOptions, set_mypyConfigs, modify, ret, apply_settings;
    cbn [settings s_pyflakes_errors s_pycodestyle_config s_help_on_hover
         s_mypy_enabled default];
    repeat (case_bool_decide; try set_solver);
    cbn [config scripts pycodestyleOptions mypyConfigs trace pyflakes_errors
         pycodestyle_config help_on_hover mypy_enabled];
    try reflexivity.
Qed.

End ConfigurationMoreFacts.

(** ** More on the code action *)

Section CodeActionMoreFacts.

Context `{ext : Externals}.

(** The groups the loop of [_get_document_changes] appends all carry
    edits. *)
Lemma document_changes_loop_nonempty (ls : LanguageServer)
      (items : list (string * ChangedFile)) :
  forall result result',
    document_changes_loop ls items result = Ok result' ->
    exists groups,
      result' = result ++ groups /\ Forall (fun g => edits g <> []) groups.
Proof.
  induction items as [|[fn changes] items IH]; intros result result'.
  - intros [= <-]. exists []. rewrite app_nil_r. auto.
  - cbn [document_changes_loop].
    destruct (Coalescer._get_text_edits split_lines compare changes)
      as [[|e es]|err]; cbn [bind]; [| |discriminate].
    + apply IH.
    + intros Hrest. destruct (IH _ _ Hrest) as (groups & -> & Hall).
      eexists (_ :: groups). rewrite <- app_assoc. split; [reflexivity|].
      constructor; [discriminate | exact Hall].
Qed.

(** X17. For a range whose start and end, as received, are the same
    tuple (so for every cursor that lists the keys of its two positions in
    the same order), when the engine refuses the inline refactoring with a
    [RefactoringError], the handler returns [None] instead of failing; any
    other exception of the engine reaches the caller. In both cases the
    only event after the handle was obtained is the call of the
    refactoring. *)
Theorem code_action_engine_errors (ls : LanguageServer)
        (params : CodeActionParams) (st st1 : state) (script : Script)
        (e : exn) :
  as_tuple (ro_start (ca_range params)) = as_tuple (ro_end (ca_range params)) ->
  get_script ls (ca_uri params) false st = (Ok script, st1) ->
  inline script (line (position_of (ro_start (ca_range params))) + 1)
         (character (position_of (ro_start (ca_range params)))) = Raise e ->
  code_action ls params st
  = (match e with
     | RefactoringError _ => Ok None
     | _ => Raise e
     end,
     (emit (InlineCalled (path script)
              (line (position_of (ro_start (ca_range params))) + 1)
              (character (position_of (ro_start (ca_range params))))) st1).2).
Proof.
  intros Hcursor Hs Hinline. unfold code_action.
  rewrite bool_decide_false by auto.
  unfold bindM. rewrite Hs. cbn [emit modify]. rewrite Hinline.
  destruct e; reflexivity.
Qed.

(** X18. A code action response that is not [None] is a single action,
    "Inline variable" of kind refactor-inline, asked with a range whose
    start and end, as received, are the same tuple: a cursor, if the two
    positions list their keys in the same order. Its workspace edit has at
    least one per-file group and every group has at least one edit. *)
Theorem code_action_some (ls : LanguageServer) (params : CodeActionParams)
        (st st' : state) (actions : list CodeAction) :
  code_action ls params st = (Ok (Some actions), st') ->
  as_tuple (ro_start (ca_range params)) = as_tuple (ro_end (ca_range params))
  /\ (key_order (ro_start (ca_range params))
      = key_order (ro_end (ca_range params)) ->
      position_of (ro_start (ca_range params))
      = position_of (ro_end (ca_range params)))
  /\ exists groups,
       actions = [mkCodeAction "Inline variable" RefactorInline
                               (mkWorkspaceEdit groups)]
       /\ groups <> []
       /\ Forall (fun g => edits g <> []) groups.
Proof.
  unfold code_action.
  destruct (decide (as_tuple (ro_start (ca_range params))
                    = as_tuple (ro_end (ca_range params))))
    as [Hcursor | Hsel].
  - rewrite bool_decide_false by auto. intros Hrun. split; [exact Hcursor|].
    split.
    { intros Hkeys. apply (as_tuple_same_keys _ _ Hkeys). exact Hcursor. }
    revert Hrun. unfold bindM.
    destruct (get_script ls (ca_uri params) false st) as [[script|e] st1];
      [|discriminate].
    cbn [emit modify].
    destruct (inline script _ _) as [refactoring|e].
    + unfold lift, _get_document_changes.
      destruct (document_changes_loop ls (get_changed_files refactoring) [])
        as [groups|e] eqn:Hloop; [|discriminate].
      destruct (document_changes_loop_nonempty _ _ _ _ Hloop)
        as (gs & Heq & Hall).
      cbn [app] in Heq. subst gs.
      destruct groups as [|g groups]; [discriminate|].
      unfold ret. intros [= <- <-]. eexists. split; [reflexivity|].
      split; [discriminate | exact Hall].
    + destruct e; discriminate.
  - rewrite bool_decide_true by exact Hsel. discriminate.
Qed.

End CodeActionMoreFacts.

(** ** Completion *)

Section CompletionFacts.

Import Features.

Context `{ext : Externals} `{eng : Engine}.

Lemma compare_prefix2 (x y : ascii) (a b : string) :
  String.compare (String x (String y a)) (String x (String y b))
  = String.compare a b.
Proof.
  cbn [String.compare].
  assert (Hx : Ascii.compare x x = Eq) by apply N.compare_refl.
  assert (Hy : Ascii.compare y y = Eq) by apply N.compare_refl.
  rewrite Hx, Hy. reflexivity.
Qed.

(** X22. The sort text ranks completions by the shape of their name:
    every public name comes before every name with one leading underscore,
    which comes before every name with two; within one rank the sort texts
    compare as the names do. *)
Theorem completion_sort_key_order (a b : Completion) :
  ((sort_class (c_name a) < sort_class (c_name b))%nat ->
   String.compare (_completion_sort_key a) (_completion_sort_key b) = Lt)
  /\ (sort_class (c_name a) = sort_class (c_name b) ->
      String.compare (_completion_sort_key a) (_completion_sort_key b)
      = String.compare (c_name a) (c_name b)).
Proof.
  unfold _completion_sort_key, sort_class.
  destruct (startswith (c_name a) "__"), (startswith (c_name a) "_"),
    (startswith (c_name b) "__"), (startswith (c_name b) "_");
    (split; [intros Hlt; try lia; reflexivity
            | intros Heq; try discriminate; apply compare_prefix2]).
Qed.

(** X23. The snippet variant of the completion list extends the plain
    one: dropping the items that carry no text edit gives the plain list
    back, in its order; there are as many items as completions and
    signatures of completions together; and every item without a text
    edit has the snippet format and the kind, documentation and sort text
    of a completion of the list. *)
Theorem completions_snippets_extend (completions : list Completion)
        (r : Range) :
  filter (fun item => is_Some (text_edit item))
         (_completions_snippets completions r)
  = _completions completions r
  /\ length (_completions_snippets completions r)
     = (length completions
        + length (concat (map c_signatures completions)))%nat
  /\ Forall (fun item =>
               text_edit item = None ->
               insert_text_format item = Some Snippet
               /\ exists completion,
                    completion ∈ completions
                    /\ ci_kind item = completion_type (c_type completion)
                    /\ documentation item = c_docstring completion
                    /\ sort_text item = _completion_sort_key completion)
            (_completions_snippets completions r).
Proof.
  induction completions as [|c cs (IHf & IHl & IHa)]; [repeat split; constructor|].
  cbn [_completions_snippets _completions map concat].
  assert (Hsnip : forall sigs,
             filter (fun item => is_Some (text_edit item))
                    (map (snippet_item c (_completion_item c r)) sigs) = []).
  { induction sigs as [|x sigs IH]; [reflexivity|].
    cbn [map]. rewrite filter_cons_False; [exact IH|].
    unfold snippet_item. destruct (snippet_params 0 (sig_params x)).
    cbn [text_edit]. intros [te Hte]. discriminate. }
  split; [|split].
  - rewrite filter_cons_True by (cbn [_completion_item text_edit]; eauto).
    rewrite filter_app, Hsnip, IHf. reflexivity.
  - cbn [length]. rewrite !length_app, length_map, IHl. lia.
  - constructor; [discriminate|].
    apply Forall_app_2.
    + apply Forall_forall. intros item Hitem _.
      apply list_elem_of_fmap in Hitem as (x & -> & _).
      unfold snippet_item. destruct (snippet_params 0 (sig_params x)).
      cbn [insert_text_format ci_kind documentation sort_text].
      split; [reflexivity|]. exists c. split; [left|]. auto.
    + eapply Forall_impl; [exact IHa|]. cbn.
      intros item Hitem Hnone. destruct (Hitem Hnone) as (Hfmt & c' & Hin & Hrest).
      split; [exact Hfmt|]. exists c'. split; [right; exact Hin | exact Hrest].
Qed.

(** The word that leads a string. *)
Lemma leading_word_spec (s : string) :
  exists w rest,
    s = w +:+ rest
    /\ String.length w = leading_word s
    /\ all_word w = true
    /\ starts_word rest = false.
Proof.
  induction s as [|c s (w & rest & Hs & Hlen & Hw & Hrest)].
  - exists EmptyString, EmptyString. auto.
  - cbn [leading_word]. destruct (word_char c) eqn:Hc.
    + exists (String c w), rest. rewrite str_app_cons, <- Hs.
      cbn [String.length all_word]. rewrite Hc, Hw, Hlen. auto.
    + exists EmptyString, (String c s). cbn [starts_word]. auto.
Qed.

(** X24. A completion response is complete, and each of its items that
    carries a text edit replaces the same range: on the line of the cursor,
    from the cursor to the end of the word characters that follow it in the
    handle's line. *)
Theorem completions_range (caps : Capabilities) (ls : LanguageServer)
        (params : TextDocumentPositionParams) (st st' : state)
        (response : CompletionList) :
  completions caps ls params st = (Ok response, st') ->
  exists script code_line w rest,
    get_script ls (pp_uri params) false st = (Ok script, st')
    /\ index (_code_lines script) (line (pp_position params)) = Ok code_line
    /\ slice_from_z (character (pp_position params)) code_line = w +:+ rest
    /\ all_word w = true
    /\ starts_word rest = false
    /\ is_incomplete response = false
    /\ Forall (fun item =>
                 forall e, text_edit item = Some e ->
                   te_range e
                   = mkRange
                       (mkPosition (line (pp_position params))
                                   (character (pp_position params)))
                       (mkPosition (line (pp_position params))
                                   (character (pp_position params) + len w)))
              (items response).
Proof.
  unfold completions, bindM, lift, ret.
  destruct (get_script ls (pp_uri params) false st) as [[script|e] st1];
    [|discriminate].
  destruct (index (_code_lines script) (line (pp_position params)))
    as [code_line|e] eqn:Hline; [|discriminate].
  intros [= <- <-].
  destruct (leading_word_spec
              (slice_from_z (character (pp_position params)) code_line))
    as (w & rest & Hs & Hlen & Hw & Hrest).
  exists script, code_line, w, rest.
  split; [reflexivity|]. split; [first [exact Hline | reflexivity]|].
  split; [exact Hs|].
  split; [exact Hw|]. split; [exact Hrest|]. split; [reflexivity|].
  cbn [items]. unfold len. rewrite Hlen.
  set (r := mkRange _ _).
  assert (Hplain : forall cs, Forall (fun item =>
                       forall e, text_edit item = Some e -> te_range e = r)
                     (_completions cs r)).
  { intros cs. apply Forall_forall. intros item Hitem e He.
    apply list_elem_of_fmap in Hitem as (c & -> & _).
    cbn [_completion_item text_edit] in He. injection He as <-. reflexivity. }
  unfold completionFunction. destruct (snippetSupport caps); [|apply Hplain].
  generalize (complete script (line (pp_position params) + 1)
                       (character (pp_position params))).
  intros cs. induction cs as [|c cs IH]; [constructor|].
  cbn [_completions_snippets]. constructor.
  - intros e He. cbn [_completion_item text_edit] in He.
    injection He as <-. reflexivity.
  - apply Forall_app_2; [|exact IH].
    apply Forall_forall. intros item Hitem e He.
    apply list_elem_of_fmap in Hitem as (x & -> & _).
    unfold snippet_item in He. destruct (snippet_params 0 (sig_params x)).
    discriminate.
Qed.

End CompletionFacts.

(** ** Hover *)

Section HoverFacts.

Import Features.

Context `{ext : Externals} `{eng : Engine}.

Lemma str_app_empty (a b : string) : a +:+ b = "" -> a = "" /\ b = "".
Proof. destruct a; [auto | discriminate]. Qed.

Lemma truthy_spec (s : string) : truthy s = true <-> s <> "".
Proof.
  unfold truthy. destruct (String.eqb_spec s ""); cbn; split; congruence.
Qed.

(** Joined with a separator that is not empty, only no string or the one
    empty string give the empty string. *)
Lemma join_sep_empty (sep : string) (l : list string) :
  sep <> "" -> (join_sep sep l = "" <-> l = [] \/ l = [""]).
Proof.
  intros Hsep. destruct l as [|x [|y r]]; cbn [join_sep].
  - split; auto.
  - split.
    + intros ->. auto.
    + intros [H | H]; [discriminate | congruence].
  - split.
    + intros H. apply str_app_empty in H as [_ H].
      apply str_app_empty in H as [H _]. contradiction.
    + intros [H | H]; discriminate.
Qed.

(** The handle cache does not look at the configuration. *)
Lemma get_script_config (ls : LanguageServer) (uri : string) (update : bool)
      (st : state) (c : Config) :
  get_script ls uri update
    (mkState (scripts st) (pycodestyleOptions st) (mypyConfigs st) c (trace st))
  = ((get_script ls uri update st).1,
     mkState (scripts (get_script ls uri update st).2)
             (pycodestyleOptions (get_script ls uri update st).2)
             (mypyConfigs (get_script ls uri update st).2) c
             (trace (get_script ls uri update st).2)).
Proof.
  unfold get_script, bindM, gets, lift, emit, set_scripts, modify, ret.
  cbn [scripts].
  destruct (if update then None else scripts st !! uri) as [cached|];
    [reflexivity|].
  destruct (doc_source (get_document ls uri)) as [source|e]; [|reflexivity].
  destruct (new_Script source (doc_path (get_document ls uri))); reflexivity.
Qed.

Lemma hover_run (ls : LanguageServer) (params : TextDocumentPositionParams)
      (st st1 : state) (script : Script) :
  get_script ls (pp_uri params) false st = (Ok script, st1) ->
  hover ls params st
  = (Ok (let docs :=
           (if help_on_hover (config st1) then help script else infer script)
             (line (pp_position params) + 1) (character (pp_position params)) in
         if truthy (join_sep hover_separator docs)
         then Some (join_sep hover_separator docs) else None),
     st1).
Proof.
  intros Hs. unfold hover, bindM, gets, ret. rewrite Hs. cbv zeta.
  destruct (truthy _); reflexivity.
Qed.

(** X25. Hover answers from [help] when the flag [help_on_hover] of the
    configuration is set and from [infer] otherwise; it returns no hover
    exactly when the engine gives no name or a single name with an empty
    docstring, and otherwise the docstrings joined by the separator line,
    so that two names with empty docstrings give a hover that holds only
    the separator. *)
Theorem hover_response (ls : LanguageServer)
        (params : TextDocumentPositionParams) (st st1 : state)
        (script : Script) :
  get_script ls (pp_uri params) false st = (Ok script, st1) ->
  let docs :=
    (if help_on_hover (config st) then help script else infer script)
      (line (pp_position params) + 1) (character (pp_position params)) in
  exists r,
    hover ls params st = (Ok r, st1)
    /\ (r = None <-> docs = [] \/ docs = [""])
    /\ (forall text, r = Some text -> text = join_sep hover_separator docs).
Proof.
  intros Hs docs. rewrite (hover_run ls params st st1 script Hs).
  destruct (get_script_stage _ _ _ _ _ _ Hs) as (added & (_ & Hcfg & _) & _).
  rewrite Hcfg. fold docs. cbv zeta.
  eexists. split; [reflexivity|].
  assert (Hsep : hover_separator <> "") by discriminate.
  destruct (truthy (join_sep hover_separator docs)) eqn:Ht.
  - split.
    + split; [discriminate|]. intros Hdocs.
      apply (join_sep_empty _ _ Hsep) in Hdocs.
      apply truthy_spec in Ht. contradiction.
    + intros text [= <-]. reflexivity.
  - split; [|discriminate].
    split; [|reflexivity]. intros _.
    apply (join_sep_empty _ _ Hsep).
    destruct (String.eqb_spec (join_sep hover_separator docs) "") as [H|H];
      [exact H|].
    apply truthy_spec in H. congruence.
Qed.

(** X26. The flag takes effect at once: after a configuration change
    that carries only [help_on_hover] with the value [v], a hover request
    answers from [help] if [v] is true and from [infer] if it is false. *)
Theorem hover_after_configuration (ls : LanguageServer)
        (params : TextDocumentPositionParams) (st st1 : state)
        (script : Script) (v : bool) :
  get_script ls (pp_uri params) false st = (Ok script, st1) ->
  let changed :=
    (did_change_configuration ls
       (mkConfigurationParams
          (Some (Some (mkAnakinSettings None None (Some v) None)))) st).2 in
  let docs :=
    (if v then help script else infer script)
      (line (pp_position params) + 1) (character (pp_position params)) in
  (hover ls params changed).1
  = Ok (if truthy (join_sep hover_separator docs)
        then Some (join_sep hover_separator docs) else None).
Proof.
  intros Hs changed docs.
  assert (Hchanged : changed
                     = mkState (scripts st) (pycodestyleOptions st)
                         (mypyConfigs st)
                         (mkConfig (pyflakes_errors (config st))
                                   (pycodestyle_config (config st)) v
                                   (mypy_enabled (config st)))
                         (trace st)).
  { unfold changed, did_change_configuration.
    cbn [settings s_pyflakes_errors s_pycodestyle_config s_help_on_hover
         s_mypy_enabled].
    unfold config_key, bindM, set_config, modify, ret.
    rewrite (bool_decide_false ("help_on_hover" ≠ "help_on_hover")) by auto.
    rewrite (bool_decide_false ("pycodestyle_config" ∈ (∅ : gset string)))
      by set_solver.
    rewrite (bool_decide_false ("mypy_enabled" ∈ (∅ : gset string)))
      by set_solver.
    rewrite (bool_decide_false ((∅ : gset string) ≠ ∅)) by auto.
    reflexivity. }
  rewrite Hchanged.
  erewrite hover_run by (rewrite get_script_config, Hs; reflexivity).
  reflexivity.
Qed.

End HoverFacts.

(** ** Signature help *)

Section SignatureFacts.

Import Features.

Context `{ext : Externals} `{eng : Engine}.

Lemma indexed_app (a b : list Signature) :
  indexed (a ++ b) = indexed a ++ indexed b.
Proof.
  induction a as [|s a IH]; [reflexivity|].
  cbn [app indexed]. destruct (sig_index s); rewrite IH; reflexivity.
Qed.

(** The loop of [signature_help], from any point it can reach. *)
Lemma signature_loop_chosen (sigs : list Signature) :
  forall seen idx param_idx,
    chosen seen idx param_idx ->
    exists idx' param_idx',
      signature_loop sigs (map signature_information (indexed seen)) idx
                     param_idx (Z.of_nat (length (indexed seen)))
      = (map signature_information (indexed (seen ++ sigs)), idx', param_idx')
      /\ chosen (seen ++ sigs) idx' param_idx'.
Proof.
  induction sigs as [|s sigs IH]; intros seen idx param_idx Hinv.
  - exists idx, param_idx. rewrite app_nil_r. auto.
  - cbn [signature_loop].
    replace (seen ++ s :: sigs) with ((seen ++ [s]) ++ sigs)
      by (rewrite <- app_assoc; reflexivity).
    destruct (sig_index s) as [k|] eqn:Hk.
    + assert (Hnext : indexed (seen ++ [s]) = indexed seen ++ [s]).
      { rewrite indexed_app. cbn [indexed]. rewrite Hk. reflexivity. }
      assert (Hres : map signature_information (indexed seen)
                       ++ [mkSignatureInformation (sig_to_string s)
                             (map p_name (sig_params s))]
                     = map signature_information (indexed (seen ++ [s]))).
      { rewrite Hnext, map_app. reflexivity. }
      assert (Hi : Z.of_nat (length (indexed seen)) + 1
                   = Z.of_nat (length (indexed (seen ++ [s])))).
      { rewrite Hnext, length_app. cbn [length]. lia. }
      rewrite Hres, Hi.
      destruct (Z.gtb_spec k param_idx) as [Hgt | Hle].
      * replace (Z.of_nat (length (indexed seen)))
          with (Z.of_nat (length (indexed seen))) by reflexivity.
        apply IH. right. exists seen, s, [].
        split; [reflexivity|]. split; [reflexivity|]. split; [exact Hk|].
        destruct Hinv as [(-> & -> & Hlow)
                         | (b & s0 & a & -> & -> & Hs0 & Hpos & Hb & Ha)].
        -- split; [lia|]. split.
           ++ intros s' k' Hin Hk'. specialize (Hlow _ _ Hin Hk'). lia.
           ++ intros s' k' Hin. inversion Hin.
        -- split; [lia|]. split.
           ++ intros s' k' Hin Hk'.
              apply elem_of_app in Hin as [Hin | Hin].
              ** specialize (Hb _ _ Hin Hk'). lia.
              ** apply elem_of_cons in Hin as [-> | Hin].
                 --- rewrite Hs0 in Hk'. injection Hk' as <-. lia.
                 --- specialize (Ha _ _ Hin Hk'). lia.
           ++ intros s' k' Hin. inversion Hin.
      * apply IH.
        destruct Hinv as [(-> & -> & Hlow)
                         | (b & s0 & a & -> & -> & Hs0 & Hpos & Hb & Ha)].
        -- left. split; [reflexivity|]. split; [reflexivity|].
           intros s' k' Hin Hk'.
           apply elem_of_app in Hin as [Hin | Hin]; [eauto|].
           apply list_elem_of_singleton in Hin as ->.
           rewrite Hk in Hk'. injection Hk' as <-. lia.
        -- right. exists b, s0, (a ++ [s]).
           split; [rewrite <- app_assoc; reflexivity|].
           split; [reflexivity|]. split; [exact Hs0|]. split; [exact Hpos|].
           split; [exact Hb|].
           intros s' k' Hin Hk'.
           apply elem_of_app in Hin as [Hin | Hin]; [eauto|].
           apply list_elem_of_singleton in Hin as ->.
           rewrite Hk in Hk'. injection Hk' as <-. lia.
    + assert (Hnext : indexed (seen ++ [s]) = indexed seen).
      { rewrite indexed_app. cbn [indexed]. rewrite Hk. apply app_nil_r. }
      rewrite <- Hnext. apply IH.
      destruct Hinv as [(-> & -> & Hlow)
                       | (b & s0 & a & -> & -> & Hs0 & Hpos & Hb & Ha)].
      * left. split; [reflexivity|]. split; [reflexivity|].
        intros s' k' Hin Hk'.
        apply elem_of_app in Hin as [Hin | Hin]; [eauto|].
        apply list_elem_of_singleton in Hin as ->. congruence.
      * right. exists b, s0, (a ++ [s]).
        split; [rewrite <- app_assoc; reflexivity|].
        split; [reflexivity|]. split; [exact Hs0|]. split; [exact Hpos|].
        split; [exact Hb|].
        intros s' k' Hin Hk'.
        apply elem_of_app in Hin as [Hin | Hin]; [eauto|].
        apply list_elem_of_singleton in Hin as ->. congruence.
Qed.

Lemma index_middle {A B} (f : A -> B) (b a : list A) (x : A) :
  index (map f (b ++ x :: a)) (Z.of_nat (length b)) = Ok (f x).
Proof.
  unfold index. rewrite length_map, length_app. cbn [length].
  destruct (Z.ltb_spec (Z.of_nat (length b)) 0) as [|_]; [lia|].
  destruct (Z.ltb_spec (Z.of_nat (length b)) 0) as [|_]; [lia|].
  destruct (Z.leb_spec (Z.of_nat (length b + S (length a)))
                       (Z.of_nat (length b))) as [|_]; [lia|].
  cbn [orb]. rewrite Nat2Z.id, map_app.
  rewrite nth_error_app2 by (rewrite length_map; lia).
  rewrite length_map, Nat.sub_diag. reflexivity.
Qed.

(** X27. Signature help returns nothing when the cursor is on a
    parameter of none of the signatures the engine gives. When it is on a
    parameter, at an index that is not negative, of at least one, the
    response holds exactly one signature, the first of those whose index is
    the largest, as the active signature, and that index as the active
    parameter. *)
Theorem signature_help_choice (ls : LanguageServer)
        (params : TextDocumentPositionParams) (st st1 : state)
        (script : Script) :
  get_script ls (pp_uri params) false st = (Ok script, st1) ->
  let sigs := get_signatures script (line (pp_position params) + 1)
                             (character (pp_position params)) in
  (Forall (fun s => sig_index s = None) sigs ->
   signature_help ls params st = (Ok None, st1))
  /\ (Exists (fun s => exists k, sig_index s = Some k /\ 0 <= k) sigs ->
      exists before s after m,
        sigs = before ++ s :: after
        /\ sig_index s = Some m
        /\ (forall s' k, s' ∈ before -> sig_index s' = Some k -> k < m)
        /\ (forall s' k, s' ∈ after -> sig_index s' = Some k -> k <= m)
        /\ signature_help ls params st
           = (Ok (Some (mkSignatureHelp [signature_information s] 0 m)), st1)).
Proof.
  intros Hs sigs.
  assert (Hinit : chosen [] (-1) (-1)).
  { left. split; [reflexivity|]. split; [reflexivity|].
    intros s k Hin. inversion Hin. }
  destruct (signature_loop_chosen sigs [] (-1) (-1) Hinit)
    as (idx & m & Hloop & Hfinal).
  change (Z.of_nat (length (indexed []))) with 0 in Hloop.
  change (map signature_information (indexed [])) with
    (@nil SignatureInformation) in Hloop.
  change ([] ++ sigs) with sigs in Hloop, Hfinal.
  unfold signature_help, bindM. rewrite Hs. fold sigs. rewrite Hloop.
  split.
  - intros Hnone.
    assert (Hempty : indexed sigs = []).
    { clear - Hnone. induction Hnone as [|s l Hs _ IH]; [reflexivity|].
      cbn [indexed]. rewrite Hs. exact IH. }
    rewrite Hempty. reflexivity.
  - intros Hsome.
    destruct Hfinal as [(_ & _ & Hlow)
                       | (b & s & a & Heq & -> & Hidx & Hpos & Hb & Ha)].
    + exfalso. apply Exists_exists in Hsome as (s & Hin & k & Hk & Hge).
      specialize (Hlow s k Hin Hk). lia.
    + exists b, s, a, m. repeat (split; [assumption|]).
      rewrite Heq, indexed_app. cbn [indexed]. rewrite Hidx.
      destruct (map signature_information (indexed b ++ s :: indexed a))
        as [|info infos] eqn:Hmap.
      { apply (f_equal length) in Hmap.
        rewrite length_map, length_app in Hmap. cbn [length] in Hmap. lia. }
      rewrite <- Hmap. unfold lift.
      rewrite (index_middle signature_information (indexed b) (indexed a) s).
      reflexivity.
Qed.

End SignatureFacts.

(** ** Document symbols *)

Section SymbolFacts.

Import Features.

Context `{ext : Externals} `{eng : Engine}.

Lemma flat_names_unfold (n : string) (k : SymbolKind) (r1 r2 : Range)
      (children : list DocumentSymbol) :
  flat_names (mkDocumentSymbol n k r1 r2 children) = n :: forest_names children.
Proof.
  cbn [flat_names]. f_equal. unfold forest_names.
  induction children as [|c children IH]; [reflexivity|].
  cbn [map concat]. rewrite IH. reflexivity.
Qed.

Lemma forest_names_app (a b : list DocumentSymbol) :
  forest_names (a ++ b) = forest_names a ++ forest_names b.
Proof. unfold forest_names. rewrite map_app, concat_app. reflexivity. Qed.

Lemma symbol_range_indexable (code_lines : list string) (name : SymbolName) :
  indexable code_lines (sym_line name - 1)
  <-> exists r, symbol_range code_lines name = Ok r.
Proof.
  unfold symbol_range. rewrite index_indexable. split.
  - intros (l & ->). eexists. reflexivity.
  - intros (r & Hr).
    destruct (index code_lines (sym_line name - 1)) as [l|e]; [eauto|discriminate].
Qed.

(** A call with more fuel than names answers, and leaves no more names
    than it was given. *)
Lemma symbols_from_answers (code_lines : list string) (fuel : nat) :
  forall names current result,
    (length names < fuel)%nat ->
    exists o,
      symbols_from fuel code_lines names current result = Some o
      /\ forall syms rest, o = Ok (syms, rest) ->
                           (length rest <= length names)%nat.
Proof.
  induction fuel as [|fuel IH]; intros names current result Hfuel; [lia|].
  cbn [symbols_from]. destruct names as [|name names].
  - eexists. split; [reflexivity|]. intros syms rest [= <- <-]. lia.
  - cbn [length] in Hfuel. destruct (leaves current name).
    + eexists. split; [reflexivity|]. intros syms rest [= <- <-]. lia.
    + destruct (String.eqb (sym_type name) "param").
      * destruct (IH names current result ltac:(lia)) as (o & -> & Ho).
        eexists. split; [reflexivity|]. intros syms rest ->.
        specialize (Ho _ _ eq_refl). cbn [length]. lia.
      * destruct (IH names (Some name) [] ltac:(lia)) as (o1 & -> & Ho1).
        destruct o1 as [[children rest']|e].
        -- specialize (Ho1 _ _ eq_refl).
           destruct (symbol_range code_lines name) as [r|e].
           ++ destruct (IH rest' current
                          (result ++ [mkDocumentSymbol (sym_name name)
                             (symbol_kind (sym_type name)) r r children])
                          ltac:(lia)) as (o2 & -> & Ho2).
              eexists. split; [reflexivity|]. intros syms rest ->.
              specialize (Ho2 _ _ eq_refl). cbn [length]. lia.
           ++ eexists. split; [reflexivity|]. discriminate.
        -- eexists. split; [reflexivity|]. discriminate.
Qed.

(** What a call that returns has done: it took the names [consumed] off
    the front of the list, the line of each of them that is not a parameter
    exists, and the symbols it added list those names, parents first. A
    call without [current] leaves nothing. *)
Lemma symbols_from_returns (code_lines : list string) (fuel : nat) :
  forall names current result syms rest,
    symbols_from fuel code_lines names current result = Some (Ok (syms, rest)) ->
    exists added consumed,
      syms = result ++ added
      /\ names = consumed ++ rest
      /\ forest_names added = map sym_name (visible consumed)
      /\ Forall (fun n => indexable code_lines (sym_line n - 1))
                (visible consumed)
      /\ (current = None -> rest = []).
Proof.
  induction fuel as [|fuel IH]; intros names current result syms rest;
    [discriminate|].
  cbn [symbols_from]. destruct names as [|name names].
  - intros [= <- <-]. exists [], []. rewrite app_nil_r. repeat split; constructor.
  - destruct (leaves current name) eqn:Hleave.
    + intros [= <- <-]. exists [], []. rewrite app_nil_r.
      repeat split; try constructor.
      intros ->. discriminate.
    + destruct (String.eqb (sym_type name) "param") eqn:Hparam.
      * intros Hrun.
        destruct (IH _ _ _ _ _ Hrun) as (added & consumed & -> & -> & Hn & Hi & Hr).
        exists added, (name :: consumed). cbn [visible]. rewrite Hparam. auto.
      * destruct (symbols_from fuel code_lines names (Some name) [])
          as [[[children rest']|e]|] eqn:Hchildren; try discriminate.
        destruct (symbol_range code_lines name) as [r|e] eqn:Hrange;
          [|discriminate].
        intros Hrun.
        destruct (IH _ _ _ _ _ Hchildren) as (ch & c1 & Hch & -> & Hn1 & Hi1 & _).
        cbn [app] in Hch. subst ch.
        destruct (IH _ _ _ _ _ Hrun) as (added & c2 & -> & -> & Hn2 & Hi2 & Hr).
        eexists (_ :: added), (name :: c1 ++ c2).
        split; [rewrite <- ?app_assoc; reflexivity|].
        split; [cbn [app]; rewrite <- ?app_assoc; reflexivity|].
        assert (Hvis : visible (name :: c1 ++ c2)
                       = name :: visible c1 ++ visible c2).
        { cbn [visible]. rewrite Hparam. f_equal.
          clear. induction c1 as [|x c1 IH]; [reflexivity|].
          cbn [app visible]. destruct (String.eqb _ _); rewrite IH; reflexivity. }
        rewrite Hvis. split; [|split; [|exact Hr]].
        -- change (forest_names (?d :: added))
             with (flat_names d ++ forest_names added).
           rewrite flat_names_unfold, Hn1, Hn2. cbn [map app].
           rewrite map_app. reflexivity.
        -- constructor.
           ++ apply symbol_range_indexable. eauto.
           ++ apply Forall_app_2; assumption.
Qed.

(** A call raises only for a missing line. *)
Lemma symbols_from_total (code_lines : list string) (fuel : nat) :
  forall names current result,
    (length names < fuel)%nat ->
    Forall (fun n => indexable code_lines (sym_line n - 1)) (visible names) ->
    exists syms rest,
      symbols_from fuel code_lines names current result = Some (Ok (syms, rest)).
Proof.
  induction fuel as [|fuel IH]; intros names current result Hfuel Hall; [lia|].
  cbn [symbols_from]. destruct names as [|name names]; [eauto|].
  cbn [length] in Hfuel. destruct (leaves current name); [eauto|].
  cbn [visible] in Hall.
  destruct (String.eqb (sym_type name) "param").
  - apply IH; [lia | exact Hall].
  - apply Forall_cons in Hall as [Hname Hall].
    destruct (IH names (Some name) [] ltac:(lia) Hall) as (children & rest' & Hc).
    rewrite Hc.
    destruct (proj1 (symbol_range_indexable _ _) Hname) as (r & ->).
    destruct (symbols_from_answers code_lines fuel names (Some name) []
                ltac:(lia)) as (o & Ho & Hlen).
    rewrite Hc in Ho. injection Ho as <-. specialize (Hlen _ _ eq_refl).
    destruct (symbols_from_returns _ _ _ _ _ _ _ Hc)
      as (ch & c1 & _ & Hnames & _ & _ & _).
    apply IH; [lia|].
    rewrite Hnames in Hall. clear - Hall.
    induction c1 as [|x c1 IHc]; [exact Hall|].
    cbn [app visible] in Hall. destruct (String.eqb _ _); [auto|].
    apply Forall_cons in Hall as [_ Hall]. auto.
Qed.

(** X28. The symbol tree is always built within the calls allotted to
    it. It is returned exactly when every name that is not a parameter
    lies on a line the code has, and an [IndexError] is raised otherwise;
    the tree then holds every such name exactly once, and read parents
    first it lists them in the order of the engine. *)
Theorem get_document_symbols_tree (code_lines : list string)
        (names : list SymbolName) :
  is_Some (_get_document_symbols code_lines names)
  /\ (Forall (fun n => indexable code_lines (sym_line n - 1)) (visible names)
      <-> exists tree, _get_document_symbols code_lines names = Some (Ok tree))
  /\ forall tree,
       _get_document_symbols code_lines names = Some (Ok tree) ->
       forest_names tree = map sym_name (visible names).
Proof.
  unfold _get_document_symbols.
  destruct (symbols_from_answers code_lines (S (length names)) names None []
              ltac:(lia)) as (o & Ho & _).
  rewrite Ho. split; [destruct o as [[syms rest]|e]; eauto|].
  split; [split|].
  - intros Hall.
    destruct (symbols_from_total code_lines (S (length names)) names None []
                ltac:(lia) Hall) as (syms & rest & Hrun).
    rewrite Ho in Hrun. injection Hrun as ->. eauto.
  - intros (tree & Htree). destruct o as [[syms rest]|e]; [|discriminate].
    destruct (symbols_from_returns _ _ _ _ _ _ _ Ho)
      as (added & consumed & _ & -> & _ & Hi & Hrest).
    rewrite (Hrest eq_refl), app_nil_r. exact Hi.
  - intros tree Htree. destruct o as [[syms rest]|e]; [|discriminate].
    injection Htree as <-.
    destruct (symbols_from_returns _ _ _ _ _ _ _ Ho)
      as (added & consumed & -> & -> & Hn & _ & Hrest).
    rewrite (Hrest eq_refl), app_nil_r. exact Hn.
Qed.

(** The flat list, when every line exists. *)
Lemma document_symbol_plain_names (uri : string) (code_lines : list string)
      (names : list SymbolName) :
  Forall (fun n => indexable code_lines (sym_line n - 1)) (visible names) ->
  exists flat,
    _document_symbol_plain uri code_lines names = Ok flat
    /\ map sy_name flat = map sym_name (visible names)
    /\ Forall (fun i => loc_uri (sy_location i) = uri) flat.
Proof.
  induction names as [|n names IH]; intros Hall.
  - exists []. repeat split; constructor.
  - cbn [_document_symbol_plain visible] in Hall |- *.
    destruct (String.eqb (sym_type n) "param"); [exact (IH Hall)|].
    apply Forall_cons in Hall as [Hn Hall].
    destruct (proj1 (symbol_range_indexable _ _) Hn) as (r & ->).
    destruct (IH Hall) as (flat & -> & Hnames & Huri).
    cbn [bind]. eexists. split; [reflexivity|].
    cbn [map sy_name]. rewrite Hnames.
    split; [reflexivity|]. constructor; [reflexivity | exact Huri].
Qed.

(** X29. A document without names gets no symbol response. Otherwise,
    when every name that is not a parameter lies on a line the code has,
    the request is answered with the symbol tree for a client with
    hierarchical symbol support and with the flat list for one without, and
    the two presentations agree: both list the names that are not
    parameters, once each, in the order of the engine, the tree read
    parents first; every entry of the flat list is located in the
    document. *)
Theorem document_symbol_variants (ls : LanguageServer) (uri : string)
        (st st1 : state) (script : Script) (b b' : bool) :
  get_script ls uri false st = (Ok script, st1) ->
  (get_names script = [] ->
   forall caps, document_symbol caps ls uri st = Some (Ok NoSymbols, st1))
  /\ (get_names script <> [] ->
      Forall (fun n => indexable (_code_lines script) (sym_line n - 1))
             (visible (get_names script)) ->
      exists tree flat,
        document_symbol (mkCapabilities b true) ls uri st
        = Some (Ok (Hierarchy tree), st1)
        /\ document_symbol (mkCapabilities b' false) ls uri st
           = Some (Ok (Flat flat), st1)
        /\ forest_names tree = map sy_name flat
        /\ map sy_name flat = map sym_name (visible (get_names script))
        /\ Forall (fun i => loc_uri (sy_location i) = uri) flat).
Proof.
  intros Hs. unfold document_symbol. rewrite Hs. split.
  - intros -> caps. reflexivity.
  - intros Hnames Hall.
    destruct (get_names script) as [|n names] eqn:Hn; [contradiction|].
    rewrite <- Hn in *. clear Hn Hnames.
    destruct (document_symbol_plain_names uri _ _ Hall)
      as (flat & Hflat & Hfn & Huri).
    destruct (symbols_from_total (_code_lines script)
                (S (length (get_names script))) (get_names script) None []
                ltac:(lia) Hall) as (tree & rest & Hrun).
    destruct (symbols_from_returns _ _ _ _ _ _ _ Hrun)
      as (added & consumed & Hadd & Hcons & Htn & _ & Hrest).
    cbn [app] in Hadd. subst added.
    rewrite (Hrest eq_refl), app_nil_r in Hcons. subst consumed.
    exists tree, flat.
    unfold documentSymbolFunction, _document_symbol_hierarchy,
      _get_document_symbols.
    cbn [hierarchicalDocumentSymbolSupport]. rewrite Hrun, Hflat. cbn [bind].
    repeat split; auto. congruence.
Qed.

Lemma str_length_app (a b : string) :
  String.length (a +:+ b) = (String.length a + String.length b)%nat.
Proof.
  induction a as [|c a IH]; [reflexivity|].
  rewrite str_app_cons. cbn [String.length]. rewrite IH. reflexivity.
Qed.

Lemma prefix_app (a b : string) : String.prefix a (a +:+ b) = true.
Proof.
  induction a as [|c a IH]; [destruct b; reflexivity|].
  rewrite str_app_cons. cbn [String.prefix].
  destruct (ascii_dec c c); [exact IH | contradiction].
Qed.

Lemma slice_from_app (a b : string) :
  slice_from (String.length a) (a +:+ b) = b.
Proof.
  induction a as [|c a IH]; [reflexivity|].
  rewrite str_app_cons. exact IH.
Qed.

(** X30. The container name of a flat symbol is the full name of its
    parent made relative to the module: none for a name without a parent
    and for a name whose parent is the module itself, and for a parent
    named [module.rest] the part [rest] after the module name and the
    dot. *)
Theorem container_name_relative (name : SymbolName) :
  (sym_parent_full_name name = None -> container_name name = None)
  /\ (sym_module_name name <> "" ->
      sym_parent_full_name name = Some (sym_module_name name) ->
      container_name name = None)
  /\ (forall rest,
        sym_parent_full_name name
        = Some (sym_module_name name +:+ "." +:+ rest) ->
        container_name name = Some rest).
Proof.
  unfold container_name. split; [intros ->; reflexivity|]. split.
  - intros Hmod ->.
    rewrite (proj2 (truthy_spec _) Hmod), String.eqb_refl. reflexivity.
  - intros rest ->.
    assert (Hne : sym_module_name name +:+ "." +:+ rest <> "").
    { intros H. apply (f_equal String.length) in H.
      rewrite !str_length_app in H. cbn in H. lia. }
    rewrite (proj2 (truthy_spec _) Hne).
    destruct (String.eqb_spec (sym_module_name name +:+ "." +:+ rest)
                              (sym_module_name name)) as [H|_].
    { apply (f_equal String.length) in H.
      rewrite !str_length_app in H. cbn in H. lia. }
    unfold startswith.
    rewrite <- (str_app_assoc (sym_module_name name) "." rest).
    rewrite prefix_app.
    replace (String.length (sym_module_name name) + 1)%nat
      with (String.length (sym_module_name name +:+ "."))
      by (rewrite str_length_app; reflexivity).
    rewrite slice_from_app. reflexivity.
Qed.

End SymbolFacts.

(** * Concrete runs *)

#[local] Existing Instance Demo.demo.

Lemma flake_diagnostic_witness :
  exists d body eols,
    flake (Demo.demo_script (Diff.ln "import os") "/w/m.py") ["UndefinedName"]
          [] (mkFlakeMessage "UnusedImport" 1 7 "%r imported but unused" ["os"])
    = Ok ([] ++ [d])
    /\ ("UnusedImport" ∈ ["UndefinedName"] -> severity d = Error)
    /\ ("UnusedImport" ∉ ["UndefinedName"] -> severity d = Warning)
    /\ Diff.ln "import os" = body +:+ eols
    /\ all_eol eols = true
    /\ ends_with_eol body = false
    /\ range d = mkRange (mkPosition (1 - 1) 7) (mkPosition (1 - 1) (len body)).
Proof.
  apply (flake_diagnostic
           (Demo.demo_script (Diff.ln "import os") "/w/m.py")
           ["UndefinedName"] []
           (mkFlakeMessage "UnusedImport" 1 7 "%r imported but unused" ["os"])
           (Diff.ln "import os")).
  vm_compute. reflexivity.
Defined.

(** C6. The diagnostic [syntaxError] builds for a syntax error reported
    at offset 5 of the line [f(a b)] starts at column 5 and ends at column
    1: the end column does not exceed the start column. *)
Theorem syntaxError_end_before_start :
  exists d,
    syntaxError (Demo.demo_script "f(a b)" "/w/m.py") [] "invalid syntax" 1
                (Some 5)
    = Ok [d]
    /\ character (start (range d)) = 5
    /\ character (end_ (range d)) = 1
    /\ character (end_ (range d)) < character (start (range d)).
Proof.
  eexists. split; [vm_compute; reflexivity|]. cbn. repeat split; lia.
Qed.

Lemma locations_response_witness :
  exists script names,
    get_script Demo.demo_ls "file:///w/m.py" false initial
    = (Ok script,
       mkState {[ "file:///w/m.py" := Demo.demo_script "spam" "/w/m.py" ]}
               ∅ ∅ default_config [NewScript "spam" "/w/m.py"])
    /\ (names = goto script (0 + 1) 0 \/ names = get_references script (0 + 1) 0)
    /\ length [mkLocation "file:///w/m.py"
                          (mkRange (mkPosition 2 4) (mkPosition 2 8))]
       = length (filter (fun d => has_module_path d = true) names)
    /\ forall loc,
         loc ∈ [mkLocation "file:///w/m.py"
                           (mkRange (mkPosition 2 4) (mkPosition 2 8))] <->
         exists d p,
           d ∈ names /\ module_path d = Some p /\ truthy p = true
           /\ loc = mkLocation (from_fs_path p)
                      (mkRange (mkPosition (n_line d - 1) (n_column d))
                               (mkPosition (n_line d - 1)
                                           (n_column d + len (name d)))).
Proof.
  apply (locations_response Demo.demo_ls
           (mkPositionParams "file:///w/m.py" (mkPosition 0 0)) initial
           (mkState {[ "file:///w/m.py" := Demo.demo_script "spam" "/w/m.py" ]}
                    ∅ ∅ default_config [NewScript "spam" "/w/m.py"])
           [mkLocation "file:///w/m.py"
                       (mkRange (mkPosition 2 4) (mkPosition 2 8))]).
  right. vm_compute. reflexivity.
Defined.

(** C4 (as stated). A forced refresh whose construction raises leaves
    the handle cached before the call in the cache: the identifier still
    has an entry, and the next call returns that handle without
    constructing. *)
Lemma get_script_failure_keeps_entry :
  exists e st',
    get_script Demo.demo_ls "file:///w/broken.py" true Demo.demo_cached
    = (Raise e, st')
    /\ scripts st' !! "file:///w/broken.py" <> None
    /\ get_script Demo.demo_ls "file:///w/broken.py" false st'
       = (Ok (Demo.demo_script "x = 0" "/w/broken.py"), st').
Proof.
  eexists _, _. split; [vm_compute; reflexivity|].
  split; [vm_compute; discriminate | vm_compute; reflexivity].
Defined.

Lemma get_script_failure_witness :
  exists st',
    get_script Demo.demo_ls "file:///w/broken.py" false initial
    = (Raise (OSError "cannot read"), st')
    /\ scripts st' = scripts initial
    /\ pycodestyleOptions st' = pycodestyleOptions initial
    /\ mypyConfigs st' = mypyConfigs initial
    /\ config st' = config initial
    /\ (scripts initial !! "file:///w/broken.py" = None ->
        scripts st' !! "file:///w/broken.py" = None
        /\ get_script Demo.demo_ls "file:///w/broken.py" false st'
           = get_script Demo.demo_ls "file:///w/broken.py" true st').
Proof.
  apply (get_script_failure Demo.demo_ls "file:///w/broken.py" false initial
           (OSError "cannot read")).
  - right. vm_compute. reflexivity.
  - vm_compute. reflexivity.
Defined.

Lemma validate_syntax_errors_witness :
  exists st' diagnostics,
    _validate Demo.demo_ls "file:///w/bad.py" initial = (Ok tt, st')
    /\ published (events_since initial st')
       = [("file:///w/bad.py", diagnostics)]
    /\ Forall (fun e => is_checker_run e = false) (events_since initial st')
    /\ Forall2
         (fun x d =>
            d = mkDiagnostic
                  (mkRange (mkPosition (se_line x - 1) (se_column x))
                           (mkPosition (se_until_line x - 1)
                                       (se_until_column x)))
                  "Invalid syntax" Error None "jedi")
         (get_syntax_errors (Demo.demo_script "(" "/w/bad.py")) diagnostics.
Proof.
  apply (validate_syntax_errors Demo.demo_ls "file:///w/bad.py" initial
           (mkState {[ "file:///w/bad.py" := Demo.demo_script "(" "/w/bad.py" ]}
                    ∅ ∅ default_config [NewScript "(" "/w/bad.py"])
           (Demo.demo_script "(" "/w/bad.py")).
  - vm_compute. reflexivity.
  - vm_compute. discriminate.
Defined.

(** C8. A selection that gets an action. The range runs from line 1,
    character 3 to line 3, character 1; its start lists the key [line]
    first and its end the key [character] first, so that both objects are
    the tuple [(1, 3)]. The handler takes the selection for a cursor: it
    builds a handle, calls the inline refactoring at [(2, 3)] and returns
    the action, where a range whose start differs from its end should get
    [None] with no call of the engine. *)
Theorem code_action_selection_inlines :
  position_of (mkPositionObject LineCharacter (mkPosition 1 3))
  <> position_of (mkPositionObject CharacterLine (mkPosition 3 1))
  /\ code_action Demo.demo_ls
       (mkCodeActionParams "file:///w/m.py"
          (mkRangeObject (mkPositionObject LineCharacter (mkPosition 1 3))
                         (mkPositionObject CharacterLine (mkPosition 3 1))))
       initial
     = (Ok (Some [mkCodeAction "Inline variable" RefactorInline
                    (mkWorkspaceEdit
                       [mkTextDocumentEdit
                          (mkVersioned "file:///w/m.py" (Some 3))
                          [mkTextEdit
                             (mkRange (mkPosition 1 0) (mkPosition 2 0))
                             (Diff.ln "x")]])]),
        mkState {[ "file:///w/m.py" := Demo.demo_script "spam" "/w/m.py" ]}
                ∅ ∅ default_config
                [NewScript "spam" "/w/m.py"; InlineCalled "/w/m.py" 2 3]).
Proof.
  split; [discriminate|]. vm_compute. reflexivity.
Qed.

(** The same selection with the keys of both positions in one order gets
    no action and leaves no event. *)
Example selection_same_keys_no_action :
  code_action Demo.demo_ls
    (mkCodeActionParams "file:///w/m.py"
       (mkRangeObject (mkPositionObject LineCharacter (mkPosition 1 3))
                      (mkPositionObject LineCharacter (mkPosition 3 1))))
    initial
  = (Ok None, initial).
Proof. vm_compute. reflexivity. Qed.

(** Conversely, a cursor whose two positions list their keys in different
    orders is taken for a selection: no handle is built and the engine is
    not asked. *)
Example cursor_mixed_keys_no_action :
  code_action Demo.demo_ls
    (mkCodeActionParams "file:///w/m.py"
       (mkRangeObject (mkPositionObject LineCharacter (mkPosition 1 3))
                      (mkPositionObject CharacterLine (mkPosition 1 3))))
    initial
  = (Ok None, initial).
Proof. vm_compute. reflexivity. Qed.

(** The two-file scenario: only the file that changes gets a group. *)
Example two_files_one_group :
  _get_document_changes Demo.demo_ls Demo.demo_refactoring
  = Ok [mkTextDocumentEdit
          (mkVersioned "file:///w/m.py" (Some 3))
          [mkTextEdit (mkRange (mkPosition 1 0) (mkPosition 2 0))
                      (Diff.ln "x")]].
Proof. vm_compute. reflexivity. Qed.

(** A cursor whose inline refactoring changes nothing gets no action. *)
Example idle_refactoring_no_action :
  (code_action Demo.demo_ls
     (mkCodeActionParams "file:///w/m.py"
        (mkRangeObject (mkPositionObject LineCharacter (mkPosition 1 0))
                       (mkPositionObject LineCharacter (mkPosition 1 0))))
     initial).1
  = Ok None.
Proof. vm_compute. reflexivity. Qed.

Lemma document_changes_omit_empty_witness :
  exists groups,
    _get_document_changes Demo.demo_ls Demo.idle_refactoring = Ok groups
    /\ groups = omap (edit_group Demo.demo_ls)
                     (get_changed_files Demo.idle_refactoring)
    /\ (forall item,
          Coalescer._get_text_edits split_lines compare item.2 = Ok [] ->
          edit_group Demo.demo_ls item = None)
    /\ Forall (fun g => edits g <> []) groups
    /\ (Forall (fun item =>
                  Coalescer._get_text_edits split_lines compare item.2 = Ok [])
               (get_changed_files Demo.idle_refactoring) ->
        groups = []
        /\ forall params st st1 script,
             get_script Demo.demo_ls (ca_uri params) false st
             = (Ok script, st1) ->
             inline script
                    (line (position_of (ro_start (ca_range params))) + 1)
                    (character (position_of (ro_start (ca_range params))))
             = Ok Demo.idle_refactoring ->
             exists st', code_action Demo.demo_ls params st = (Ok None, st')).
Proof.
  apply (document_changes_omit_empty Demo.demo_ls Demo.idle_refactoring).
  repeat constructor. eexists. vm_compute. reflexivity.
Defined.

(** By contrast, a configuration change that carries [mypy_enabled]
    validates every open document again, running the checkers. *)
Example mypy_key_revalidates :
  let r :=
    did_change_configuration Demo.demo_ls
      (mkConfigurationParams
         (Some (Some (mkAnakinSettings None None None (Some true))))) initial in
  r.1 = Ok tt
  /\ map fst (published (trace r.2)) = ["file:///w/m.py"; "file:///w/bad.py"]
  /\ Exists (fun e => is_checker_run e = true) (trace r.2).
Proof.
  vm_compute. split; [reflexivity|]. split; [reflexivity|].
  apply Exists_cons_tl, Exists_cons_hd. reflexivity.
Qed.

(** ** Runs for the further properties *)

#[local] Existing Instance DemoFeatures.demo_engine.

Lemma get_script_then_cached_witness :
  scripts (get_script Demo.demo_ls "file:///w/m.py" false initial).2
  !! "file:///w/m.py" = Some (Demo.demo_script "spam" "/w/m.py")
  /\ get_script Demo.demo_ls "file:///w/m.py" false
       (get_script Demo.demo_ls "file:///w/m.py" false initial).2
     = (Ok (Demo.demo_script "spam" "/w/m.py"),
        (get_script Demo.demo_ls "file:///w/m.py" false initial).2).
Proof.
  apply (get_script_then_cached Demo.demo_ls "file:///w/m.py" false initial).
  vm_compute. reflexivity.
Defined.

Lemma get_script_frame_witness :
  (forall other,
     other <> "file:///w/m.py" ->
     scripts (get_script Demo.demo_ls "file:///w/m.py" true Demo.demo_cached).2
     !! other = scripts Demo.demo_cached !! other)
  /\ pycodestyleOptions
       (get_script Demo.demo_ls "file:///w/m.py" true Demo.demo_cached).2
     = pycodestyleOptions Demo.demo_cached
  /\ mypyConfigs
       (get_script Demo.demo_ls "file:///w/m.py" true Demo.demo_cached).2
     = mypyConfigs Demo.demo_cached
  /\ config (get_script Demo.demo_ls "file:///w/m.py" true Demo.demo_cached).2
     = config Demo.demo_cached.
Proof.
  apply (get_script_frame Demo.demo_ls "file:///w/m.py" true Demo.demo_cached
           _ (Ok (Demo.demo_script "spam" "/w/m.py"))).
  vm_compute. reflexivity.
Defined.

Lemma did_change_rebuilds_witness :
  exists st',
    did_change Demo.demo_ls "file:///w/m.py" initial = (Ok tt, st')
    /\ scripts st'
       = <["file:///w/m.py" := Demo.demo_script "spam" "/w/m.py"]>
           (scripts initial)
    /\ events_since initial st'
       = [NewScript "spam"
            (doc_path (get_document Demo.demo_ls "file:///w/m.py"))].
Proof.
  apply (did_change_rebuilds Demo.demo_ls "file:///w/m.py" initial "spam"
           (Demo.demo_script "spam" "/w/m.py")); vm_compute; reflexivity.
Defined.

Lemma syntaxError_whole_line_witness :
  exists d body eols,
    syntaxError (Demo.demo_script (Diff.ln "f(a b)") "/w/m.py") []
                "invalid syntax" 1 None = Ok ([] ++ [d])
    /\ Diff.ln "f(a b)" = body +:+ eols
    /\ all_eol eols = true
    /\ ends_with_eol body = false
    /\ range d = mkRange (mkPosition (1 - 1) 0) (mkPosition (1 - 1) (len body)).
Proof.
  apply (syntaxError_whole_line
           (Demo.demo_script (Diff.ln "f(a b)") "/w/m.py") [] "invalid syntax"
           1 None (Diff.ln "f(a b)")).
  - left. reflexivity.
  - vm_compute. reflexivity.
Defined.

Lemma validate_collection_order_witness :
  exists d1 d2 d3,
    published (events_since initial
                 (_validate Demo.demo_ls "file:///w/m.py" initial).2)
    = [("file:///w/m.py", d1 ++ d2 ++ d3)]
    /\ length d1
       = length (pyflakes_check (_code (Demo.demo_script "spam" "/w/m.py"))
                                (path (Demo.demo_script "spam" "/w/m.py")))
    /\ Forall (fun d => source d = "pyflakes") d1
    /\ Forall (fun d => source d = "pycodestyle" /\ severity d = Warning) d2
    /\ Forall (fun d => source d = "mypy") d3
    /\ (mypy_enabled (config initial) = false -> d3 = []).
Proof.
  apply (validate_collection_order Demo.demo_ls "file:///w/m.py" initial
           (get_script Demo.demo_ls "file:///w/m.py" false initial).2
           (Demo.demo_script "spam" "/w/m.py")); vm_compute; reflexivity.
Defined.

Lemma validate_without_mypy_witness :
  Forall (fun e => is_mypy_run e = false)
         (events_since initial
            (_validate Demo.demo_ls "file:///w/m.py" initial).2)
  /\ mypyConfigs (_validate Demo.demo_ls "file:///w/m.py" initial).2
     = mypyConfigs initial
  /\ config (_validate Demo.demo_ls "file:///w/m.py" initial).2
     = config initial.
Proof.
  apply (validate_without_mypy Demo.demo_ls "file:///w/m.py" initial).
  reflexivity.
Defined.

Lemma did_change_configuration_revalidates_witness :
  did_change_configuration Demo.demo_ls
    (mkConfigurationParams
       (Some (Some (mkAnakinSettings None None None (Some true))))) initial
  = for_each (documents Demo.demo_ls) (_validate Demo.demo_ls)
      (mkState (scripts initial) (pycodestyleOptions initial) ∅
               (apply_settings (mkAnakinSettings None None None (Some true))
                               (config initial))
               (trace initial)).
Proof.
  apply (did_change_configuration_revalidates Demo.demo_ls
           (mkAnakinSettings None None None (Some true)) initial).
  right. right. eexists. reflexivity.
Defined.

Lemma code_action_engine_errors_witness :
  code_action Demo.demo_ls
    (mkCodeActionParams "file:///w/m.py"
       (mkRangeObject (mkPositionObject CharacterLine (mkPosition 7 0))
                      (mkPositionObject CharacterLine (mkPosition 7 0))))
    initial
  = (Ok None,
     (emit (InlineCalled (path (Demo.demo_script "spam" "/w/m.py")) (7 + 1) 0)
           (get_script Demo.demo_ls "file:///w/m.py" false initial).2).2).
Proof.
  apply (code_action_engine_errors Demo.demo_ls
           (mkCodeActionParams "file:///w/m.py"
              (mkRangeObject (mkPositionObject CharacterLine (mkPosition 7 0))
                             (mkPositionObject CharacterLine (mkPosition 7 0))))
           initial (get_script Demo.demo_ls "file:///w/m.py" false initial).2
           (Demo.demo_script "spam" "/w/m.py")
           (RefactoringError "No name found to inline"));
    vm_compute; reflexivity.
Defined.

Lemma code_action_some_witness :
  as_tuple (mkPositionObject LineCharacter (mkPosition 0 0))
  = as_tuple (mkPositionObject LineCharacter (mkPosition 0 0))
  /\ (LineCharacter = LineCharacter -> mkPosition 0 0 = mkPosition 0 0)
  /\ exists groups,
       [mkCodeAction "Inline variable" RefactorInline
          (mkWorkspaceEdit
             [mkTextDocumentEdit
                (mkVersioned "file:///w/m.py" (Some 3))
                [mkTextEdit (mkRange (mkPosition 1 0) (mkPosition 2 0))
                            (Diff.ln "x")]])]
       = [mkCodeAction "Inline variable" RefactorInline (mkWorkspaceEdit groups)]
       /\ groups <> []
       /\ Forall (fun g => edits g <> []) groups.
Proof.
  apply (code_action_some Demo.demo_ls
           (mkCodeActionParams "file:///w/m.py"
              (mkRangeObject (mkPositionObject LineCharacter (mkPosition 0 0))
                             (mkPositionObject LineCharacter (mkPosition 0 0))))
           initial
           (code_action Demo.demo_ls
              (mkCodeActionParams "file:///w/m.py"
                 (mkRangeObject
                    (mkPositionObject LineCharacter (mkPosition 0 0))
                    (mkPositionObject LineCharacter (mkPosition 0 0))))
              initial).2).
  vm_compute. reflexivity.
Defined.

Lemma get_text_edits_empty_iff_witness :
  exists edits,
    Coalescer._get_text_edits Diff.lf_lines Diff.reference_compare
      Demo.replace_b_by_x = Ok edits
    /\ (edits = [] <->
        Forall (fun r => keeps r = true)
               (Diff.reference_script
                  (Diff.lf_lines (get_code Demo.replace_b_by_x))
                  (Diff.lf_lines (get_new_code Demo.replace_b_by_x)))).
Proof.
  apply (get_text_edits_empty_iff Diff.lf_lines Diff.reference_compare
           Demo.replace_b_by_x).
  reflexivity.
Defined.

Lemma get_text_edits_separated_witness :
  exists edits,
    Coalescer._get_text_edits Diff.lf_lines Diff.reference_compare
      Demo.replace_b_by_x = Ok edits
    /\ separated 0 edits
    /\ Forall (fun e => line (end_ (te_range e))
                        <= Z.of_nat (length [Diff.ln "a"; Diff.ln "b";
                                             Diff.ln "c"; ""])) edits.
Proof.
  apply (get_text_edits_separated Diff.lf_lines Diff.reference_compare
           Demo.replace_b_by_x
           [Diff.ln "a"; Diff.ln "b"; Diff.ln "c"; ""]
           [Diff.ln "a"; Diff.ln "x"; Diff.ln "c"; ""]).
  - vm_compute. reflexivity.
  - vm_compute. reflexivity.
  - exists [Diff.mkClassified Diff.Unchanged (Diff.ln "a");
            Diff.mkClassified Diff.Removed (Diff.ln "b");
            Diff.mkClassified Diff.Inserted (Diff.ln "x");
            Diff.mkClassified Diff.Unchanged (Diff.ln "c");
            Diff.mkClassified Diff.Unchanged ""].
    repeat split; vm_compute; reflexivity.
Defined.

Lemma completions_range_witness :
  exists script code_line w rest,
    get_script Demo.demo_ls "file:///w/m.py" false initial
    = (Ok script,
       (Features.completions (Features.mkCapabilities true false) Demo.demo_ls
          (mkPositionParams "file:///w/m.py" (mkPosition 0 2)) initial).2)
    /\ index (_code_lines script) 0 = Ok code_line
    /\ Features.slice_from_z 2 code_line = w +:+ rest
    /\ all_word w = true
    /\ starts_word rest = false
    /\ Features.is_incomplete
         (Features.mkCompletionList false
            (Features._completions_snippets
               (Features.complete (Demo.demo_script "spam" "/w/m.py") 1 2)
               (mkRange (mkPosition 0 2) (mkPosition 0 4)))) = false
    /\ Forall (fun item =>
                 forall e, Features.text_edit item = Some e ->
                   te_range e
                   = mkRange (mkPosition 0 2) (mkPosition 0 (2 + len w)))
              (Features.items
                 (Features.mkCompletionList false
                    (Features._completions_snippets
                       (Features.complete (Demo.demo_script "spam" "/w/m.py") 1 2)
                       (mkRange (mkPosition 0 2) (mkPosition 0 4))))).
Proof.
  apply (completions_range (Features.mkCapabilities true false) Demo.demo_ls
           (mkPositionParams "file:///w/m.py" (mkPosition 0 2)) initial).
  vm_compute. reflexivity.
Defined.

Lemma hover_response_witness :
  exists r,
    Features.hover Demo.demo_ls
      (mkPositionParams "file:///w/m.py" (mkPosition 3 0)) initial
    = (Ok r, (get_script Demo.demo_ls "file:///w/m.py" false initial).2)
    /\ (r = None <->
        Features.help (Demo.demo_script "spam" "/w/m.py") (3 + 1) 0 = []
        \/ Features.help (Demo.demo_script "spam" "/w/m.py") (3 + 1) 0 = [""])
    /\ (forall text,
          r = Some text ->
          text = Features.join_sep Features.hover_separator
                   (Features.help (Demo.demo_script "spam" "/w/m.py") (3 + 1) 0)).
Proof.
  apply (hover_response Demo.demo_ls
           (mkPositionParams "file:///w/m.py" (mkPosition 3 0)) initial
           (get_script Demo.demo_ls "file:///w/m.py" false initial).2
           (Demo.demo_script "spam" "/w/m.py")).
  vm_compute. reflexivity.
Defined.

Lemma hover_after_configuration_witness :
  (Features.hover Demo.demo_ls
     (mkPositionParams "file:///w/m.py" (mkPosition 0 0))
     (did_change_configuration Demo.demo_ls
        (mkConfigurationParams
           (Some (Some (mkAnakinSettings None None (Some false) None))))
        initial).2).1
  = Ok (if truthy
             (Features.join_sep Features.hover_separator
                (Features.infer (Demo.demo_script "spam" "/w/m.py") (0 + 1) 0))
        then Some (Features.join_sep Features.hover_separator
                     (Features.infer (Demo.demo_script "spam" "/w/m.py")
                        (0 + 1) 0))
        else None).
Proof.
  apply (hover_after_configuration Demo.demo_ls
           (mkPositionParams "file:///w/m.py" (mkPosition 0 0)) initial
           (get_script Demo.demo_ls "file:///w/m.py" false initial).2
           (Demo.demo_script "spam" "/w/m.py") false).
  vm_compute. reflexivity.
Defined.

Lemma signature_help_choice_witness :
  (Forall (fun s => Features.sig_index s = None) (Features.get_signatures (Demo.demo_script "spam" "/w/m.py") (0 + 1) 2) ->
   Features.signature_help Demo.demo_ls
     (mkPositionParams "file:///w/m.py" (mkPosition 0 2)) initial
   = (Ok None, (get_script Demo.demo_ls "file:///w/m.py" false initial).2))
  /\ (Exists (fun s => exists k, Features.sig_index s = Some k /\ 0 <= k)
             (Features.get_signatures (Demo.demo_script "spam" "/w/m.py") (0 + 1) 2) ->
      exists before s after m,
        (Features.get_signatures (Demo.demo_script "spam" "/w/m.py") (0 + 1) 2) = before ++ s :: after
        /\ Features.sig_index s = Some m
        /\ (forall s' k, s' ∈ before -> Features.sig_index s' = Some k -> k < m)
        /\ (forall s' k, s' ∈ after -> Features.sig_index s' = Some k -> k <= m)
        /\ Features.signature_help Demo.demo_ls
             (mkPositionParams "file:///w/m.py" (mkPosition 0 2)) initial
           = (Ok (Some (Features.mkSignatureHelp [signature_information s] 0 m)),
              (get_script Demo.demo_ls "file:///w/m.py" false initial).2)).
Proof.
  apply (signature_help_choice Demo.demo_ls
           (mkPositionParams "file:///w/m.py" (mkPosition 0 2)) initial
           (get_script Demo.demo_ls "file:///w/m.py" false initial).2
           (Demo.demo_script "spam" "/w/m.py")).
  vm_compute. reflexivity.
Defined.

Lemma document_symbol_variants_witness :
  (Features.get_names (Demo.demo_script "spam" "/w/m.py") = [] ->
   forall caps,
     Features.document_symbol caps Demo.demo_ls "file:///w/m.py" initial
     = Some (Ok Features.NoSymbols,
             (get_script Demo.demo_ls "file:///w/m.py" false initial).2))
  /\ (Features.get_names (Demo.demo_script "spam" "/w/m.py") <> [] ->
      Forall (fun n =>
                indexable (_code_lines (Demo.demo_script "spam" "/w/m.py"))
                          (Features.sym_line n - 1))
             (visible (Features.get_names (Demo.demo_script "spam" "/w/m.py"))) ->
      exists tree flat,
        Features.document_symbol (Features.mkCapabilities false true)
          Demo.demo_ls "file:///w/m.py" initial
        = Some (Ok (Features.Hierarchy tree),
                (get_script Demo.demo_ls "file:///w/m.py" false initial).2)
        /\ Features.document_symbol (Features.mkCapabilities false false)
             Demo.demo_ls "file:///w/m.py" initial
           = Some (Ok (Features.Flat flat),
                   (get_script Demo.demo_ls "file:///w/m.py" false initial).2)
        /\ forest_names tree = map Features.sy_name flat
        /\ map Features.sy_name flat
           = map Features.sym_name
                 (visible (Features.get_names
                             (Demo.demo_script "spam" "/w/m.py")))
        /\ Forall (fun i => loc_uri (Features.sy_location i) = "file:///w/m.py")
                  flat).
Proof.
  apply (document_symbol_variants Demo.demo_ls "file:///w/m.py" initial
           (get_script Demo.demo_ls "file:///w/m.py" false initial).2
           (Demo.demo_script "spam" "/w/m.py") false false).
  vm_compute. reflexivity.
Defined.

(** The symbol tree of the demonstration names: the method under its
    class, its parameter left out. *)
Example demo_symbol_tree :
  option_map (fun o => match o with Ok t => forest_names t | Raise _ => [] end)
             (Features._get_document_symbols ["class A: def run(self)"]
                                             DemoFeatures.demo_names)
  = Some ["A"; "run"; "main"].
Proof. vm_compute. reflexivity. Qed.
